(** * Assembler and simulation front end of the 16-bit RISC CPU

    A shallow embedding of [backend/assembler.py] and of the request path of
    [backend/server.py], with the properties of the specification stated
    against it.

    Conventions of the embedding.
    - Python [int] is [Z]; the code words are [Z] values built with
      [Z.shiftl], [Z.lor] and [Z.land] as the source builds them.
    - Python [str] is [string].  The text handled here is ASCII: the string
      primitives below ([strip], [split], [upper], [lower], [startswith],
      [replace]) follow Python on the characters 0..127.
    - The builtins [int(s, base)] and [f"{n:04X}"] are modelled in [PyInt]
      after the interpreter: blanks, sign, base prefix, single underscores
      between digits, and the limit on the digits of a decimal literal and
      of a printed integer.
    - A raised [ValueError] is a value of [asm_error]; [message] renders the
      text the source puts in the exception, and [result] is the outcome of
      a computation that returns or raises.
    - The two external processes and [json.loads] are parameters of the
      section that holds [run_simulation] and [simulate]; [json.loads]
      returns, raises [JSONDecodeError] or raises another exception.  The
      request body is the text under its "assembly" key, if any.  Temporary
      files, time limits and the HTTP layer are outside the model. *)

From Stdlib Require Import ZArith String Ascii List Lia Bool Sorted.
From Stdlib Require DecimalString HexadecimalString DecimalNat.
Import ListNotations.

Local Open Scope list_scope.
Local Open Scope string_scope.
Local Open Scope nat_scope.

(** ** Python string primitives *)

Module PyStr.

Definition code (c : ascii) : nat := nat_of_ascii c.

(** [str.isspace] on ASCII: TAB, LF, VT, FF, CR, the separators FS, GS, RS, US
    and the blank.  This is the set [str.strip()] and [str.split()] use. *)
Definition is_space (c : ascii) : bool :=
  let n := code c in
  ((9 <=? n) && (n <=? 13)) || ((28 <=? n) && (n <=? 32)).

Definition is_empty (s : string) : bool :=
  match s with
  | EmptyString => true
  | String _ _ => false
  end.

Fixpoint lstrip (s : string) : string :=
  match s with
  | EmptyString => EmptyString
  | String c s' => if is_space c then lstrip s' else s
  end.

Fixpoint rstrip (s : string) : string :=
  match s with
  | EmptyString => EmptyString
  | String c s' =>
      let r := rstrip s' in
      if is_empty r && is_space c then EmptyString else String c r
  end.

(** [s.strip()] *)
Definition strip (s : string) : string := rstrip (lstrip s).

Definition upper_char (c : ascii) : ascii :=
  let n := code c in
  if (97 <=? n) && (n <=? 122) then ascii_of_nat (n - 32) else c.

Definition lower_char (c : ascii) : ascii :=
  let n := code c in
  if (65 <=? n) && (n <=? 90) then ascii_of_nat (n + 32) else c.

Fixpoint map_chars (f : ascii -> ascii) (s : string) : string :=
  match s with
  | EmptyString => EmptyString
  | String c s' => String (f c) (map_chars f s')
  end.

(** [s.upper()] and [s.lower()] *)
Definition upper : string -> string := map_chars upper_char.
Definition lower : string -> string := map_chars lower_char.

(** [s.startswith(p)] *)
Fixpoint startswith (p s : string) : bool :=
  match p with
  | EmptyString => true
  | String a p' =>
      match s with
      | EmptyString => false
      | String b s' => Ascii.eqb a b && startswith p' s'
      end
  end.

(** [s.replace(c, '')] for a one-character [c] *)
Fixpoint remove_char (c : ascii) (s : string) : string :=
  match s with
  | EmptyString => EmptyString
  | String a s' =>
      if Ascii.eqb a c then remove_char c s' else String a (remove_char c s')
  end.

(** [s.replace(c, d)] for one-character [c] and [d] *)
Definition replace_char (c d : ascii) : string -> string :=
  map_chars (fun a => if Ascii.eqb a c then d else a).

(** [c in s] for a one-character [c] *)
Fixpoint contains (c : ascii) (s : string) : bool :=
  match s with
  | EmptyString => false
  | String a s' => Ascii.eqb a c || contains c s'
  end.

(** [s[:s.index(c)]]: the text before the first [c] (all of [s] when [c] does
    not occur; the source only takes this slice under [c in s]). *)
Fixpoint before_char (c : ascii) (s : string) : string :=
  match s with
  | EmptyString => EmptyString
  | String a s' => if Ascii.eqb a c then EmptyString else String a (before_char c s')
  end.

(** [s.split(c)] for a one-character separator: never the empty list. *)
Fixpoint split_char (c : ascii) (s : string) : list string :=
  match s with
  | EmptyString => [EmptyString]
  | String a s' =>
      if Ascii.eqb a c then EmptyString :: split_char c s'
      else
        match split_char c s' with
        | [] => [String a EmptyString]
        | h :: t => String a h :: t
        end
  end.

(** [s.split()]: the maximal runs of non-space characters. [cur] is the run
    being read. *)
Fixpoint split_ws_from (cur : string) (s : string) : list string :=
  match s with
  | EmptyString => if is_empty cur then [] else [cur]
  | String a s' =>
      if is_space a then
        if is_empty cur then split_ws_from EmptyString s'
        else cur :: split_ws_from EmptyString s'
      else split_ws_from (cur ++ String a EmptyString) s'
  end.

Definition split_ws (s : string) : list string := split_ws_from EmptyString s.

(** [sep.join(l)] *)
Fixpoint join (sep : string) (l : list string) : string :=
  match l with
  | [] => EmptyString
  | x :: rest =>
      match rest with
      | [] => x
      | _ :: _ => x ++ sep ++ join sep rest
      end
  end.

(** [s[n:]] and [s[:n]] for [n >= 0] *)
Fixpoint drop (n : nat) (s : string) : string :=
  match n, s with
  | O, _ => s
  | S _, EmptyString => EmptyString
  | S n', String _ s' => drop n' s'
  end.

Fixpoint take (n : nat) (s : string) : string :=
  match n, s with
  | O, _ => EmptyString
  | S _, EmptyString => EmptyString
  | S n', String c s' => String c (take n' s')
  end.

Fixpoint all_chars (p : ascii -> bool) (s : string) : bool :=
  match s with
  | EmptyString => true
  | String c s' => p c && all_chars p s'
  end.

End PyStr.

Import PyStr.

Definition LF : ascii := ascii_of_nat 10.
Definition newline : string := String LF EmptyString.

(** ** Python number conversions *)

Module PyInt.

(** The blank characters [int()] skips around a literal (C [isspace] in the
    C locale): TAB, LF, VT, FF, CR and the blank. *)
Definition is_c_space (c : ascii) : bool :=
  let n := code c in
  ((9 <=? n) && (n <=? 13)) || (n =? 32).

Fixpoint skip_spaces (s : string) : string :=
  match s with
  | EmptyString => EmptyString
  | String c s' => if is_c_space c then skip_spaces s' else s
  end.

(** Value of a digit character in bases up to 36; 37 for any other one. *)
Definition digit_value (c : ascii) : Z :=
  let n := code c in
  if (48 <=? n) && (n <=? 57) then Z.of_nat (n - 48)
  else if (97 <=? n) && (n <=? 122) then Z.of_nat (n - 97 + 10)
  else if (65 <=? n) && (n <=? 90) then Z.of_nat (n - 65 + 10)
  else 37%Z.

Definition underscore : ascii := "_"%char.

(** The digits of a literal: digits of the base with single underscores
    between them.  Returns the value read, the number of digits and the text
    left; [None] on a doubled or a trailing underscore. *)
Fixpoint scan_digits (base : Z) (prev_us : bool) (acc : Z) (ndigits : nat)
  (s : string) : option (Z * nat * string) :=
  match s with
  | EmptyString => if prev_us then None else Some (acc, ndigits, s)
  | String c s' =>
      if Ascii.eqb c underscore then
        if prev_us then None else scan_digits base true acc ndigits s'
      else if (digit_value c <? base)%Z then
        scan_digits base false (acc * base + digit_value c)%Z (S ndigits) s'
      else if prev_us then None else Some (acc, ndigits, s)
  end.

(** The base prefix [int(s, base)] accepts: [0x]/[0X] in base 16 and
    [0b]/[0B] in base 2, with one underscore allowed after it. *)
Definition skip_prefix (base : Z) (s : string) : string :=
  match s with
  | String z (String p rest) =>
      if Ascii.eqb z "0"%char &&
         (((base =? 16)%Z && (Ascii.eqb p "x"%char || Ascii.eqb p "X"%char)) ||
          ((base =? 2)%Z && (Ascii.eqb p "b"%char || Ascii.eqb p "B"%char)))
      then
        match rest with
        | String u rest' => if Ascii.eqb u underscore then rest' else rest
        | EmptyString => rest
        end
      else s
  | _ => s
  end.

(** Default of [sys.get_int_max_str_digits()]: a decimal literal with more
    digits is refused by [int()]. *)
Definition int_max_str_digits : nat := 4300.

(** The digits of [int(s, base)], once the sign and the prefix are read. *)
Definition int_digits (base : Z) (negative : bool) (s : string) : option Z :=
  if startswith "_" s then None
  else
    match scan_digits base false 0%Z 0 s with
    | None => None
    | Some (v, n, rest) =>
        if n =? 0 then None
        else if (base =? 10)%Z && (int_max_str_digits <? n) then None
        else if is_empty (skip_spaces rest)
             then Some (if negative then (- v)%Z else v)
             else None
    end.

(** The sign of a literal and the text after it. *)
Definition read_sign (s : string) : bool * string :=
  match s with
  | String c s' =>
      if Ascii.eqb c "+"%char then (false, s')
      else if Ascii.eqb c "-"%char then (true, s')
      else (false, s)
  | EmptyString => (false, s)
  end.

(** [int(s, base)] for [base] 2, 10 or 16; [None] is the raised
    [ValueError]. *)
Definition int (s : string) (base : Z) : option Z :=
  let '(negative, s2) := read_sign (skip_spaces s) in
  int_digits base negative (skip_prefix base s2).

(** [str(v)] and [f"{v}"] raise [ValueError] when [v] has more decimal
    digits than the limit. *)
Definition str_raises (v : Z) : bool :=
  (10 ^ Z.of_nat int_max_str_digits <=? Z.abs v)%Z.

(** [str(n)] for a natural number and for an integer *)
Definition str_of_nat (n : nat) : string :=
  DecimalString.NilZero.string_of_uint (Nat.to_uint n).

Definition str_of_Z (v : Z) : string :=
  DecimalString.NilZero.string_of_int (Z.to_int v).

(** [s.rjust(w, '0')] *)
Fixpoint zeros (n : nat) : string :=
  match n with
  | O => EmptyString
  | S n' => String "0"%char (zeros n')
  end.

Definition zfill (w : nat) (s : string) : string :=
  zeros (w - String.length s) ++ s.

(** The digit characters of the upper-case hexadecimal notation. *)
Definition hex_digit (d : Z) : ascii :=
  match String.get (Z.to_nat d) "0123456789ABCDEF" with
  | Some c => c
  | None => "?"%char
  end.

(** The digits of a number [n >= 0] in base 16, the least significant one
    produced first and put in front of those already there; at least one
    digit.  [fuel] bounds the number of digits. *)
Fixpoint hex_loop (fuel : nat) (n : Z) (acc : string) : string :=
  match fuel with
  | O => acc
  | S fuel' =>
      let acc := String (hex_digit (n mod 16)) acc in
      let n := (n / 16)%Z in
      if (n =? 0)%Z then acc else hex_loop fuel' n acc
  end.

(** [f"{n:X}"] for [n >= 0]: a number has no more hexadecimal digits than
    binary ones. *)
Definition hex_upper (n : Z) : string :=
  hex_loop (S (Z.to_nat (Z.log2 n))) n EmptyString.

(** [f"{n:04X}"]: upper-case hexadecimal, zero-filled to four characters,
    the sign of a negative number counted in the width. *)
Definition format_04X (n : Z) : string :=
  if (n <? 0)%Z then "-" ++ zfill 3 (hex_upper (- n))
  else zfill 4 (hex_upper n).

End PyInt.

Import PyInt.

(** ** The assembler ([backend/assembler.py]) *)

(** The values of [INSTR_TYPES]. *)
Inductive instr_type : Type :=
  | T_none
  | T_reg
  | T_reg_reg
  | T_reg_imm
  | T_reg_regaddr
  | T_imm.

(** A Python dict with string keys, in insertion order. *)
Definition dict (A : Type) : Type := list (string * A).

Fixpoint dict_get {A : Type} (k : string) (d : dict A) : option A :=
  match d with
  | [] => None
  | (k', v) :: d' => if String.eqb k k' then Some v else dict_get k d'
  end.

Definition dict_mem {A : Type} (k : string) (d : dict A) : bool :=
  match dict_get k d with
  | Some _ => true
  | None => false
  end.

Definition OPCODES : dict Z :=
  [ ("NOP", 0); ("ADD", 1); ("SUB", 2); ("AND", 3);
    ("OR", 4); ("XOR", 5); ("NOT", 6); ("SHL", 7);
    ("SHR", 8); ("LDI", 9); ("LD", 10); ("ST", 11);
    ("JMP", 12); ("JZ", 13); ("HLT", 14); ("MOV", 15) ]%Z.

Definition INSTR_TYPES : dict instr_type :=
  [ ("NOP", T_none); ("HLT", T_none);
    ("ADD", T_reg_reg); ("SUB", T_reg_reg); ("AND", T_reg_reg);
    ("OR", T_reg_reg); ("XOR", T_reg_reg); ("MOV", T_reg_reg);
    ("NOT", T_reg); ("SHL", T_reg); ("SHR", T_reg);
    ("LDI", T_reg_imm);
    ("LD", T_reg_regaddr); ("ST", T_reg_regaddr);
    ("JMP", T_imm); ("JZ", T_imm) ].

(** The [ValueError]s the assembler raises. *)
Inductive asm_error : Type :=
  | EmptyInstruction
  | UnknownInstruction (mnemonic : string)
  | RequiresOperands (mnemonic : string) (ty : instr_type)
  | UnknownInstructionType (mnemonic : string)
  | InvalidRegister (s : string)
  | InvalidImmediate (s : string)
  | ImmediateOutOfRange (value : Z)
  | IntStrDigitsExceeded.

(** The operand pattern each message names ([T_none] reads no operand and
    has no such message). *)
Definition requirement (ty : instr_type) : string :=
  match ty with
  | T_none => ""
  | T_reg => " requires a register"
  | T_reg_reg => " requires two registers (Rd, Rs)"
  | T_reg_imm => " requires register and immediate (Rd, value)"
  | T_reg_regaddr =>
      " requires register and address register (Rd, [Rs] or Rd, Rs)"
  | T_imm => " requires an address"
  end.

(** [str(e)] *)
Definition message (e : asm_error) : string :=
  match e with
  | EmptyInstruction => "Empty instruction"
  | UnknownInstruction m => "Unknown instruction: " ++ m
  | RequiresOperands m ty => m ++ requirement ty
  | UnknownInstructionType m => "Unknown instruction type for " ++ m
  | InvalidRegister s => "Invalid register: " ++ s ++ " (use R0, R1, R2, or R3)"
  | InvalidImmediate s => "Invalid immediate value: " ++ s
  | ImmediateOutOfRange v =>
      "Immediate value out of range (0-255): " ++ str_of_Z v
  | IntStrDigitsExceeded =>
      "Exceeds the limit (4300 digits) for integer string conversion; " ++
      "use sys.set_int_max_str_digits() to increase the limit"
  end.

(** The specification's two classes of assembly errors. *)
Definition is_SyntaxError (e : asm_error) : bool :=
  match e with
  | UnknownInstruction _ | RequiresOperands _ _ => true
  | _ => false
  end.

Definition is_OperandError (e : asm_error) : bool :=
  match e with
  | InvalidRegister _ | InvalidImmediate _ | ImmediateOutOfRange _ => true
  | _ => false
  end.

(** Computations that return or raise. *)
Inductive result (A : Type) : Type :=
  | Ok (a : A)
  | Err (e : asm_error).

Arguments Ok {A} a.
Arguments Err {A} e.

Definition bind {A B : Type} (r : result A) (k : A -> result B) : result B :=
  match r with
  | Ok a => k a
  | Err e => Err e
  end.

Notation "x <- r ;; k" := (bind r (fun x => k))
  (at level 61, r at next level, right associativity).
Notation "' p <- r ;; k" := (bind r (fun p => k))
  (at level 61, p pattern, r at next level, right associativity).

Definition is_ok {A : Type} (r : result A) : bool :=
  match r with
  | Ok _ => true
  | Err _ => false
  end.

(** [parse_register]: a register name R0..R3, brackets removed. *)
Definition parse_register (s : string) : result Z :=
  let reg := remove_char "]" (remove_char "[" (upper s)) in
  if startswith "R" reg && (String.length reg =? 2) &&
     match String.get 1 reg with
     | Some c => contains c "0123"
     | None => false
     end
  then
    match String.get 1 reg with
    | Some c => Ok (digit_value c)
    | None => Err (InvalidRegister s)
    end
  else Err (InvalidRegister s).

(** The literal [parse_immediate] reads, after [strip]: the base is chosen
    by the prefix, and the binary branch drops the two prefix characters
    before it calls [int]. *)
Definition immediate_literal (s : string) : option Z :=
  if startswith "0x" (lower s) then PyInt.int s 16
  else if startswith "0b" (lower s) then PyInt.int (drop 2 s) 2
  else PyInt.int s 10.

(** The [raise] for a value out of range: the message is an f-string that
    holds the value, and formatting a value beyond the digit limit raises
    the interpreter's [ValueError] in its place. *)
Definition out_of_range_error (value : Z) : asm_error :=
  if str_raises value then IntStrDigitsExceeded
  else ImmediateOutOfRange value.

(** [parse_immediate]: a decimal, hexadecimal or binary value in 0..255. *)
Definition parse_immediate (s : string) : result Z :=
  let s := strip s in
  match immediate_literal s with
  | None => Err (InvalidImmediate s)
  | Some value =>
      if (value <? 0)%Z || (255 <? value)%Z
      then Err (out_of_range_error value)
      else Ok value
  end.

(** The encoding on the last line of [parse_line]:
    [opcode(4)][rd(2)][rs(2)][immediate(8)]. *)
Definition encode (opcode rd rs imm : Z) : Z :=
  Z.lor (Z.lor (Z.lor (Z.shiftl opcode 12) (Z.shiftl rd 10)) (Z.shiftl rs 8))
        (Z.land imm 255).

(** [parts[i]] and [len(parts)] are only used under the length tests below,
    where the index exists. *)
Definition part (i : nat) (parts : list string) : string :=
  nth i parts EmptyString.

(** The operands of [parse_line] by instruction type: (rd, rs, imm). *)
Definition parse_operands (mnemonic : string) (ty : instr_type)
  (parts : list string) : result (Z * Z * Z) :=
  match ty with
  | T_none => Ok (0, 0, 0)%Z
  | T_reg =>
      if List.length parts <? 2 then Err (RequiresOperands mnemonic T_reg)
      else
        rd <- parse_register (part 1 parts) ;;
        Ok (rd, 0, 0)%Z
  | T_reg_reg =>
      if List.length parts <? 3 then Err (RequiresOperands mnemonic T_reg_reg)
      else
        rd <- parse_register (part 1 parts) ;;
        rs <- parse_register (part 2 parts) ;;
        Ok (rd, rs, 0%Z)
  | T_reg_imm =>
      if List.length parts <? 3 then Err (RequiresOperands mnemonic T_reg_imm)
      else
        rd <- parse_register (part 1 parts) ;;
        imm <- parse_immediate (part 2 parts) ;;
        Ok (rd, 0%Z, imm)
  | T_reg_regaddr =>
      if List.length parts <? 3
      then Err (RequiresOperands mnemonic T_reg_regaddr)
      else
        rd <- parse_register (part 1 parts) ;;
        rs <- parse_register
                (remove_char "]" (remove_char "[" (part 2 parts))) ;;
        Ok (rd, rs, 0%Z)
  | T_imm =>
      if List.length parts <? 2 then Err (RequiresOperands mnemonic T_imm)
      else
        imm <- parse_immediate (part 1 parts) ;;
        Ok (0%Z, 0%Z, imm)
  end.

(** [parse_line] after the split into [parts].  [INSTR_TYPES] has the keys of
    [OPCODES] (lemma [INSTR_TYPES_covers_OPCODES]), so the lookup in it never
    fails where the source indexes it; the branch for a missing or unknown
    type is the source's final [else]. *)
Definition parse_parts (parts : list string) : result Z :=
  match parts with
  | [] => Err EmptyInstruction
  | p0 :: _ =>
      let mnemonic := upper p0 in
      match dict_get mnemonic OPCODES with
      | None => Err (UnknownInstruction mnemonic)
      | Some opcode =>
          match dict_get mnemonic INSTR_TYPES with
          | None => Err (UnknownInstructionType mnemonic)
          | Some instr_ty =>
              '(rd, rs, imm) <- parse_operands mnemonic instr_ty parts ;;
              Ok (encode opcode rd rs imm)
          end
      end
  end.

(** [line.replace(',', ' ').split()] *)
Definition tokens (line : string) : list string :=
  split_ws (replace_char "," " " line).

Definition parse_line (line : string) (line_num : nat) : result Z :=
  parse_parts (tokens line).

(** The text of a line the loop of [assemble] hands to [parse_line]: stripped,
    cut at the first [;], stripped again. *)
Definition clean_line (line : string) : string :=
  let line := strip line in
  if contains ";" line then strip (before_char ";" line) else line.

Definition error_entry (line_num : nat) (e : asm_error) : string :=
  "Line " ++ str_of_nat line_num ++ ": " ++ message e.

(** The loop of [assemble]: [i] is the index [enumerate] gives, [program] and
    [errors] are the two lists the loop appends to. *)
Fixpoint assemble_loop (i : nat) (lines : list string)
  (program : list Z) (errors : list string) : list Z * list string :=
  match lines with
  | [] => (program, errors)
  | line :: rest =>
      let line_num := i + 1 in
      let line := clean_line line in
      if is_empty line then assemble_loop (S i) rest program errors
      else
        match parse_line line line_num with
        | Ok instruction =>
            assemble_loop (S i) rest (program ++ [instruction])%list errors
        | Err e =>
            assemble_loop (S i) rest program
              (errors ++ [error_entry line_num e])%list
        end
  end.

Record asm_result : Type := {
  success : bool;
  program : list Z;
  errors : list string
}.

Definition assemble (text : string) : asm_result :=
  let lines := split_char LF text in
  let '(program, errors) := assemble_loop 0 lines [] [] in
  {| success := List.length errors =? 0;
     program := program;
     errors := errors |}.

(** The padding loop of [to_hex_file]; it runs at most eight times, which
    [fuel] counts. *)
Fixpoint pad_loop (fuel : nat) (lines : list string) : list string :=
  match fuel with
  | O => lines
  | S fuel' =>
      if List.length lines <? 8 then pad_loop fuel' (lines ++ ["0000"])%list
      else lines
  end.

Definition hex_lines (program : list Z) : list string :=
  pad_loop 8 (map format_04X program).

Definition to_hex_file (program : list Z) : string :=
  join newline (hex_lines program).

(** ** The simulation front end ([backend/server.py]) *)

Definition is_diagnostic (line : string) : bool :=
  startswith "WARNING:" line || startswith "ERROR:" line.

(** The scan of [run_simulation] over the lines of the simulator's output:
    [in_json] and [json_lines] are the two variables of the loop, and the
    result is [json_lines] when the loop ends or breaks. *)
Fixpoint extract_loop (lines : list string) (in_json : bool)
  (json_lines : list string) : list string :=
  match lines with
  | [] => json_lines
  | line :: rest =>
      let line := strip line in
      if is_empty line then extract_loop rest in_json json_lines
      else if is_diagnostic line then extract_loop rest in_json json_lines
      else if String.eqb line "[" then
        extract_loop rest true (json_lines ++ [line])%list
      else if in_json then
        let json_lines := (json_lines ++ [line])%list in
        if String.eqb line "]" then json_lines
        else extract_loop rest in_json json_lines
      else extract_loop rest in_json json_lines
  end.

Definition extract_json_lines (output : string) : list string :=
  extract_loop (split_char LF output) false [].

(** What [subprocess.run] can do: complete, time out, or fail to start. *)
Inductive proc_result : Type :=
  | Completed (returncode : Z) (stdout stderr : string)
  | TimeoutExpired
  | Raised (msg : string).

(** The external tools a request reaches, in the order it reaches them. *)
Inductive tool_event : Type :=
  | Compile (hex_program : string)
  | Execute.

Definition dquote : string := String (ascii_of_nat 34) EmptyString.

(** What [json.loads] can do: return the value, raise [JSONDecodeError], or
    raise another exception ([RecursionError] on deep nesting, the
    digit-limit [ValueError] on a long integer); the texts are [str(e)]. *)
Inductive json_outcome (json : Type) : Type :=
  | Loaded (value : json)
  | JSONDecodeError (msg : string)
  | OtherError (msg : string).

Arguments Loaded {json} value.
Arguments JSONDecodeError {json} msg.
Arguments OtherError {json} msg.

(** What a function of the server does: return a value, or let an exception
    out, of which [str(e)] is kept. *)
Inductive outcome (A : Type) : Type :=
  | Returns (a : A)
  | Raises (msg : string).

Arguments Returns {A} a.
Arguments Raises {A} msg.

Section Server.

(** JSON values are opaque; [empty_list] is the [[]] of the failure
    results. *)
Variable json : Type.
Variable empty_list : json.

(** The paths found at start-up, the two external steps, and the JSON
    parser. *)
Variable IVERILOG VVP : option string.
Variable compile_step : string -> proc_result.
Variable execute_step : string -> proc_result.
Variable json_loads : string -> json_outcome json.

Record sim_result : Type := {
  sim_success : bool;
  sim_trace : json;
  sim_error : option string
}.

Definition sim_failure (msg : string) : sim_result :=
  {| sim_success := false; sim_trace := empty_list; sim_error := Some msg |}.

(** The tail of [run_simulation]: from the captured output to the result.
    Its [try] has a handler for [json.JSONDecodeError] only, so any other
    exception of [json.loads] leaves the function. *)
Definition parse_json_output (output : string) : outcome sim_result :=
  let json_lines := extract_json_lines output in
  match json_lines with
  | [] =>
      Returns
        (sim_failure ("No JSON output found. Raw output: " ++ take 500 output))
  | _ :: _ =>
      match json_loads (join newline json_lines) with
      | Loaded trace =>
          Returns
            {| sim_success := true; sim_trace := trace; sim_error := None |}
      | JSONDecodeError e =>
          Returns
            (sim_failure ("JSON parse error: " ++ e ++ ". Output: " ++
                          take 500 output))
      | OtherError e => Raises e
      end
  end.

(** [run_simulation], with the tools it started. *)
Definition run_simulation (hex_program : string)
  : outcome sim_result * list tool_event :=
  match IVERILOG with
  | None => (Returns (sim_failure "iverilog not found"), [])
  | Some _ =>
      match VVP with
      | None => (Returns (sim_failure "vvp not found"), [])
      | Some _ =>
          match compile_step hex_program with
          | TimeoutExpired =>
              (Returns (sim_failure "Compilation timeout"),
               [Compile hex_program])
          | Raised e =>
              (Returns (sim_failure ("Compilation error: " ++ e)),
               [Compile hex_program])
          | Completed returncode _ stderr =>
              if negb (returncode =? 0)%Z then
                (Returns (sim_failure ("Compilation failed: " ++ stderr)),
                 [Compile hex_program])
              else
                match execute_step hex_program with
                | TimeoutExpired =>
                    (Returns (sim_failure "Simulation timeout"),
                     [Compile hex_program; Execute])
                | Raised e =>
                    (Returns (sim_failure ("Simulation error: " ++ e)),
                     [Compile hex_program; Execute])
                | Completed _ output _ =>
                    (parse_json_output output,
                     [Compile hex_program; Execute])
                end
          end
      end
  end.

(** The JSON body and the status of a response of [/simulate]; [None] is a
    key the body does not have. *)
Record response : Type := {
  status : nat;
  r_success : bool;
  r_trace : json;
  r_program : option (list Z);
  r_programHex : option (list string);
  r_error : option string
}.

Definition failure (code : nat) (msg : string) : response :=
  {| status := code; r_success := false; r_trace := empty_list;
     r_program := None; r_programHex := None; r_error := Some msg |}.

(** [simulate]: [data] is the ["assembly"] entry of the request body, [None]
    when the body or the entry is missing.  An exception that leaves
    [run_simulation] is caught by the [except Exception] of [simulate] and
    answered as a server error. *)
Definition simulate (data : option string) : response * list tool_event :=
  match data with
  | None =>
      (failure 400 ("Missing " ++ dquote ++ "assembly" ++ dquote ++
                    " in request body"), [])
  | Some assembly_code =>
      let asm_result := assemble assembly_code in
      if negb (success asm_result) then
        (failure 400 ("Assembly errors:" ++ newline ++
                      join newline (errors asm_result)), [])
      else if List.length (program asm_result) =? 0 then
        (failure 400 "No instructions in program", [])
      else
        let hex_program := to_hex_file (program asm_result) in
        let '(sim_result, events) := run_simulation hex_program in
        match sim_result with
        | Raises e => (failure 500 ("Server error: " ++ e), events)
        | Returns sim =>
            if negb (sim_success sim) then
              ({| status := 500; r_success := sim_success sim;
                  r_trace := sim_trace sim; r_program := None;
                  r_programHex := None; r_error := sim_error sim |}, events)
            else
              ({| status := 200; r_success := true; r_trace := sim_trace sim;
                  r_program := Some (program asm_result);
                  r_programHex := Some (split_char LF hex_program);
                  r_error := None |}, events)
        end
  end.

End Server.

Arguments sim_success {json} _.
Arguments sim_trace {json} _.
Arguments sim_error {json} _.
Arguments sim_failure {json} empty_list msg.
Arguments parse_json_output {json} empty_list json_loads output.
Arguments run_simulation {json} empty_list IVERILOG VVP compile_step
  execute_step json_loads hex_program.
Arguments status {json} _.
Arguments r_success {json} _.
Arguments r_trace {json} _.
Arguments r_program {json} _.
Arguments r_programHex {json} _.
Arguments r_error {json} _.
Arguments failure {json} empty_list code msg.
Arguments simulate {json} empty_list IVERILOG VVP compile_step execute_step
  json_loads data.

(** ** Tool lookup and health report ([backend/server.py]) *)

Section ToolSearch.

(** [shutil.which] gives a path or nothing, [os.path.exists] a boolean. *)
Variable which : string -> option string.
Variable path_exists : string -> bool.

(** The test of one candidate in the loops of [find_iverilog] and
    [find_vvp]: found on the search path, or present as a file. *)
Definition candidate_found (candidate : string) : bool :=
  match which candidate with
  | Some _ => true
  | None => path_exists candidate
  end.

(** The loop shared by [find_iverilog] and [find_vvp]: the first candidate
    that [shutil.which] finds or that exists, itself, or [None]. *)
Fixpoint find_first (candidates : list string) : option string :=
  match candidates with
  | [] => None
  | candidate :: rest =>
      match which candidate with
      | Some _ => Some candidate
      | None =>
          if path_exists candidate then Some candidate
          else find_first rest
      end
  end.

Definition iverilog_candidates : list string :=
  [ "iverilog";
    "C:\iverilog\bin\iverilog.exe";
    "C:\Program Files\Icarus Verilog\bin\iverilog.exe";
    "/usr/bin/iverilog";
    "/usr/local/bin/iverilog" ].

Definition vvp_candidates : list string :=
  [ "vvp";
    "C:\iverilog\bin\vvp.exe";
    "C:\Program Files\Icarus Verilog\bin\vvp.exe";
    "/usr/bin/vvp";
    "/usr/local/bin/vvp" ].

Definition find_iverilog : option string := find_first iverilog_candidates.
Definition find_vvp : option string := find_first vvp_candidates.

End ToolSearch.

(** The body of the response of [/health]. *)
Record health_report : Type := {
  h_status : string;
  h_iverilog : bool;
  h_iverilog_path : option string;
  h_vvp : bool;
  h_vvp_path : option string
}.

Definition is_some {A : Type} (o : option A) : bool :=
  match o with
  | Some _ => true
  | None => false
  end.

Definition health (IVERILOG VVP : option string) : health_report :=
  {| h_status := "ok";
     h_iverilog := is_some IVERILOG;
     h_iverilog_path := IVERILOG;
     h_vvp := is_some VVP;
     h_vvp_path := VVP |}.

(** ** Notions of the specification *)

(** The fields of a code word as the specification lays them out: the top
    four bits, bits 11-10, bits 9-8 and the low eight bits. *)
Definition field_opcode (w : Z) : Z := Z.shiftr w 12.
Definition field_rd (w : Z) : Z := Z.land (Z.shiftr w 10) 3.
Definition field_rs (w : Z) : Z := Z.land (Z.shiftr w 8) 3.
Definition field_imm (w : Z) : Z := Z.land w 255.

Definition decode (w : Z) : Z * Z * Z * Z :=
  (field_opcode w, field_rd w, field_rs w, field_imm w).

(** An Instruction of the data model: fields within their widths. *)
Definition valid_fields (opcode rd rs imm : Z) : Prop :=
  (0 <= opcode < 16 /\ 0 <= rd < 4 /\ 0 <= rs < 4 /\ 0 <= imm < 256)%Z.

(** A CodeWord of the data model: a 16-bit value. *)
Definition is_code_word (w : Z) : Prop := (0 <= w < 65536)%Z.

(** What the physical line numbered [line_num] contributes to [assemble]:
    nothing when it is blank or only a comment, else the outcome of
    [parse_line] on its text. *)
Definition line_result (line_num : nat) (line : string) : option (result Z) :=
  let l := clean_line line in
  if is_empty l then None else Some (parse_line l line_num).

Definition line_fails (line_num : nat) (line : string) : bool :=
  match line_result line_num line with
  | Some (Err _) => true
  | _ => false
  end.

(** The lines with their physical numbers, counted from [start]. *)
Definition numbered_from (start : nat) (lines : list string)
  : list (nat * string) :=
  combine (seq start (List.length lines)) lines.

Definition word_of (nl : nat * string) : list Z :=
  match line_result (fst nl) (snd nl) with
  | Some (Ok w) => [w]
  | _ => []
  end.

(** The text of an error entry as the specification spells it: the word
    "Line", the line number in decimal notation, a colon, the message. *)
Definition tagged_entry (n : nat) (msg : string) : string :=
  "Line " ++ DecimalString.NilZero.string_of_uint (Nat.to_uint n) ++ ": " ++
  msg.

(** The place of a character in a text, counted from 0. *)
Definition position (c : ascii) (s : string) : option nat :=
  String.index 0 (String c EmptyString) s.

(** Reading an entry back: the number between "Line " and ": ", digit by
    digit, and the text after it. *)
Definition digit_of_char (c : ascii) : option nat :=
  position c "0123456789".

Fixpoint read_number (acc : nat) (s : string) : nat * string :=
  match s with
  | String c s' =>
      match digit_of_char c with
      | Some k => read_number (10 * acc + k) s'
      | None => (acc, s)
      end
  | EmptyString => (acc, s)
  end.

Definition entry_line (entry : string) : option (nat * string) :=
  match entry with
  | String "L" (String "i" (String "n" (String "e" (String " "
      (String c rest))))) =>
      match digit_of_char c with
      | None => None
      | Some _ =>
          match read_number 0 (String c rest) with
          | (n, String ":" (String " " msg)) => Some (n, msg)
          | _ => None
          end
      end
  | _ => None
  end.

Definition error_of (nl : nat * string) : list string :=
  match line_result (fst nl) (snd nl) with
  | Some (Err e) => [tagged_entry (fst nl) (message e)]
  | _ => []
  end.

(** Every line taken on its own, in source order, numbered from 1. *)
Definition program_of (lines : list string) : list Z :=
  flat_map word_of (numbered_from 1 lines).

Definition errors_of (lines : list string) : list string :=
  flat_map error_of (numbered_from 1 lines).

(** Two sources of the specification's scenarios. *)
Definition scenario_1 : string :=
  "LDI R0, 5" ++ newline ++ "LDI R1, 3" ++ newline ++ "ADD R0, R1" ++
  newline ++ "HLT".

Definition source_failing_2_5 : string :=
  "LDI R0, 5" ++ newline ++ "FOO R0" ++ newline ++ "NOT R1" ++ newline ++
  "; a comment" ++ newline ++ "ADD R9, R0" ++ newline ++ "HLT".

(** The lines the scan of the simulator's output keeps: stripped, not blank,
    not a diagnostic. *)
Definition kept_lines (lines : list string) : list string :=
  filter (fun l => negb (is_empty l) && negb (is_diagnostic l))
         (map strip lines).

(** A list up to and including its first ["]"]. *)
Fixpoint through_close (ls : list string) : list string :=
  match ls with
  | [] => []
  | l :: rest => if String.eqb l "]" then [l] else l :: through_close rest
  end.

(** From the first ["["] of a list up to the first ["]"] after it. *)
Fixpoint block_of (ls : list string) : list string :=
  match ls with
  | [] => []
  | l :: rest => if String.eqb l "[" then l :: through_close rest
                 else block_of rest
  end.

(** An output whose bracketed block holds a diagnostic line and a blank
    line. *)
Definition output_with_noise_in_block : string :=
  "VCD info: dumpfile" ++ newline ++ "[" ++ newline ++ "WARNING: x" ++
  newline ++ "" ++ newline ++ "{}" ++ newline ++ "]" ++ newline ++ "done".

(** The register forms the specification lists: "Rn" and "[Rn]", n in 0..3,
    in either case of the letter. *)
Definition is_register_form (token : string) : bool :=
  existsb (String.eqb (upper token))
          ["R0"; "R1"; "R2"; "R3"; "[R0]"; "[R1]"; "[R2]"; "[R3]"].

(** The names [parse_register] knows once case and brackets are gone. *)
Definition REGISTERS : dict Z :=
  [ ("R0", 0); ("R1", 1); ("R2", 2); ("R3", 3) ]%Z.

(** [s.upper().replace('[', '').replace(']', '')] *)
Definition bare_register (s : string) : string :=
  remove_char "]" (remove_char "[" (upper s)).

(** Plain numerals: a non-empty run of digits of the base, and the value it
    denotes. *)
Definition is_digit_of (base : Z) (c : ascii) : bool :=
  (digit_value c <? base)%Z.

Definition is_numeral (base : Z) (s : string) : bool :=
  negb (is_empty s) && all_chars (is_digit_of base) s.

Fixpoint digits_value (base acc : Z) (s : string) : Z :=
  match s with
  | EmptyString => acc
  | String c s' => digits_value base (acc * base + digit_value c)%Z s'
  end.

Definition numeral_value (base : Z) (s : string) : Z :=
  digits_value base 0%Z s.

(** The number of operand tokens each instruction type reads. *)
Definition operand_count (ty : instr_type) : nat :=
  match ty with
  | T_none => 0
  | T_reg | T_imm => 1
  | T_reg_reg | T_reg_imm | T_reg_regaddr => 2
  end.

(** The characters of an upper-case hexadecimal numeral. *)
Definition is_upper_hex (c : ascii) : bool :=
  let n := code c in
  ((48 <=? n) && (n <=? 57)) || ((65 <=? n) && (n <=? 70)).

(** The four hexadecimal digits of a 16-bit value, most significant first. *)
Definition hex4 (w : Z) : string :=
  String (hex_digit (w / 4096))
    (String (hex_digit ((w / 256) mod 16))
       (String (hex_digit ((w / 16) mod 16))
          (String (hex_digit (w mod 16)) EmptyString))).

(** A line of four upper-case hexadecimal digits. *)
Definition hex_line (l : string) : Prop :=
  String.length l = 4 /\ all_chars is_upper_hex l = true.

(** The lines of the memory image in closed form. *)
Definition image_lines (program : list Z) : list string :=
  (map format_04X program ++ repeat "0000" (8 - List.length program))%list.

(** A line that is blank or holds only a comment. *)
Definition is_blank_or_comment (line : string) : bool :=
  let t := strip line in
  is_empty t || startswith ";" t.

(** A source of comments and blank lines only. *)
Definition only_comments (text : string) : bool :=
  forallb is_blank_or_comment (split_char LF text).

(** External steps that succeed, for running the request path: the compile
    step exits with 0, the simulator prints a warning and an empty trace
    between the brackets, and the JSON parser accepts. *)
Definition tools_ok (_ : string) : proc_result := Completed 0 "" "".

Definition prints_trace (_ : string) : proc_result :=
  Completed 0 ("WARNING: $readmemh" ++ newline ++ "[" ++ newline ++ "]") "".

Definition loads (_ : string) : json_outcome unit := Loaded tt.

(** The fields an instruction type fills from its operands; the others keep
    the 0 that [parse_line] starts from. *)
Definition uses_rd (ty : instr_type) : bool :=
  match ty with
  | T_none | T_imm => false
  | _ => true
  end.

Definition uses_rs (ty : instr_type) : bool :=
  match ty with
  | T_reg_reg | T_reg_regaddr => true
  | _ => false
  end.

Definition uses_imm (ty : instr_type) : bool :=
  match ty with
  | T_reg_imm | T_imm => true
  | _ => false
  end.

(** A character that separates tokens: a comma or a blank. *)
Definition is_separator (c : ascii) : bool :=
  Ascii.eqb c "," || is_space c.

(** [s.replace('[', '').replace(']', '')] *)
Definition strip_brackets (s : string) : string :=
  remove_char "]" (remove_char "[" s).

(** The lines [assemble] hands to [parse_line]: those that are neither
    blank nor comment-only. *)
Definition instruction_lines (lines : list string) : list string :=
  filter (fun l => negb (is_empty (clean_line l))) lines.

(** The failing lines with their numbers and errors, before the entries are
    rendered. *)
Definition failure_of (nl : nat * string) : list (nat * asm_error) :=
  match line_result (fst nl) (snd nl) with
  | Some (Err e) => [(fst nl, e)]
  | _ => []
  end.

Definition failures_from (start : nat) (lines : list string)
  : list (nat * asm_error) :=
  flat_map failure_of (numbered_from start lines).

(** A failure result of [run_simulation]: an empty trace and an error
    text. *)
Definition is_failure {json : Type} (empty_list : json)
  (r : sim_result json) : Prop :=
  sim_success r = false /\ sim_trace r = empty_list /\
  exists msg, sim_error r = Some msg.

(** Two outcomes that agree: the same value, or an error on both sides
    (whose texts may differ). *)
Definition agree {A : Type} (r1 r2 : result A) : Prop :=
  match r1, r2 with
  | Ok a, Ok b => a = b
  | Err _, Err _ => True
  | _, _ => False
  end.

(** The errors an operand can raise: the three operand errors of the
    assembler and the interpreter's digit-limit error. *)
Definition is_operand_failure (e : asm_error) : bool :=
  match e with
  | InvalidRegister _ | InvalidImmediate _ | ImmediateOutOfRange _
  | IntStrDigitsExceeded => true
  | _ => false
  end.

(** The steps of [run_simulation] before the output is parsed all went
    through: both tools found, the compile step completed with exit code
    0, the run step completed with output [xout]. *)
Definition reaches_parsing (IVERILOG VVP : option string)
    (compile_step execute_step : string -> proc_result)
    (hex_program xout : string) : Prop :=
  exists p1 p2 cout cerr rc xerr,
    IVERILOG = Some p1 /\ VVP = Some p2 /\
    compile_step hex_program = Completed 0 cout cerr /\
    execute_step hex_program = Completed rc xout xerr.

(** ** Literals of the specification

    The literals of the specification, spelled out character by character
    and independently of the functions above. *)

(** The value of a character as a digit: 0 to 9, and a to f in either case
    for 10 to 15. *)
Definition hex_value (c : ascii) : option Z :=
  match position c "0123456789abcdef", position c "ABCDEF" with
  | Some k, _ => Some (Z.of_nat k)
  | None, Some k => Some (Z.of_nat (10 + k))
  | None, None => None
  end.

(** The digits of a base up to 16. *)
Definition digit_of (base : Z) (c : ascii) : option Z :=
  match hex_value c with
  | Some k => if (k <? base)%Z then Some k else None
  | None => None
  end.

(** A run of digits of a base, in which one underscore may stand between
    two digits, and the values of its digits in order. *)
Inductive digit_run (base : Z) : string -> list Z -> Prop :=
  | run_last (c : ascii) (k : Z) :
      digit_of base c = Some k ->
      digit_run base (String c EmptyString) [k]
  | run_next (c : ascii) (k : Z) (s : string) (ks : list Z) :
      digit_of base c = Some k -> digit_run base s ks ->
      digit_run base (String c s) (k :: ks)
  | run_underscore (c : ascii) (k : Z) (s : string) (ks : list Z) :
      digit_of base c = Some k -> digit_run base s ks ->
      digit_run base (String c (String "_" s)) (k :: ks).

(** What may follow a digit of a run; [after_underscore] tells that the
    last character read was an underscore, after which a digit has to
    come. *)
Inductive run_tail (base : Z) : bool -> string -> list Z -> Prop :=
  | tail_end : run_tail base false EmptyString []
  | tail_digit (after_underscore : bool) (c : ascii) (k : Z) (s : string)
      (ks : list Z) :
      digit_of base c = Some k -> run_tail base false s ks ->
      run_tail base after_underscore (String c s) (k :: ks)
  | tail_underscore (s : string) (ks : list Z) :
      run_tail base true s ks ->
      run_tail base false (String "_" s) ks.

(** The number a list of digits denotes in positional notation, most
    significant digit first. *)
Definition positional_from (base : Z) (acc : Z) (ks : list Z) : Z :=
  fold_left (fun a k => (a * base + k)%Z) ks acc.

Definition positional (base : Z) (ks : list Z) : Z :=
  positional_from base 0%Z ks.

(** The blanks allowed around a literal: TAB, LF, VT, FF, CR and the
    blank; the characters trimming removes are these and FS, GS, RS, US. *)
Definition is_blank (c : ascii) : bool :=
  match c with
  | "009"%char | "010"%char | "011"%char | "012"%char | "013"%char
  | " "%char => true
  | _ => false
  end.



(** The base prefixes, each with or without an underscore after it. *)
Definition base_prefixes (base : Z) : list string :=
  if (base =? 16)%Z then ["0x"; "0X"; "0x_"; "0X_"]
  else if (base =? 2)%Z then ["0b"; "0B"; "0b_"; "0B_"]
  else [].

(** The literals of a base and their values: blanks, an optional sign, an
    optional prefix of the base, a run of digits, blanks.  A decimal
    literal has at most 4300 digits. *)
Definition int_literal (base : Z) (s : string) (v : Z) : Prop :=
  exists (ws1 sign pre body ws2 : string) (ks : list Z),
    s = ws1 ++ sign ++ pre ++ body ++ ws2 /\
    all_chars is_blank ws1 = true /\ all_chars is_blank ws2 = true /\
    In sign [""; "+"; "-"] /\
    In pre ("" :: base_prefixes base) /\
    digit_run base body ks /\
    (base = 10%Z -> List.length ks <= 4300) /\
    v = if String.eqb sign "-" then (- positional base ks)%Z
        else positional base ks.

(** The value a trimmed token denotes for [parse_immediate]: a token that
    begins with 0x or 0X is read as a whole as a literal of base 16; of a
    token that begins with 0b or 0B, the text after these two characters
    is read as a literal of base 2; any other token is read as a literal
    of base 10. *)
Definition immediate_denotes (core : string) (v : Z) : Prop :=
  match core with
  | String c1 (String c2 rest) =>
      if Ascii.eqb c1 "0" && (Ascii.eqb c2 "x" || Ascii.eqb c2 "X")
      then int_literal 16 core v
      else if Ascii.eqb c1 "0" && (Ascii.eqb c2 "b" || Ascii.eqb c2 "B")
      then int_literal 2 rest v
      else int_literal 10 core v
  | _ => int_literal 10 core v
  end.


(** A text at which the digits of a run stop: the end, or a character that
    is no digit and no underscore. *)
Definition stops (base : Z) (rest : string) : Prop :=
  match rest with
  | EmptyString => True
  | String c _ => digit_of base c = None /\ Ascii.eqb c "_" = false
  end.

(** A text that begins with a digit of base 16. *)
Definition digit_first (s : string) : Prop :=
  exists c k t, s = String c t /\ digit_of 16 c = Some k.

(** * Properties *)

(** ** Runs of the model on sample inputs *)

Section Samples.

Example assemble_test_program :
  assemble (String LF "    ; Test program" ++ newline ++
            "    LDI R0, 5      ; R0 = 5" ++ newline ++
            "    LDI R1, 3      ; R1 = 3" ++ newline ++
            "    ADD R0, R1     ; R0 = R0 + R1 = 8" ++ newline ++
            "    HLT" ++ newline ++ "    ")
  = {| success := true; program := [36869; 37891; 4352; 57344]%Z; errors := [] |}.
Proof. vm_compute. reflexivity. Qed.

Example assemble_unknown :
  assemble "FOO R0" =
  {| success := false; program := [];
     errors := ["Line 1: Unknown instruction: FOO"] |}.
Proof. vm_compute. reflexivity. Qed.

Example parse_immediate_samples :
  parse_immediate " 0x1F " = Ok 31%Z /\
  parse_immediate "0B101" = Ok 5%Z /\
  parse_immediate "1_0" = Ok 10%Z /\
  parse_immediate "-1" = Err (ImmediateOutOfRange (-1)) /\
  parse_immediate "0x" = Err (InvalidImmediate "0x") /\
  parse_immediate "12a" = Err (InvalidImmediate "12a").
Proof. vm_compute. repeat split; reflexivity. Qed.

Example to_hex_file_sample :
  to_hex_file [36869; 57344]%Z =
  "9005" ++ newline ++ "E000" ++ newline ++ "0000" ++ newline ++ "0000" ++ newline ++
  "0000" ++ newline ++ "0000" ++ newline ++ "0000" ++ newline ++ "0000".
Proof. vm_compute. reflexivity. Qed.

Example extract_skips_noise :
  extract_json_lines
    ("VCD info: dumpfile" ++ newline ++ "WARNING: x" ++ newline ++ "  [  " ++
     newline ++ "{}" ++ newline ++ "]" ++ newline ++ "done")
  = ["["; "{}"; "]"].
Proof. vm_compute. reflexivity. Qed.

Example int_samples :
  PyInt.int "0b11" 2 = Some 3%Z /\ PyInt.int "+11" 2 = Some 3%Z /\
  PyInt.int "-1" 2 = Some (-1)%Z /\ PyInt.int " 1" 2 = Some 1%Z /\
  PyInt.int "0b1" 16 = Some 177%Z /\ PyInt.int "0X1f" 16 = Some 31%Z /\
  PyInt.int "_1" 10 = None /\ PyInt.int "1_" 10 = None /\
  PyInt.int "0x" 16 = None /\ PyInt.int "0x__1" 16 = None /\
  PyInt.int "0x_" 16 = None /\ PyInt.int "1 2" 10 = None /\
  PyInt.int "- 5" 10 = None /\ PyInt.int "+-5" 10 = None /\
  PyInt.int " 12 " 10 = Some 12%Z /\ PyInt.int "" 10 = None.
Proof. vm_compute. repeat split; reflexivity. Qed.

Example format_04X_samples :
  format_04X (-10) = "-00A" /\ format_04X 70000 = "11170" /\
  format_04X 0 = "0000" /\ format_04X 0xE000 = "E000".
Proof. vm_compute. repeat split; reflexivity. Qed.

Example split_samples :
  split_char LF ("a" ++ newline) = ["a"; ""] /\ split_char LF "" = [""] /\
  split_ws "  LDI   R0  5 " = ["LDI"; "R0"; "5"] /\ split_ws "   " = [] /\
  strip "  a b  " = "a b" /\ tokens "ADD R0,R1" = ["ADD"; "R0"; "R1"].
Proof. vm_compute. repeat split; reflexivity. Qed.

End Samples.

(** ** Encoding *)

Section Encoding.

Local Open Scope Z_scope.

Lemma testbit_small (k x n : Z) :
  0 <= k -> 0 <= x < 2 ^ k -> k <= n -> Z.testbit x n = false.
Proof.
  intros Hk Hx Hn.
  rewrite <- (Z.mod_small x (2 ^ k)) by assumption.
  apply Z.mod_pow2_bits_high. lia.
Qed.

(** An "or" of a multiple of [2^k] with a value below [2^k] is their sum. *)
Lemma lor_disjoint_add (k q b : Z) :
  0 <= k -> 0 <= b < 2 ^ k -> Z.lor (q * 2 ^ k) b = q * 2 ^ k + b.
Proof.
  intros Hk Hb.
  assert (Hland : Z.land (q * 2 ^ k) b = 0).
  { apply Z.bits_inj'. intros n Hn.
    rewrite Z.land_spec, Z.bits_0.
    destruct (Z.lt_ge_cases n k) as [Hlt | Hge].
    - rewrite Z.mul_pow2_bits_low by lia. reflexivity.
    - rewrite (testbit_small k b n) by lia. apply andb_false_r. }
  rewrite <- Z.lxor_lor by exact Hland.
  symmetry. apply Z.add_nocarry_lxor. exact Hland.
Qed.

Lemma encode_sum (opcode rd rs imm : Z) :
  valid_fields opcode rd rs imm ->
  encode opcode rd rs imm = opcode * 4096 + rd * 1024 + rs * 256 + imm.
Proof.
  intros (Ho & Hd & Hs & Hi). unfold encode.
  change 255 with (Z.ones 8). rewrite Z.land_ones by lia.
  rewrite (Z.mod_small imm) by (change (2 ^ 8) with 256; lia).
  rewrite !Z.shiftl_mul_pow2 by lia.
  rewrite (lor_disjoint_add 12 opcode (rd * 2 ^ 10))
    by (change (2 ^ 12) with 4096; change (2 ^ 10) with 1024; lia).
  replace (opcode * 2 ^ 12 + rd * 2 ^ 10) with ((opcode * 4 + rd) * 2 ^ 10)
    by (change (2 ^ 12) with 4096; change (2 ^ 10) with 1024; lia).
  rewrite (lor_disjoint_add 10 (opcode * 4 + rd) (rs * 2 ^ 8))
    by (change (2 ^ 10) with 1024; change (2 ^ 8) with 256; lia).
  replace ((opcode * 4 + rd) * 2 ^ 10 + rs * 2 ^ 8)
    with ((opcode * 16 + rd * 4 + rs) * 2 ^ 8)
    by (change (2 ^ 10) with 1024; change (2 ^ 8) with 256; lia).
  rewrite (lor_disjoint_add 8 (opcode * 16 + rd * 4 + rs) imm)
    by (change (2 ^ 8) with 256; lia).
  change (2 ^ 8) with 256. lia.
Qed.

Lemma decode_sum (w : Z) :
  decode w = (w / 4096, (w / 1024) mod 4, (w / 256) mod 4, w mod 256).
Proof.
  unfold decode, field_opcode, field_rd, field_rs, field_imm.
  change 3 with (Z.ones 2). change 255 with (Z.ones 8).
  rewrite !Z.land_ones, !Z.shiftr_div_pow2 by lia.
  reflexivity.
Qed.

(** C1. For every opcode in 0..15, rd and rs in 0..3 and imm in 0..255, the
    word [(opcode<<12) | (rd<<10) | (rs<<8) | (imm & 0xFF)] is a 16-bit value
    whose top four bits are the opcode, whose bits 11-10 are rd, whose bits
    9-8 are rs and whose low eight bits are imm; and every 16-bit value is
    the word of the in-range fields it decodes to.  So the encoding is a
    bijection between in-range Instructions and code words. *)
Theorem encode_decode_bijection :
  (forall opcode rd rs imm : Z,
      valid_fields opcode rd rs imm ->
      is_code_word (encode opcode rd rs imm) /\
      field_opcode (encode opcode rd rs imm) = opcode /\
      field_rd (encode opcode rd rs imm) = rd /\
      field_rs (encode opcode rd rs imm) = rs /\
      field_imm (encode opcode rd rs imm) = imm) /\
  (forall w : Z,
      is_code_word w ->
      valid_fields (field_opcode w) (field_rd w) (field_rs w) (field_imm w) /\
      encode (field_opcode w) (field_rd w) (field_rs w) (field_imm w) = w).
Proof.
  split.
  - intros opcode rd rs imm Hv.
    pose proof (decode_sum (encode opcode rd rs imm)) as Hd.
    rewrite (encode_sum _ _ _ _ Hv) in *.
    destruct Hv as (Ho & Hr & Hs & Hi).
    unfold decode in Hd. injection Hd as H1 H2 H3 H4.
    rewrite H1, H2, H3, H4. unfold is_code_word.
    repeat split; try lia; Z.div_mod_to_equations; lia.
  - intros w Hw.
    pose proof (decode_sum w) as Hd. unfold decode in Hd.
    injection Hd as H1 H2 H3 H4. rewrite H1, H2, H3, H4.
    unfold is_code_word in Hw.
    assert (Hv : valid_fields (w / 4096) ((w / 1024) mod 4)
                   ((w / 256) mod 4) (w mod 256)).
    { unfold valid_fields. repeat split; Z.div_mod_to_equations; lia. }
    split; [exact Hv |].
    rewrite (encode_sum _ _ _ _ Hv). Z.div_mod_to_equations. lia.
Qed.

Lemma encode_decode_bijection_witness :
  valid_fields 9 1 0 3 /\
  field_opcode (encode 9 1 0 3) = 9 /\
  field_rd (encode 9 1 0 3) = 1 /\
  is_code_word 37891 /\
  encode (field_opcode 37891) (field_rd 37891) (field_rs 37891)
         (field_imm 37891) = 37891.
Proof.
  assert (Hv : valid_fields 9 1 0 3) by (unfold valid_fields; lia).
  assert (Hw : is_code_word 37891) by (unfold is_code_word; lia).
  split; [exact Hv |].
  split; [exact (proj1 (proj2 (proj1 encode_decode_bijection 9 1 0 3 Hv))) |].
  split; [exact (proj1 (proj2 (proj2 (proj1 encode_decode_bijection 9 1 0 3 Hv)))) |].
  split; [exact Hw |].
  exact (proj2 (proj2 encode_decode_bijection 37891 Hw)).
Defined.

End Encoding.

(** ** The assembler driver *)

Section Driver.

Lemma numbered_from_app (start : nat) (a b : list string) :
  numbered_from start (a ++ b) =
  (numbered_from start a ++ numbered_from (start + List.length a) b)%list.
Proof.
  revert start. induction a as [| x a IH]; intros start.
  - cbn. now rewrite Nat.add_0_r.
  - unfold numbered_from in *. cbn [List.length app seq combine].
    rewrite IH. cbn [List.length].
    replace (S start + List.length a) with (start + S (List.length a)) by lia.
    reflexivity.
Qed.

Lemma assemble_loop_spec (lines : list string) :
  forall (i : nat) (program : list Z) (errors : list string),
    assemble_loop i lines program errors =
    ((program ++ flat_map word_of (numbered_from (i + 1) lines))%list,
     (errors ++ flat_map error_of (numbered_from (i + 1) lines))%list).
Proof.
  unfold numbered_from.
  induction lines as [| line rest IH]; intros i prog errs.
  - simpl. now rewrite !app_nil_r.
  - cbn [assemble_loop List.length seq combine flat_map].
    unfold word_of at 1, error_of at 1, line_result. cbn [snd fst].
    replace (S (i + 1)) with (S i + 1) by lia.
    destruct (is_empty (clean_line line)).
    + rewrite IH. reflexivity.
    + destruct (parse_line (clean_line line) (i + 1)) as [w | e].
      * rewrite IH, <- app_assoc. reflexivity.
      * rewrite IH, <- app_assoc. reflexivity.
Qed.

Lemma assemble_spec (text : string) :
  program (assemble text) = program_of (split_char LF text) /\
  errors (assemble text) = errors_of (split_char LF text) /\
  success (assemble text) = (List.length (errors (assemble text)) =? 0).
Proof.
  unfold assemble. rewrite assemble_loop_spec. cbn.
  repeat split.
Qed.

Lemma no_failure_no_error (rest : list string) :
  forall start : nat,
    (forall j line, nth_error rest j = Some line ->
                    line_fails (start + j) line = false) ->
    flat_map error_of (numbered_from start rest) = [].
Proof.
  unfold numbered_from.
  induction rest as [| x rest IH]; intros start H; [reflexivity |].
  cbn [List.length seq combine flat_map].
  rewrite IH.
  - specialize (H 0 x eq_refl). rewrite Nat.add_0_r in H.
    unfold line_fails in H. unfold error_of. cbn [fst snd].
    destruct (line_result start x) as [[w | e] |]; try reflexivity.
    discriminate.
  - intros j line Hj.
    replace (S start + j) with (start + S j) by lia.
    apply (H (S j)). exact Hj.
Qed.

Lemma read_number_uint (d : Decimal.uint) :
  forall (acc : nat) (rest : string),
    read_number acc
      (DecimalString.NilEmpty.string_of_uint d ++ String ":" rest) =
    (Nat.of_uint_acc d acc, String ":" rest).
Proof.
  induction d; intros acc rest;
    cbn [DecimalString.NilEmpty.string_of_uint append read_number
         Nat.of_uint_acc];
    [reflexivity | ..];
    match goal with
    | |- context [digit_of_char ?c] =>
        let k := eval vm_compute in (digit_of_char c) in
        change (digit_of_char c) with k
    end;
    cbv iota; rewrite IHd, Nat.tail_mul_spec; do 2 f_equal; lia.
Qed.

Lemma to_uint_nonnil (n : nat) : Nat.to_uint n <> Decimal.Nil.
Proof.
  intros Hd. pose proof (DecimalNat.Unsigned.to_of (Nat.to_uint n)) as H.
  rewrite DecimalNat.Unsigned.of_to, Hd in H. discriminate H.
Qed.

Lemma entry_line_tagged (n : nat) (msg : string) :
  entry_line (tagged_entry n msg) = Some (n, msg).
Proof.
  unfold tagged_entry.
  pose proof (DecimalNat.Unsigned.of_to n) as Hn. unfold Nat.of_uint in Hn.
  pose proof (read_number_uint (Nat.to_uint n) 0 (String " " msg)) as Hr.
  rewrite Hn in Hr.
  change (": " ++ msg) with (String ":" (String " " msg)).
  destruct (Nat.to_uint n) eqn:Hd;
    [exfalso; revert Hd; apply to_uint_nonnil | ..];
    cbn [DecimalString.NilZero.string_of_uint
         DecimalString.NilEmpty.string_of_uint append entry_line] in *;
    match goal with
    | |- context [digit_of_char ?c] =>
        let k := eval vm_compute in (digit_of_char c) in
        change (digit_of_char c) with k
    end;
    cbv iota; rewrite Hr; reflexivity.
Qed.

Lemma failures_render (lines : list string) :
  forall start : nat,
    flat_map error_of (numbered_from start lines) =
    map (fun p => tagged_entry (fst p) (message (snd p)))
        (failures_from start lines).
Proof.
  unfold failures_from, numbered_from.
  induction lines as [| line rest IH]; intros start; [reflexivity |].
  cbn [List.length seq combine flat_map]. rewrite map_app, IH. f_equal.
  unfold error_of, failure_of. cbn [fst snd].
  destruct (line_result start line) as [[w | e] |]; reflexivity.
Qed.

Lemma errors_read_back (text : string) :
  map entry_line (errors (assemble text)) =
  map (fun p => Some (fst p, message (snd p)))
      (failures_from 1 (split_char LF text)).
Proof.
  destruct (assemble_spec text) as (_ & -> & _).
  unfold errors_of. rewrite failures_render, map_map.
  apply map_ext. intros [n e]. apply entry_line_tagged.
Qed.

Lemma error_of_fails (n : nat) (line : string) :
  line_fails n line = true ->
  exists e, line_result n line = Some (Err e) /\
            error_of (n, line) = [tagged_entry n (message e)].
Proof.
  unfold line_fails, error_of. cbn [fst snd].
  destruct (line_result n line) as [[w | e] |]; try discriminate.
  intros _. now exists e.
Qed.

Lemma error_of_not_fails (n : nat) (line : string) :
  line_fails n line = false -> error_of (n, line) = [].
Proof.
  unfold line_fails, error_of. cbn [fst snd].
  destruct (line_result n line) as [[w | e] |]; try discriminate; reflexivity.
Qed.

(** C2. [assemble] does not stop at a failing line.  Its program and its
    errors are the per-line contributions of all physical lines in source
    order: a blank or comment-only line gives nothing, a failing line gives
    one error entry, a valid line gives its code word; what the lines
    before a point did has no effect on what the lines after it
    contribute.  The entry of a failing line is the text "Line n: message"
    with [n] its 1-based physical line number in decimal notation, and
    reading the number back from each entry gives the numbers of the
    failing lines in source order.  In particular, when exactly lines 2 and
    5 fail, the errors are exactly two, "Line 2: ..." and "Line 5: ...",
    and the program holds the code words of the valid lines in order. *)
Theorem assemble_collects_all :
  (forall text : string,
      program (assemble text) = program_of (split_char LF text) /\
      errors (assemble text) = errors_of (split_char LF text)) /\
  (forall a b : list string,
      program_of (a ++ b) =
      (program_of a ++ flat_map word_of (numbered_from (1 + List.length a) b))%list /\
      errors_of (a ++ b) =
      (errors_of a ++ flat_map error_of (numbered_from (1 + List.length a) b))%list) /\
  (forall text : string,
      map entry_line (errors (assemble text)) =
      map (fun p => Some (fst p, message (snd p)))
          (failures_from 1 (split_char LF text))) /\
  (forall text : string,
      4 < List.length (split_char LF text) ->
      (forall i line,
          nth_error (split_char LF text) i = Some line ->
          (line_fails (i + 1) line = true <-> i = 1 \/ i = 4)) ->
      exists l2 l5 e2 e5,
        nth_error (split_char LF text) 1 = Some l2 /\
        nth_error (split_char LF text) 4 = Some l5 /\
        line_result 2 l2 = Some (Err e2) /\
        line_result 5 l5 = Some (Err e5) /\
        errors (assemble text) =
          ["Line 2: " ++ message e2; "Line 5: " ++ message e5] /\
        map entry_line (errors (assemble text)) =
          [Some (2, message e2); Some (5, message e5)] /\
        success (assemble text) = false /\
        program (assemble text) = program_of (split_char LF text)).
Proof.
  split; [| split; [| split]].
  - intros text. destruct (assemble_spec text) as (Hp & He & _). now split.
  - intros a b. unfold program_of, errors_of.
    rewrite numbered_from_app, !flat_map_app. now split.
  - apply errors_read_back.
  - intros text Hlen H.
    destruct (assemble_spec text) as (Hp & He & Hs).
    rewrite Hs, He. clear Hs He.
    destruct (split_char LF text) as [| l1 [| l2 [| l3 [| l4 [| l5 rest]]]]];
      cbn in Hlen; try lia.
    exists l2, l5.
    destruct (error_of_fails 2 l2) as (e2 & Hr2 & He2).
    { apply (H 1 l2 eq_refl). now left. }
    destruct (error_of_fails 5 l5) as (e5 & Hr5 & He5).
    { apply (H 4 l5 eq_refl). now right. }
    exists e2, e5.
    assert (Herr : errors_of (l1 :: l2 :: l3 :: l4 :: l5 :: rest) =
                   ["Line 2: " ++ message e2; "Line 5: " ++ message e5]).
    { unfold errors_of, numbered_from.
      cbn [List.length seq combine flat_map].
      rewrite He2, He5.
      rewrite (error_of_not_fails 1 l1), (error_of_not_fails 3 l3),
        (error_of_not_fails 4 l4).
      - change (combine (seq 6 (List.length rest)) rest)
          with (numbered_from 6 rest).
        rewrite no_failure_no_error; [reflexivity |].
        intros j line Hj.
        destruct (line_fails (6 + j) line) eqn:Hf; [| reflexivity].
        exfalso.
        assert (Hi : 5 + j = 1 \/ 5 + j = 4).
        { apply (H (5 + j) line); [exact Hj |].
          replace (5 + j + 1) with (6 + j) by lia. exact Hf. }
        lia.
      - destruct (line_fails 4 l4) eqn:Hf; [| reflexivity].
        exfalso. assert (Hi : 3 = 1 \/ 3 = 4) by (apply (H 3 l4 eq_refl); exact Hf).
        lia.
      - destruct (line_fails 3 l3) eqn:Hf; [| reflexivity].
        exfalso. assert (Hi : 2 = 1 \/ 2 = 4) by (apply (H 2 l3 eq_refl); exact Hf).
        lia.
      - destruct (line_fails 1 l1) eqn:Hf; [| reflexivity].
        exfalso. assert (Hi : 0 = 1 \/ 0 = 4) by (apply (H 0 l1 eq_refl); exact Hf).
        lia. }
    rewrite Herr. repeat split; try assumption; reflexivity.
Qed.

End Driver.

Section Scenarios.

Lemma assemble_collects_all_witness :
  4 < List.length (split_char LF source_failing_2_5) /\
  exists l2 l5 e2 e5,
    nth_error (split_char LF source_failing_2_5) 1 = Some l2 /\
    nth_error (split_char LF source_failing_2_5) 4 = Some l5 /\
    line_result 2 l2 = Some (Err e2) /\
    line_result 5 l5 = Some (Err e5) /\
    errors (assemble source_failing_2_5) =
      ["Line 2: " ++ message e2; "Line 5: " ++ message e5] /\
    map entry_line (errors (assemble source_failing_2_5)) =
      [Some (2, message e2); Some (5, message e5)] /\
    success (assemble source_failing_2_5) = false /\
    program (assemble source_failing_2_5) =
      program_of (split_char LF source_failing_2_5).
Proof.
  split; [vm_compute; lia |].
  apply (proj2 (proj2 (proj2 assemble_collects_all)) source_failing_2_5).
  - vm_compute. lia.
  - intros i line.
    change (split_char LF source_failing_2_5)
      with ["LDI R0, 5"; "FOO R0"; "NOT R1"; "; a comment"; "ADD R9, R0"; "HLT"].
    destruct i as [| [| [| [| [| [| i]]]]]]; cbn [nth_error];
      intros Hl; try (destruct i; discriminate Hl);
      injection Hl as <-; vm_compute; split; intros; try discriminate;
      try reflexivity; try lia; auto.
Defined.

Example assemble_failing_2_5 :
  assemble source_failing_2_5 =
  {| success := false;
     program := [0x9005; 0x6400; 0xE000]%Z;
     errors := ["Line 2: Unknown instruction: FOO";
                "Line 5: Invalid register: R9 (use R0, R1, R2, or R3)"] |}.
Proof. vm_compute. reflexivity. Qed.

(** C3, as the specification states it, fails: the second code word of
    scenario 1 is not 0x9103. *)
Lemma scenario_1_not_9103 :
  program (assemble scenario_1) <> [0x9005; 0x9103; 0x1100; 0xE000]%Z.
Proof. vm_compute. discriminate. Qed.

(** C3, amended. Assembling ["LDI R0, 5\nLDI R1, 3\nADD R0, R1\nHLT"] gives
    no error and the code words 0x9005, 0x9403, 0x1100, 0xE000: register 1
    in the rd field is bit 10 of the word. *)
Theorem scenario_1_assembles :
  assemble scenario_1 =
  {| success := true;
     program := [0x9005; 0x9403; 0x1100; 0xE000]%Z;
     errors := [] |}.
Proof. vm_compute. reflexivity. Qed.

End Scenarios.

(** ** Splitting and joining lines *)

Section Lines.

Lemma split_char_no_sep (c : ascii) (s : string) :
  contains c s = false -> split_char c s = [s].
Proof.
  induction s as [| a s IH]; [reflexivity |].
  cbn. destruct (Ascii.eqb a c); [discriminate |].
  cbn. intros H. now rewrite IH.
Qed.

Lemma split_char_sep (c : ascii) (s t : string) :
  contains c s = false ->
  split_char c (s ++ String c t) = s :: split_char c t.
Proof.
  induction s as [| a s IH]; intros H.
  - cbn. now rewrite Ascii.eqb_refl.
  - cbn in H |- *. destruct (Ascii.eqb a c); [discriminate |].
    cbn in H. now rewrite IH.
Qed.

(** Splitting on newlines undoes joining with newlines. *)
Lemma split_char_join (lines : list string) :
  lines <> [] ->
  Forall (fun l => contains LF l = false) lines ->
  split_char LF (join newline lines) = lines.
Proof.
  induction lines as [| x rest IH]; intros Hne Hall; [contradiction |].
  inversion Hall as [| ? ? Hx Hrest]; subst.
  destruct rest as [| y rest'].
  - cbn. now apply split_char_no_sep.
  - change (join newline (x :: y :: rest'))
      with (x ++ String LF (join newline (y :: rest')))%string.
    rewrite split_char_sep by exact Hx.
    f_equal. apply IH; [discriminate | exact Hrest].
Qed.

End Lines.

(** ** The trace extractor *)

Section TraceExtractor.

Lemma kept_lines_cons (line : string) (rest : list string) :
  kept_lines (line :: rest) =
  if negb (is_empty (strip line)) && negb (is_diagnostic (strip line))
  then strip line :: kept_lines rest
  else kept_lines rest.
Proof. reflexivity. Qed.

Lemma kept_lines_app (a b : list string) :
  kept_lines (a ++ b) = (kept_lines a ++ kept_lines b)%list.
Proof. unfold kept_lines. now rewrite map_app, filter_app. Qed.

Lemma extract_loop_spec (lines : list string) :
  forall (in_json : bool) (json_lines : list string),
    extract_loop lines in_json json_lines =
    (json_lines ++
     (if in_json then through_close (kept_lines lines)
      else block_of (kept_lines lines)))%list.
Proof.
  induction lines as [| line rest IH]; intros in_json acc.
  - cbn. destruct in_json; now rewrite app_nil_r.
  - cbn [extract_loop]. rewrite kept_lines_cons.
    destruct (is_empty (strip line)); cbn [negb andb]; [apply IH |].
    destruct (is_diagnostic (strip line)); cbn [negb]; [apply IH |].
    destruct (String.eqb_spec (strip line) "[") as [Ho | Ho].
    + rewrite IH, <- app_assoc. rewrite Ho.
      destruct in_json; reflexivity.
    + destruct in_json.
      * cbn [through_close].
        destruct (String.eqb (strip line) "]"); [reflexivity |].
        rewrite IH, <- app_assoc. reflexivity.
      * cbn [block_of].
        destruct (String.eqb_spec (strip line) "[") as [Ho' | _];
          [contradiction |].
        apply IH.
Qed.

Lemma block_of_no_open (ls : list string) :
  ~ In "[" ls -> block_of ls = [].
Proof.
  induction ls as [| l ls IH]; intros Hn; [reflexivity |].
  cbn. destruct (String.eqb_spec l "[") as [-> | _].
  - exfalso. apply Hn. now left.
  - apply IH. intros Hin. apply Hn. now right.
Qed.

Lemma block_of_skip (pre ls : list string) :
  ~ In "[" pre -> block_of (pre ++ ls) = block_of ls.
Proof.
  induction pre as [| l pre IH]; intros Hn; [reflexivity |].
  cbn. destruct (String.eqb_spec l "[") as [-> | _].
  - exfalso. apply Hn. now left.
  - apply IH. intros Hin. apply Hn. now right.
Qed.

Lemma through_close_stop (body post : list string) :
  ~ In "]" body ->
  through_close (body ++ "]" :: post) = (body ++ ["]"])%list.
Proof.
  induction body as [| l body IH]; intros Hn; [reflexivity |].
  cbn. destruct (String.eqb_spec l "]") as [-> | _].
  - exfalso. apply Hn. now left.
  - f_equal. apply IH. intros Hin. apply Hn. now right.
Qed.

(** C4, as the specification states it, fails: a diagnostic line and a blank
    line that come after the opening bracket are not buffered. *)
Lemma extract_drops_noise_in_block :
  nth_error (split_char LF output_with_noise_in_block) 1 = Some "[" /\
  nth_error (split_char LF output_with_noise_in_block) 2 = Some "WARNING: x" /\
  nth_error (split_char LF output_with_noise_in_block) 3 = Some "" /\
  extract_json_lines output_with_noise_in_block = ["["; "{}"; "]"].
Proof. vm_compute. repeat split; reflexivity. Qed.

(** C4, amended. The blank/diagnostic filter applies to every line of the
    raw output, before and after the opening bracket.  The buffer is: of the
    stripped lines that are neither blank nor start with "WARNING:" or
    "ERROR:", those from the first line that is only the opening bracket up
    to and including the first later line that is only the closing bracket,
    where scanning stops; kept lines before the opening bracket are dropped.
    So for an output whose lines are [pre], "[", [body], "]", [post] the
    buffer is "[", the kept lines of [body], "]". *)
Theorem extract_json_lines_spec :
  (forall output : string,
      extract_json_lines output =
      block_of (kept_lines (split_char LF output))) /\
  (forall pre body post : list string,
      Forall (fun l => contains LF l = false) (pre ++ body ++ post) ->
      ~ In "[" (kept_lines pre) ->
      ~ In "]" (kept_lines body) ->
      extract_json_lines
        (join newline (pre ++ "[" :: body ++ "]" :: post)) =
      ("[" :: kept_lines body ++ ["]"])%list).
Proof.
  split.
  - intros output. unfold extract_json_lines. now rewrite extract_loop_spec.
  - intros pre body post Hlf Hpre Hbody.
    unfold extract_json_lines. rewrite split_char_join.
    2:{ destruct pre; discriminate. }
    2:{ rewrite !Forall_app in Hlf. destruct Hlf as (Hl1 & Hl2 & Hl3).
        apply Forall_app. split; [exact Hl1 |].
        constructor; [reflexivity |].
        apply Forall_app. split; [exact Hl2 |].
        constructor; [reflexivity | exact Hl3]. }
    rewrite extract_loop_spec. cbn [app].
    rewrite kept_lines_app, (block_of_skip _ _ Hpre).
    change ("[" :: body ++ "]" :: post)%list
      with (["["] ++ (body ++ ["]"] ++ post))%list.
    rewrite !kept_lines_app.
    change (kept_lines ["["]) with ["["].
    change (kept_lines ["]"]) with ["]"].
    cbn [app block_of]. rewrite String.eqb_refl.
    now rewrite through_close_stop.
Qed.

Lemma extract_json_lines_spec_witness :
  extract_json_lines
    (join newline (["VCD info"; "WARNING: a"] ++
                   "[" :: ["WARNING: x"; ""; "  {}  "] ++ "]" :: ["done"])) =
  ("[" :: kept_lines ["WARNING: x"; ""; "  {}  "] ++ ["]"])%list.
Proof.
  apply (proj2 extract_json_lines_spec).
  - repeat constructor.
  - vm_compute. intros H.
    repeat (destruct H as [H | H]; [discriminate H |]). exact H.
  - vm_compute. intros H.
    repeat (destruct H as [H | H]; [discriminate H |]). exact H.
Defined.

End TraceExtractor.

(** ** Operand parsing *)

Section Operands.

Local Open Scope char_scope.

Lemma string_eqb_cons (a b : ascii) (s t : string) :
  String.eqb (String a s) (String b t) = Ascii.eqb a b && String.eqb s t.
Proof.
  cbn. destruct (Ascii.eqb a b); reflexivity.
Qed.

Lemma parse_register_lookup (s : string) :
  parse_register s =
  match dict_get (bare_register s) REGISTERS with
  | Some n => Ok n
  | None => Err (InvalidRegister s)
  end.
Proof.
  unfold parse_register. fold (bare_register s).
  destruct (bare_register s) as [| c1 [| c2 [| c3 r]]].
  - reflexivity.
  - cbn [startswith String.length Nat.eqb String.get contains dict_get REGISTERS].
    rewrite !string_eqb_cons. cbn [String.eqb].
    rewrite !andb_false_r. reflexivity.
  - cbn [startswith String.length Nat.eqb String.get contains dict_get REGISTERS].
    rewrite !string_eqb_cons.
    rewrite (Ascii.eqb_sym c1 "R").
    destruct (Ascii.eqb_spec "R" c1) as [<- | Hc1]; cbn [andb]; [| reflexivity].
    rewrite (Ascii.eqb_sym c2 "0"), (Ascii.eqb_sym c2 "1"),
      (Ascii.eqb_sym c2 "2"), (Ascii.eqb_sym c2 "3").
    destruct (Ascii.eqb_spec "0" c2) as [<- | H0]; [reflexivity |].
    destruct (Ascii.eqb_spec "1" c2) as [<- | H1]; [reflexivity |].
    destruct (Ascii.eqb_spec "2" c2) as [<- | H2]; [reflexivity |].
    destruct (Ascii.eqb_spec "3" c2) as [<- | H3]; [reflexivity |].
    reflexivity.
  - cbn [startswith String.length Nat.eqb String.get contains dict_get REGISTERS].
    rewrite !string_eqb_cons. cbn [String.eqb].
    rewrite !andb_false_r. reflexivity.
Qed.

(** C5, as the specification states it, fails: brackets are removed wherever
    they stand, so tokens outside the two listed forms are accepted. *)
Lemma parse_register_stray_bracket :
  is_register_form "R0]" = false /\ parse_register "R0]" = Ok 0%Z /\
  is_register_form "[r[2" = false /\ parse_register "[r[2" = Ok 2%Z.
Proof. vm_compute. repeat split; reflexivity. Qed.

(** C5, amended. [parse_register] accepts exactly the tokens that, put in
    upper case and with every "[" and "]" removed, read R0, R1, R2 or R3, and
    returns the register number; the forms "Rn" and "[Rn]" of the
    specification, in either case, are among them.  Every other token fails
    with the operand error that cites the token as it was given.  "R3" is
    accepted and "R4" is rejected. *)
Theorem parse_register_spec (token : string) :
  parse_register token =
    match dict_get (bare_register token) REGISTERS with
    | Some n => Ok n
    | None => Err (InvalidRegister token)
    end /\
  (is_register_form token = true -> is_ok (parse_register token) = true) /\
  (forall n, parse_register token = Ok n -> (0 <= n <= 3)%Z) /\
  (forall e, parse_register token = Err e ->
             e = InvalidRegister token /\ is_OperandError e = true /\
             message e =
               ("Invalid register: " ++ token ++ " (use R0, R1, R2, or R3)")%string) /\
  parse_register "R3" = Ok 3%Z /\
  parse_register "R4" = Err (InvalidRegister "R4").
Proof.
  split; [apply parse_register_lookup |].
  split.
  { rewrite parse_register_lookup. unfold is_register_form, bare_register.
    cbn [existsb]. intros H.
    repeat (apply orb_true_iff in H; destruct H as [H | H];
            [apply String.eqb_eq in H; rewrite H; reflexivity |]).
    discriminate H. }
  split.
  { intros n. rewrite parse_register_lookup. unfold REGISTERS.
    cbn [dict_get].
    repeat (destruct (String.eqb (bare_register token) _);
            [intros [= <-]; lia |]).
    discriminate. }
  split.
  { intros e. rewrite parse_register_lookup.
    destruct (dict_get (bare_register token) REGISTERS); [discriminate |].
    intros [= <-]. repeat split. }
  split; reflexivity.
Qed.

Lemma parse_register_spec_witness :
  is_register_form "[r2]" = true /\ is_ok (parse_register "[r2]") = true /\
  parse_register "r1" = Ok 1%Z /\ (0 <= 1 <= 3)%Z.
Proof.
  split; [reflexivity |].
  split; [apply (proj1 (proj2 (parse_register_spec "[r2]"))); reflexivity |].
  split; [reflexivity |].
  apply (proj1 (proj2 (proj2 (parse_register_spec "r1"))) 1%Z). reflexivity.
Defined.

(** Facts about single characters, by enumeration of the 256 of them. *)
Ltac by_char_enumeration c :=
  destruct c as [[] [] [] [] [] [] [] []]; vm_compute; reflexivity.

Lemma digit_char_plain (c : ascii) :
  implb (is_digit_of 36 c)
        (negb (is_c_space c) && negb (Ascii.eqb c "+") &&
         negb (Ascii.eqb c "-") && negb (Ascii.eqb c underscore) &&
         negb (Ascii.eqb "_" c)) = true.
Proof. by_char_enumeration c. Qed.

Lemma hex_digit_not_x (c : ascii) :
  implb (is_digit_of 16 c)
        (negb (Ascii.eqb c "x") && negb (Ascii.eqb c "X")) = true.
Proof. by_char_enumeration c. Qed.

Lemma bin_digit_not_b (c : ascii) :
  implb (is_digit_of 2 c)
        (negb (Ascii.eqb c "b") && negb (Ascii.eqb c "B")) = true.
Proof. by_char_enumeration c. Qed.

Lemma dec_digit_lower (c : ascii) :
  implb (is_digit_of 10 c)
        (negb (Ascii.eqb "x" (lower_char c)) &&
         negb (Ascii.eqb "b" (lower_char c))) = true.
Proof. by_char_enumeration c. Qed.

Lemma is_digit_of_mono (b b' : Z) (c : ascii) :
  (b <= b')%Z -> is_digit_of b c = true -> is_digit_of b' c = true.
Proof.
  unfold is_digit_of. intros Hb H.
  apply Z.ltb_lt in H. apply Z.ltb_lt. lia.
Qed.

Lemma scan_digits_numeral (base : Z) (s : string) :
  (base <= 36)%Z ->
  forall (acc : Z) (n : nat),
    all_chars (is_digit_of base) s = true ->
    scan_digits base false acc n s =
    Some (digits_value base acc s, n + String.length s, EmptyString).
Proof.
  intros Hb. induction s as [| c s IH]; intros acc n Hall.
  - cbn. now rewrite Nat.add_0_r.
  - cbn in Hall. apply andb_true_iff in Hall. destruct Hall as [Hc Hs].
    pose proof (digit_char_plain c) as Hp.
    rewrite (is_digit_of_mono base 36 c Hb Hc) in Hp. cbn [implb] in Hp.
    rewrite !andb_true_iff, !negb_true_iff in Hp.
    destruct Hp as ((((_ & _) & _) & Hus) & _).
    cbn [scan_digits digits_value String.length]. rewrite Hus.
    unfold is_digit_of in Hc. rewrite Hc.
    rewrite IH by exact Hs. now rewrite Nat.add_succ_r.
Qed.

(** [int] on a plain numeral, after the sign and the prefix are dealt with. *)
Lemma int_digits_numeral (base : Z) (s : string) :
  (base <= 36)%Z ->
  is_numeral base s = true ->
  int_digits base false s =
  if (base =? 10)%Z && (int_max_str_digits <? String.length s)%nat then None
  else Some (numeral_value base s).
Proof.
  intros Hb Hnum. unfold is_numeral in Hnum.
  apply andb_true_iff in Hnum. destruct Hnum as [Hne Hall].
  unfold int_digits.
  rewrite scan_digits_numeral by assumption.
  destruct s as [| c s]; [discriminate Hne |].
  cbn [startswith].
  pose proof (digit_char_plain c) as Hp.
  cbn in Hall. apply andb_true_iff in Hall. destruct Hall as [Hc Hs].
  rewrite (is_digit_of_mono base 36 c Hb Hc) in Hp. cbn [implb] in Hp.
  rewrite !andb_true_iff, !negb_true_iff in Hp.
  destruct Hp as ((((_ & _) & _) & _) & Hus).
  rewrite Hus. cbn [andb]. cbn [Nat.add String.length Nat.eqb].
  destruct ((base =? 10)%Z && (int_max_str_digits <? S (String.length s))%nat);
    reflexivity.
Qed.

Lemma numeral_head (base : Z) (s : string) :
  (base <= 36)%Z ->
  is_numeral base s = true ->
  exists c s', s = String c s' /\ is_digit_of base c = true /\
               all_chars (is_digit_of base) s' = true /\
               read_sign (skip_spaces s) = (false, s).
Proof.
  intros Hb Hnum. unfold is_numeral in Hnum.
  apply andb_true_iff in Hnum. destruct Hnum as [Hne Hall].
  destruct s as [| c s]; [discriminate Hne |].
  cbn in Hall. apply andb_true_iff in Hall. destruct Hall as [Hc Hs].
  exists c, s. repeat split; try assumption.
  pose proof (digit_char_plain c) as Hp.
  rewrite (is_digit_of_mono base 36 c Hb Hc) in Hp. cbn [implb] in Hp.
  rewrite !andb_true_iff, !negb_true_iff in Hp.
  destruct Hp as ((((Hsp & Hplus) & Hminus) & _) & _).
  cbn [skip_spaces]. rewrite Hsp. cbn [read_sign]. now rewrite Hplus, Hminus.
Qed.

Lemma skip_prefix_10 (s : string) : skip_prefix 10 s = s.
Proof.
  destruct s as [| z [| p rest]]; try reflexivity.
  unfold skip_prefix. change (10 =? 16)%Z with false.
  change (10 =? 2)%Z with false. cbn [andb orb].
  now rewrite andb_false_r.
Qed.

Lemma int_decimal_numeral (s : string) :
  is_numeral 10 s = true ->
  String.length s <= int_max_str_digits ->
  PyInt.int s 10 = Some (numeral_value 10 s).
Proof.
  intros Hnum Hlen. unfold PyInt.int.
  destruct (numeral_head 10 s ltac:(lia) Hnum) as (c & s' & -> & _ & _ & Hsign).
  rewrite Hsign, skip_prefix_10, int_digits_numeral by (lia || assumption).
  change (10 =? 10)%Z with true. cbn [andb].
  destruct (Nat.ltb_spec int_max_str_digits (String.length (String c s')));
    [lia | reflexivity].
Qed.

Lemma int_binary_numeral (s : string) :
  is_numeral 2 s = true ->
  PyInt.int s 2 = Some (numeral_value 2 s).
Proof.
  intros Hnum. unfold PyInt.int.
  destruct (numeral_head 2 s ltac:(lia) Hnum) as (c & s' & -> & Hc & Hs & Hsign).
  rewrite Hsign.
  assert (Hpre : skip_prefix 2 (String c s') = String c s').
  { destruct s' as [| p rest]; [reflexivity |].
    cbn in Hs. apply andb_true_iff in Hs. destruct Hs as [Hp _].
    pose proof (bin_digit_not_b p) as Hb. rewrite Hp in Hb. cbn [implb] in Hb.
    rewrite andb_true_iff, !negb_true_iff in Hb. destruct Hb as [Hb1 Hb2].
    unfold skip_prefix. rewrite Hb1, Hb2.
    change (2 =? 16)%Z with false. change (2 =? 2)%Z with true.
    cbn [andb orb]. now rewrite andb_false_r. }
  rewrite Hpre, int_digits_numeral by (lia || assumption).
  reflexivity.
Qed.

Lemma int_hex_numeral (x : ascii) (s : string) :
  x = "x" \/ x = "X" ->
  is_numeral 16 s = true ->
  PyInt.int (String "0" (String x s)) 16 = Some (numeral_value 16 s).
Proof.
  intros Hx Hnum. unfold PyInt.int.
  destruct (numeral_head 16 s ltac:(lia) Hnum) as (c & s' & -> & Hc & Hs & _).
  pose proof (digit_char_plain c) as Hp.
  rewrite (is_digit_of_mono 16 36 c ltac:(lia) Hc) in Hp. cbn [implb] in Hp.
  rewrite !andb_true_iff, !negb_true_iff in Hp.
  destruct Hp as ((((_ & _) & _) & Hus) & _).
  assert (Hpre : skip_prefix 16 (String "0" (String x (String c s'))) =
                 String c s').
  { unfold skip_prefix. rewrite Hus.
    destruct Hx as [-> | ->]; reflexivity. }
  change (read_sign (skip_spaces (String "0" (String x (String c s')))))
    with (false, String "0" (String x (String c s'))).
  cbv beta iota.
  rewrite Hpre, int_digits_numeral by (lia || assumption).
  reflexivity.
Qed.

End Operands.

Section Immediates.

Lemma decimal_no_prefix (s : string) :
  is_numeral 10 s = true ->
  startswith "0x" (lower s) = false /\ startswith "0b" (lower s) = false.
Proof.
  intros Hnum. unfold is_numeral in Hnum.
  apply andb_true_iff in Hnum. destruct Hnum as [_ Hall].
  destruct s as [| c1 [| c2 r]]; [now split | |].
  - cbn [lower map_chars startswith]. now rewrite !andb_false_r.
  - cbn in Hall. rewrite !andb_true_iff in Hall. destruct Hall as (_ & Hc2 & _).
    pose proof (dec_digit_lower c2) as Hl. rewrite Hc2 in Hl. cbn [implb] in Hl.
    rewrite andb_true_iff, !negb_true_iff in Hl. destruct Hl as [Hx Hb].
    unfold lower. cbn [map_chars startswith]. rewrite Hx, Hb.
    cbn [andb]. now rewrite !andb_false_r.
Qed.

Lemma parse_immediate_unfold (token : string) :
  parse_immediate token =
  match immediate_literal (strip token) with
  | None => Err (InvalidImmediate (strip token))
  | Some value =>
      if (value <? 0)%Z || (255 <? value)%Z
      then Err (out_of_range_error value)
      else Ok value
  end.
Proof. reflexivity. Qed.

End Immediates.

(** ** The literals [int] reads *)

Section Literals.

Ltac each_char c :=
  destruct c as [[] [] [] [] [] [] [] []]; vm_compute; reflexivity.

Lemma digit_of_16 (c : ascii) :
  match digit_of 16 c with
  | Some k => (digit_value c <? 16)%Z && (digit_value c =? k)%Z &&
              negb (Ascii.eqb c underscore) && negb (Ascii.eqb "_" c) &&
              negb (is_c_space c) && negb (Ascii.eqb c "+") &&
              negb (Ascii.eqb c "-") && negb (Ascii.eqb c "x") &&
              negb (Ascii.eqb c "X") && (0 <=? k)%Z
  | None => negb (digit_value c <? 16)%Z
  end = true.
Proof. each_char c. Qed.

Lemma digit_of_10 (c : ascii) :
  match digit_of 10 c with
  | Some k => (digit_value c <? 10)%Z && (digit_value c =? k)%Z &&
              negb (Ascii.eqb c "x") && negb (Ascii.eqb c "X") &&
              negb (Ascii.eqb c "b") && negb (Ascii.eqb c "B")
  | None => negb (digit_value c <? 10)%Z
  end = true.
Proof. each_char c. Qed.

Lemma digit_of_2 (c : ascii) :
  match digit_of 2 c with
  | Some k => (digit_value c <? 2)%Z && (digit_value c =? k)%Z &&
              negb (Ascii.eqb c "b") && negb (Ascii.eqb c "B")
  | None => negb (digit_value c <? 2)%Z
  end = true.
Proof. each_char c. Qed.

Lemma is_blank_c_space (c : ascii) : is_c_space c = is_blank c.
Proof. each_char c. Qed.


Lemma blank_plain (c : ascii) :
  implb (is_blank c)
        (negb (Ascii.eqb c underscore) && negb (digit_value c <? 16)%Z &&
         negb (Ascii.eqb c "x") && negb (Ascii.eqb c "X") &&
         negb (Ascii.eqb c "b") && negb (Ascii.eqb c "B")) = true.
Proof. each_char c. Qed.

Lemma lower_char_zero (c : ascii) :
  Ascii.eqb "0" (lower_char c) = Ascii.eqb c "0".
Proof. each_char c. Qed.

Lemma lower_char_x (c : ascii) :
  Ascii.eqb "x" (lower_char c) = Ascii.eqb c "x" || Ascii.eqb c "X".
Proof. each_char c. Qed.

Lemma lower_char_b (c : ascii) :
  Ascii.eqb "b" (lower_char c) = Ascii.eqb c "b" || Ascii.eqb c "B".
Proof. each_char c. Qed.

Variable base : Z.
Hypothesis Hbase : base = 2%Z \/ base = 10%Z \/ base = 16%Z.

Lemma digit_of_mono (c : ascii) (k : Z) :
  digit_of base c = Some k -> digit_of 16 c = Some k.
Proof.
  unfold digit_of. destruct (hex_value c) as [h |]; [| discriminate].
  destruct (Z.ltb_spec h base); [| discriminate]. intros [= <-].
  destruct (Z.ltb_spec h 16); [reflexivity | lia].
Qed.

(** The digits of the specification are the digits [int] reads. *)
Lemma digit_of_value (c : ascii) :
  match digit_of base c with
  | Some k => (digit_value c <? base)%Z = true /\ digit_value c = k
  | None => (digit_value c <? base)%Z = false
  end.
Proof.
  destruct Hbase as [-> | [-> | ->]].
  - pose proof (digit_of_2 c) as H. destruct (digit_of 2 c).
    + rewrite !andb_true_iff in H. destruct H as (((H1 & H2) & _) & _).
      split; [exact H1 | now apply Z.eqb_eq].
    + now apply negb_true_iff.
  - pose proof (digit_of_10 c) as H. destruct (digit_of 10 c).
    + rewrite !andb_true_iff in H. destruct H as (((((H1 & H2) & _) & _) & _) & _).
      split; [exact H1 | now apply Z.eqb_eq].
    + now apply negb_true_iff.
  - pose proof (digit_of_16 c) as H. destruct (digit_of 16 c).
    + rewrite !andb_true_iff in H.
      destruct H as (((((((((H1 & H2) & _) & _) & _) & _) & _) & _) & _) & _).
      split; [exact H1 | now apply Z.eqb_eq].
    + now apply negb_true_iff.
Qed.

Lemma digit_plain (c : ascii) (k : Z) :
  digit_of base c = Some k ->
  Ascii.eqb c underscore = false /\ Ascii.eqb "_" c = false /\
  is_c_space c = false /\ Ascii.eqb c "+" = false /\
  Ascii.eqb c "-" = false /\ Ascii.eqb c "x" = false /\
  Ascii.eqb c "X" = false.
Proof.
  intros H. apply digit_of_mono in H.
  pose proof (digit_of_16 c) as H16. rewrite H in H16.
  rewrite !andb_true_iff, !negb_true_iff in H16. tauto.
Qed.

(** *** The digits *)

Lemma scan_digits_sound (s : string) :
  forall (prev : bool) (acc : Z) (n : nat) (v : Z) (n' : nat) (rest : string),
    scan_digits base prev acc n s = Some (v, n', rest) ->
    exists body ks,
      s = body ++ rest /\ run_tail base prev body ks /\
      v = positional_from base acc ks /\ n' = n + List.length ks.
Proof.
  induction s as [| c s IH]; intros prev acc n v n' rest.
  - cbn [scan_digits]. destruct prev; [discriminate |]. intros [= <- <- <-].
    exists "", []. repeat split; [constructor | now rewrite Nat.add_0_r].
  - cbn [scan_digits]. destruct (Ascii.eqb c underscore) eqn:Hus.
    { destruct prev; [discriminate |]. intros H.
      destruct (IH _ _ _ _ _ _ H) as (body & ks & -> & Ht & -> & ->).
      apply Ascii.eqb_eq in Hus. subst c.
      exists (String "_" body), ks. repeat split. now constructor. }
    pose proof (digit_of_value c) as Hd.
    destruct (digit_of base c) as [k |] eqn:Hk.
    + destruct Hd as [-> <-]. intros H.
      destruct (IH _ _ _ _ _ _ H) as (body & ks & -> & Ht & -> & ->).
      exists (String c body), (digit_value c :: ks).
      repeat split; [now constructor | cbn [List.length]; lia].
    + rewrite Hd. destruct prev; [discriminate |]. intros [= <- <- <-].
      exists "", []. repeat split; [constructor | now rewrite Nat.add_0_r].
Qed.

Lemma scan_digits_complete (prev : bool) (body : string) (ks : list Z) :
  run_tail base prev body ks ->
  forall (acc : Z) (n : nat) (rest : string),
    stops base rest ->
    scan_digits base prev acc n (body ++ rest) =
    Some (positional_from base acc ks, n + List.length ks, rest).
Proof.
  induction 1 as [| prev c k s ks Hk Ht IH | s ks Ht IH];
    intros acc n rest Hrest.
  - cbn [append List.length positional_from fold_left]. rewrite Nat.add_0_r.
    destruct rest as [| c r]; [reflexivity |].
    destruct Hrest as [Hn Hus]. cbn [scan_digits]. unfold underscore.
    rewrite Hus.
    pose proof (digit_of_value c) as Hd. rewrite Hn in Hd. now rewrite Hd.
  - cbn [append scan_digits].
    destruct (digit_plain c k Hk) as (Hus & _). rewrite Hus.
    pose proof (digit_of_value c) as Hd. rewrite Hk in Hd.
    destruct Hd as [-> ->]. rewrite IH by exact Hrest.
    cbn [List.length]. do 3 f_equal. lia.
  - cbn [append scan_digits]. change (Ascii.eqb "_" underscore) with true.
    cbv iota. now apply IH.
Qed.

Lemma run_of_tail (s : string) :
  forall ks : list Z,
    (forall c k, digit_of base c = Some k -> run_tail base false s ks ->
                 digit_run base (String c s) (k :: ks)) /\
    (run_tail base true s ks -> digit_run base s ks).
Proof.
  induction s as [| c' s IH]; intros ks.
  - split.
    + intros c k Hk Ht. inversion Ht; subst. now constructor.
    + intros Ht. inversion Ht.
  - split.
    + intros c k Hk Ht. inversion Ht; subst.
      * apply run_next; [exact Hk |]. now apply (proj1 (IH _)).
      * apply run_underscore; [exact Hk |]. now apply (proj2 (IH _)).
    + intros Ht. inversion Ht; subst. now apply (proj1 (IH _)).
Qed.

Lemma tail_of_run (body : string) (ks : list Z) :
  digit_run base body ks ->
  exists c k s ks',
    body = String c s /\ ks = k :: ks' /\ digit_of base c = Some k /\
    run_tail base false s ks'.
Proof.
  induction 1 as [c k Hk | c k s ks Hk Hr IH | c k s ks Hk Hr IH].
  - exists c, k, "", []. repeat split; [exact Hk | constructor].
  - destruct IH as (c2 & k2 & s2 & ks2 & -> & -> & Hk2 & Ht).
    exists c, k, (String c2 s2), (k2 :: ks2).
    repeat split; [exact Hk | now constructor].
  - destruct IH as (c2 & k2 & s2 & ks2 & -> & -> & Hk2 & Ht).
    exists c, k, (String "_" (String c2 s2)), (k2 :: ks2).
    repeat split; [exact Hk |]. apply tail_underscore. now apply tail_digit.
Qed.

(** *** Blanks, sign and prefix *)

Lemma skip_spaces_split (s : string) :
  exists ws, s = ws ++ skip_spaces s /\ all_chars is_blank ws = true.
Proof.
  induction s as [| c s (ws & Hs & Hws)]; [now exists "" |].
  cbn [skip_spaces]. destruct (is_c_space c) eqn:Hc.
  - exists (String c ws). cbn [append all_chars].
    rewrite <- Hs, <- is_blank_c_space, Hc, Hws. now split.
  - now exists "".
Qed.

Lemma skip_spaces_blank (ws s : string) :
  all_chars is_blank ws = true -> skip_spaces (ws ++ s) = skip_spaces s.
Proof.
  induction ws as [| c ws IH]; [reflexivity |].
  cbn [all_chars append skip_spaces]. rewrite andb_true_iff.
  intros [Hc Hws]. rewrite is_blank_c_space, Hc. now apply IH.
Qed.

Lemma skip_spaces_all_blank (s : string) :
  is_empty (skip_spaces s) = true <-> all_chars is_blank s = true.
Proof.
  induction s as [| c s IH]; [now split |].
  cbn [skip_spaces all_chars]. rewrite <- is_blank_c_space.
  destruct (is_c_space c); [exact IH | now split].
Qed.

Lemma read_sign_split (s : string) :
  exists sign,
    In sign [""; "+"; "-"] /\ s = sign ++ snd (read_sign s) /\
    fst (read_sign s) = String.eqb sign "-".
Proof.
  destruct s as [| c s]; [exists ""; cbn; tauto |].
  cbn [read_sign]. destruct (Ascii.eqb c "+") eqn:Hp.
  { apply Ascii.eqb_eq in Hp. subst c. exists "+". cbn. tauto. }
  destruct (Ascii.eqb c "-") eqn:Hm.
  { apply Ascii.eqb_eq in Hm. subst c. exists "-". cbn. tauto. }
  exists "". cbn. tauto.
Qed.

Lemma skip_prefix_split (s : string) :
  exists pre, In pre ("" :: base_prefixes base) /\ s = pre ++ skip_prefix base s.
Proof.
  destruct s as [| z [| p rest]]; try (exists ""; cbn; tauto).
  unfold skip_prefix.
  destruct (Ascii.eqb z "0" &&
            ((base =? 16)%Z && (Ascii.eqb p "x" || Ascii.eqb p "X")
             || (base =? 2)%Z && (Ascii.eqb p "b" || Ascii.eqb p "B")))
    eqn:Hc; [| exists ""; cbn; tauto].
  apply andb_true_iff in Hc. destruct Hc as [Hz Hc].
  apply Ascii.eqb_eq in Hz. subst z.
  assert (Hp : exists q, In q (base_prefixes base) /\
                         In (q ++ "_") (base_prefixes base) /\
                         q = String "0" (String p "")).
  { unfold base_prefixes.
    destruct Hbase as [-> | [-> | ->]]; cbn in Hc |- *;
      rewrite ?orb_false_r in Hc; try discriminate;
      apply orb_true_iff in Hc; destruct Hc as [Hc | Hc];
      apply Ascii.eqb_eq in Hc; subst p; eexists; cbn; eauto 10. }
  destruct Hp as (q & Hq & Hqu & ->).
  destruct rest as [| u rest']; [exists (String "0" (String p "")) |].
  - split; [now right | reflexivity].
  - destruct (Ascii.eqb u underscore) eqn:Hu.
    + apply Ascii.eqb_eq in Hu. subst u.
      exists (String "0" (String p "_")). split; [now right | reflexivity].
    + exists (String "0" (String p "")). split; [now right | reflexivity].
Qed.

Lemma skip_spaces_digit_first (s : string) :
  digit_first s -> skip_spaces s = s.
Proof.
  intros (c & k & t & -> & Hk). cbn [skip_spaces].
  pose proof (digit_of_16 c) as H. rewrite Hk in H.
  rewrite !andb_true_iff, !negb_true_iff in H.
  destruct H as (((((((((_ & _) & _) & _) & Hsp) & _) & _) & _) & _) & _).
  now rewrite Hsp.
Qed.

Lemma read_sign_digit_first (s : string) :
  digit_first s -> read_sign s = (false, s).
Proof.
  intros (c & k & t & -> & Hk). cbn [read_sign].
  pose proof (digit_of_16 c) as H. rewrite Hk in H.
  rewrite !andb_true_iff, !negb_true_iff in H.
  destruct H as (((((((((_ & _) & _) & _) & _) & Hp) & Hm) & _) & _) & _).
  now rewrite Hp, Hm.
Qed.

Lemma read_sign_signed (sign s : string) :
  In sign [""; "+"; "-"] -> digit_first s ->
  read_sign (skip_spaces (sign ++ s)) = (String.eqb sign "-", s).
Proof.
  intros Hsign Hs. cbn in Hsign.
  destruct Hsign as [<- | [<- | [<- | []]]]; cbn [append].
  - rewrite skip_spaces_digit_first by exact Hs.
    now apply read_sign_digit_first.
  - reflexivity.
  - reflexivity.
Qed.

Lemma digit_first_run (body rest : string) (ks : list Z) :
  digit_run base body ks -> digit_first (body ++ rest).
Proof.
  intros Hr. destruct (tail_of_run _ _ Hr) as (c & k & s & ks' & -> & _ & Hk & _).
  exists c, k, (s ++ rest). split; [reflexivity | now apply digit_of_mono].
Qed.

Lemma digit_first_prefixed (pre body rest : string) (ks : list Z) :
  In pre ("" :: base_prefixes base) -> digit_run base body ks ->
  digit_first (pre ++ body ++ rest).
Proof.
  intros [<- | Hpre] Hr; [exact (digit_first_run _ _ ks Hr) |].
  unfold base_prefixes in Hpre.
  destruct Hbase as [-> | [-> | ->]]; cbn in Hpre;
    repeat (destruct Hpre as [<- | Hpre];
            [eexists "0"%char, 0%Z, _; split; reflexivity |]);
    contradiction.
Qed.

Lemma stops_blank (ws : string) :
  all_chars is_blank ws = true -> stops base ws.
Proof.
  destruct ws as [| c ws]; [easy |]. cbn [all_chars stops].
  rewrite andb_true_iff. intros [Hc _].
  pose proof (blank_plain c) as Hp. rewrite Hc in Hp. cbn [implb] in Hp.
  rewrite !andb_true_iff, !negb_true_iff in Hp.
  destruct Hp as (((((Hus & Hd) & _) & _) & _) & _).
  split; [| exact Hus].
  pose proof (digit_of_value c) as Hv.
  destruct (digit_of base c) as [k |]; [| reflexivity].
  destruct Hv as [Hlt _]. apply Z.ltb_lt in Hlt. apply Z.ltb_ge in Hd.
  destruct Hbase as [-> | [-> | ->]]; lia.
Qed.

(** The second character of a text that begins with a run of digits is no
    letter of a prefix of the base. *)
Lemma second_no_prefix_letter (s ws : string) (ks : list Z) (p : ascii)
  (t : string) :
  run_tail base false s ks -> all_chars is_blank ws = true ->
  s ++ ws = String p t ->
  ((base =? 16)%Z && (Ascii.eqb p "x" || Ascii.eqb p "X")
   || (base =? 2)%Z && (Ascii.eqb p "b" || Ascii.eqb p "B")) = false.
Proof.
  intros Ht Hws Hs.
  assert (Hp : (Ascii.eqb p "x" || Ascii.eqb p "X" = false) /\
               (base = 2%Z -> Ascii.eqb p "b" || Ascii.eqb p "B" = false)).
  { inversion Ht as [Hs0 | prev c k s' ks' Hk Ht' Hs0 | s' ks' Ht' Hs0];
      subst; cbn [append] in Hs.
    - destruct ws as [| c ws]; [discriminate |]. injection Hs as -> _.
      cbn [all_chars] in Hws. apply andb_true_iff in Hws.
      destruct Hws as [Hc _].
      pose proof (blank_plain p) as Hb. rewrite Hc in Hb. cbn [implb] in Hb.
      rewrite !andb_true_iff, !negb_true_iff in Hb.
      destruct Hb as (((((_ & _) & Hx1) & Hx2) & Hb1) & Hb2).
      now rewrite Hx1, Hx2, Hb1, Hb2.
    - injection Hs as -> _.
      destruct (digit_plain p k Hk) as (_ & _ & _ & _ & _ & Hx1 & Hx2).
      rewrite Hx1, Hx2. split; [reflexivity |]. intros ->.
      pose proof (digit_of_2 p) as H2. rewrite Hk in H2.
      rewrite !andb_true_iff, !negb_true_iff in H2.
      destruct H2 as ((_ & Hb1) & Hb2). now rewrite Hb1, Hb2.
    - injection Hs as <- _. now split. }
  destruct Hp as [Hx Hb].
  destruct Hbase as [-> | [-> | ->]].
  - rewrite Hb by reflexivity. reflexivity.
  - reflexivity.
  - rewrite Hx. reflexivity.
Qed.

Lemma skip_prefix_complete (pre body ws : string) (ks : list Z) :
  In pre ("" :: base_prefixes base) -> digit_run base body ks ->
  all_chars is_blank ws = true ->
  skip_prefix base (pre ++ body ++ ws) = body ++ ws.
Proof.
  intros Hpre Hr Hws.
  destruct (tail_of_run _ _ Hr) as (c & k & s & ks' & -> & _ & Hk & Ht).
  destruct (digit_plain c k Hk) as (Hus & _).
  destruct Hpre as [<- | Hpre].
  - cbn [append]. destruct (s ++ ws) as [| p t] eqn:Hs; [reflexivity |].
    unfold skip_prefix.
    rewrite (second_no_prefix_letter s ws ks' p t Ht Hws Hs).
    now rewrite andb_false_r.
  - unfold base_prefixes in Hpre.
    destruct Hbase as [-> | [-> | ->]]; cbn in Hpre;
      repeat (destruct Hpre as [<- | Hpre];
              [cbn [append]; unfold skip_prefix;
               cbn [Ascii.eqb Bool.eqb andb orb Z.eqb];
               rewrite ?Hus; reflexivity |]);
      contradiction.
Qed.

(** *** The literals [int] reads *)

Lemma int_digits_complete (negative : bool) (body ws : string)
  (ks : list Z) :
  digit_run base body ks -> all_chars is_blank ws = true ->
  (base = 10%Z -> List.length ks <= 4300) ->
  int_digits base negative (body ++ ws) =
  Some (if negative then (- positional base ks)%Z else positional base ks).
Proof.
  intros Hr Hws Hlim.
  destruct (tail_of_run _ _ Hr) as (c & k & s & ks' & -> & -> & Hk & Ht).
  destruct (digit_plain c k Hk) as (_ & Hus & _).
  unfold int_digits. cbn [append startswith]. rewrite Hus. cbn [andb].
  change (String c (s ++ ws)) with (String c s ++ ws).
  rewrite (scan_digits_complete false (String c s) (k :: ks'))
    by (try apply tail_digit; try apply stops_blank; assumption).
  cbn [Nat.add List.length Nat.eqb].
  assert (Hl : (base =? 10)%Z && (int_max_str_digits <? S (List.length ks'))
               = false).
  { destruct (Z.eqb_spec base 10) as [Hb | Hb]; [| reflexivity].
    specialize (Hlim Hb). cbn [List.length] in Hlim.
    apply Nat.ltb_ge in Hlim. unfold int_max_str_digits. now rewrite Hlim. }
  rewrite Hl. rewrite (proj2 (skip_spaces_all_blank ws) Hws). reflexivity.
Qed.

Lemma int_literal_reads (s : string) (v : Z) :
  int_literal base s v <-> PyInt.int s base = Some v.
Proof.
  split.
  - intros (ws1 & sign & pre & body & ws2 & ks & -> & Hw1 & Hw2 & Hsign &
            Hpre & Hr & Hlim & ->).
    unfold PyInt.int. rewrite skip_spaces_blank by exact Hw1.
    rewrite read_sign_signed
      by (try exact Hsign; now apply (digit_first_prefixed _ _ _ ks)).
    rewrite (skip_prefix_complete pre body ws2 ks) by assumption.
    now apply int_digits_complete.
  - unfold PyInt.int.
    destruct (skip_spaces_split s) as (ws1 & Hs & Hw1).
    destruct (read_sign_split (skip_spaces s)) as (sign & Hsign & Hr2 & Hneg).
    destruct (read_sign (skip_spaces s)) as [negative s2].
    cbn [fst snd] in Hr2, Hneg.
    destruct (skip_prefix_split s2) as (pre & Hpre & Hs2).
    unfold int_digits.
    destruct (startswith "_" (skip_prefix base s2)) eqn:Hus; [discriminate |].
    destruct (scan_digits base false 0 0 (skip_prefix base s2))
      as [[[v0 n] rest] |] eqn:Hscan; [| discriminate].
    destruct (Nat.eqb_spec n 0) as [Hn | Hn]; [discriminate |].
    destruct ((base =? 10)%Z && (int_max_str_digits <? n)) eqn:Hlim;
      [discriminate |].
    destruct (is_empty (skip_spaces rest)) eqn:Hrest; [| discriminate].
    intros [= <-].
    destruct (scan_digits_sound _ _ _ _ _ _ _ Hscan)
      as (body & ks & Hbody & Ht & -> & ->).
    cbn [Nat.add] in Hn, Hlim.
    assert (Hrun : digit_run base body ks).
    { inversion Ht as [Hb0 | prev c k s' ks' Hk Ht' Hb0 | s' ks' Ht' Hb0];
        subst.
      - now contradiction Hn.
      - now apply (proj1 (run_of_tail s' ks')).
      - rewrite Hbody in Hus. discriminate Hus. }
    exists ws1, sign, pre, body, rest, ks.
    split; [now rewrite Hs at 1; rewrite Hr2 at 1; rewrite Hs2 at 1;
            rewrite Hbody at 1 |].
    split; [exact Hw1 |].
    split; [now apply skip_spaces_all_blank |].
    split; [exact Hsign |]. split; [exact Hpre |]. split; [exact Hrun |].
    split.
    + intros ->. cbn [Z.eqb Pos.eqb andb] in Hlim.
      apply Nat.ltb_ge in Hlim. exact Hlim.
    + rewrite Hneg. reflexivity.
Qed.

End Literals.

(** ** Immediate values *)

Section ImmediateValues.

Lemma string_app_empty (s : string) : s ++ "" = s.
Proof. induction s as [| c s IH]; [reflexivity | cbn; now rewrite IH]. Qed.

Lemma immediate_literal_denotes (core : string) (v : Z) :
  immediate_literal core = Some v <-> immediate_denotes core v.
Proof.
  unfold immediate_literal, immediate_denotes, lower.
  destruct core as [| c1 [| c2 rest]].
  - cbn [map_chars startswith]. symmetry. apply int_literal_reads. auto.
  - cbn [map_chars startswith]. rewrite !andb_false_r.
    symmetry. apply int_literal_reads. auto.
  - cbn [map_chars startswith drop].
    rewrite lower_char_zero, lower_char_x, lower_char_b, !andb_true_r.
    destruct (Ascii.eqb c1 "0" && (Ascii.eqb c2 "x" || Ascii.eqb c2 "X"));
      [symmetry; apply int_literal_reads; auto |].
    destruct (Ascii.eqb c1 "0" && (Ascii.eqb c2 "b" || Ascii.eqb c2 "B"));
      symmetry; apply int_literal_reads; auto.
Qed.

(** *** Trimming *)







(** *** The range check *)

Lemma out_of_range_error_cases (v : Z) :
  ((Z.abs v < 10 ^ 4300)%Z /\ out_of_range_error v = ImmediateOutOfRange v) \/
  ((10 ^ 4300 <= Z.abs v)%Z /\ out_of_range_error v = IntStrDigitsExceeded).
Proof.
  unfold out_of_range_error, str_raises.
  change (Z.of_nat int_max_str_digits) with 4300%Z.
  destruct (Z.leb_spec (10 ^ 4300) (Z.abs v)); [right | left]; now split.
Qed.








Lemma print_limit_big : (255 < 10 ^ 4300)%Z.
Proof.
  apply Z.lt_le_trans with (10 ^ 3)%Z; [reflexivity |].
  apply Z.pow_le_mono_r; lia.
Qed.


Lemma hex_run_denotes (p body : string) (ks : list Z) :
  In p ["0x"; "0X"] -> digit_run 16 body ks ->
  immediate_literal (p ++ body) = Some (positional 16 ks).
Proof.
  intros Hp Hr. apply immediate_literal_denotes.
  destruct (tail_of_run _ _ _ Hr) as (c & k & s & ks' & -> & -> & Hk & Ht).
  cbn in Hp. destruct Hp as [<- | [<- | []]];
    cbn [append immediate_denotes Ascii.eqb Bool.eqb andb orb];
    [exists "", "", "0x", (String c s), "", (k :: ks') |
     exists "", "", "0X", (String c s), "", (k :: ks')];
    cbn [append]; rewrite string_app_empty;
    repeat split; cbn; auto; discriminate.
Qed.




(** A literal beyond the printing limit: the digit 1 and [n] zeros in base
    16 is the number [16 ^ n]. *)
Lemma zeros_run (n : nat) :
  digit_run 16 (String "1" (zeros n)) (1%Z :: repeat 0%Z n).
Proof.
  assert (Hz : forall m, digit_run 16 (zeros (S m)) (repeat 0%Z (S m))).
  { induction m as [| m IH].
    - apply run_last. reflexivity.
    - apply (run_next 16 "0" 0 _ _ eq_refl IH). }
  destruct n as [| n]; [apply run_last; reflexivity |].
  apply (run_next 16 "1" 1 _ _ eq_refl (Hz n)).
Qed.

Lemma positional_zeros (n : nat) (acc : Z) :
  positional_from 16 acc (repeat 0%Z n) = (acc * 16 ^ Z.of_nat n)%Z.
Proof.
  unfold positional_from. revert acc. induction n as [| n IH]; intros acc.
  - cbn. lia.
  - cbn [repeat fold_left].
    rewrite IH, Nat2Z.inj_succ, Z.pow_succ_r by lia. lia.
Qed.

Lemma strip_one_zeros (n : nat) :
  strip (String "0" (String "x" (String "1" (zeros n)))) =
  String "0" (String "x" (String "1" (zeros n))).
Proof.
  assert (Hz : rstrip (zeros n) = zeros n).
  { induction n as [| n IH]; [reflexivity |].
    cbn [zeros rstrip]. rewrite IH. change (is_space "0") with false.
    now rewrite andb_false_r. }
  unfold strip. change (lstrip (String "0" ?s)) with (String "0" s).
  cbn [rstrip]. rewrite Hz.
  change (is_space "0") with false. change (is_space "x") with false.
  change (is_space "1") with false. now rewrite !andb_false_r.
Qed.

Example parse_immediate_beyond_limit (n : nat) :
  4300 <= n ->
  parse_immediate ("0x1" ++ zeros n) = Err IntStrDigitsExceeded.
Proof.
  intros Hn. rewrite parse_immediate_unfold. cbn [append].
  rewrite strip_one_zeros.
  change (String "0" (String "x" (String "1" (zeros n))))
    with ("0x" ++ String "1" (zeros n)).
  rewrite (hex_run_denotes "0x" _ _ (or_introl eq_refl) (zeros_run n)).
  change (positional 16 (1%Z :: repeat 0%Z n))
    with (positional_from 16 1 (repeat 0%Z n)).
  rewrite positional_zeros, Z.mul_1_l.
  assert (Hle : (10 ^ 4300 <= 16 ^ Z.of_nat n)%Z).
  { apply Z.le_trans with (10 ^ Z.of_nat n)%Z.
    - apply Z.pow_le_mono_r; lia.
    - apply Z.pow_le_mono_l. lia. }
  pose proof print_limit_big as Hbig.
  pose proof out_of_range_error_cases as Hcases.
  set (limit := (10 ^ 4300)%Z) in *. set (v := (16 ^ Z.of_nat n)%Z) in *.
  clearbody limit v.
  destruct (Z.ltb_spec 255 v); [| lia]. rewrite orb_true_r.
  destruct (Hcases v) as [[Hlt _] | [_ ->]]; [| reflexivity].
  rewrite Z.abs_eq in Hlt; lia.
Qed.

(** The binary branch hands the text after the prefix to [int], which then
    reads a sign or a second prefix; underscores between digits and a sign
    before a decimal literal are part of what [int] reads. *)
Example parse_immediate_int_forms :
  parse_immediate "0b0b11" = Ok 3%Z /\
  parse_immediate "0b+11" = Ok 3%Z /\
  parse_immediate "0b-1" = Err (ImmediateOutOfRange (-1)) /\
  parse_immediate "+7" = Ok 7%Z /\
  parse_immediate "2_5_5" = Ok 255%Z /\
  parse_immediate "0x_ff" = Ok 255%Z /\
  parse_immediate "0x-1" = Err (InvalidImmediate "0x-1") /\
  parse_immediate "1__0" = Err (InvalidImmediate "1__0").
Proof. vm_compute. repeat split; reflexivity. Qed.

End ImmediateValues.


(** ** The instruction encoder *)

Section Encoder.

Ltac by_key_cases m :=
  repeat match goal with
         | |- context [String.eqb m ?k] =>
             destruct (String.eqb_spec m k) as [-> | ?]; [reflexivity |]
         end.

(** [INSTR_TYPES[mnemonic]] is defined wherever [mnemonic in OPCODES]. *)
Lemma INSTR_TYPES_covers_OPCODES (m : string) :
  dict_mem m INSTR_TYPES = dict_mem m OPCODES.
Proof.
  unfold dict_mem, INSTR_TYPES, OPCODES. cbn [dict_get].
  by_key_cases m. reflexivity.
Qed.

Lemma OPCODES_range (m : string) (opcode : Z) :
  dict_get m OPCODES = Some opcode -> (0 <= opcode < 16)%Z.
Proof.
  unfold OPCODES. cbn [dict_get].
  repeat match goal with
         | |- context [String.eqb m ?k] =>
             destruct (String.eqb m k); [intros [= <-]; lia |]
         end.
  discriminate.
Qed.

Lemma parse_operands_surplus (m : string) (ty : instr_type) (p0 : string)
  (ops : list string) :
  operand_count ty <= List.length ops ->
  parse_operands m ty (p0 :: ops) =
  parse_operands m ty (p0 :: firstn (operand_count ty) ops).
Proof.
  destruct ty; cbn [operand_count]; intros Hlen;
    destruct ops as [| a [| b rest]]; cbn in Hlen; try lia; reflexivity.
Qed.

Lemma parse_operands_short (m : string) (ty : instr_type) (p0 : string)
  (ops : list string) :
  List.length ops < operand_count ty ->
  parse_operands m ty (p0 :: ops) = Err (RequiresOperands m ty).
Proof.
  destruct ty; cbn [operand_count]; intros Hlen;
    destruct ops as [| a [| b rest]]; cbn in Hlen; try lia; reflexivity.
Qed.

(** C7, as the specification states it, fails: tokens beyond those the
    format reads do not make the line fail. *)
Lemma surplus_operands_accepted :
  parse_line "NOP R0" 1 = Ok 0%Z /\
  parse_line "ADD R0, R1, R2" 1 = Ok 0x1100%Z /\
  parse_line "JMP 5 6 7" 1 = Ok 0xC005%Z.
Proof. vm_compute. repeat split; reflexivity. Qed.

(** C7, amended. For a mnemonic of the table with its instruction type,
    encoding reads exactly the operand tokens the type requires (0, 1 or 2).
    With fewer operand tokens the line fails with the syntax error that names
    the mnemonic and the required operand pattern.  With at least that many,
    the result is that of the line cut after the required operands: tokens
    beyond them are not looked at. *)
Theorem operand_count_checked (p0 : string) (ops : list string)
  (opcode : Z) (ty : instr_type) :
  dict_get (upper p0) OPCODES = Some opcode ->
  dict_get (upper p0) INSTR_TYPES = Some ty ->
  operand_count ty <= 2 /\
  (List.length ops < operand_count ty ->
   parse_parts (p0 :: ops) = Err (RequiresOperands (upper p0) ty) /\
   is_SyntaxError (RequiresOperands (upper p0) ty) = true /\
   message (RequiresOperands (upper p0) ty) = (upper p0 ++ requirement ty)%string) /\
  (operand_count ty <= List.length ops ->
   parse_parts (p0 :: ops) =
   parse_parts (p0 :: firstn (operand_count ty) ops)).
Proof.
  intros Hop Hty. split; [destruct ty; cbn; lia |].
  unfold parse_parts. rewrite Hop, Hty. split.
  - intros Hlen. rewrite parse_operands_short by exact Hlen.
    repeat split.
  - intros Hlen. now rewrite parse_operands_surplus by exact Hlen.
Qed.

Lemma operand_count_checked_witness :
  parse_parts ["ldi"; "R1"] = Err (RequiresOperands "LDI" T_reg_imm) /\
  parse_parts ["ldi"; "R1"; "3"; "4"] = parse_parts ["ldi"; "R1"; "3"].
Proof.
  split.
  - apply (proj1 (proj2 (operand_count_checked "ldi" ["R1"] 9%Z T_reg_imm
                           eq_refl eq_refl))).
    cbn. lia.
  - apply (proj2 (proj2 (operand_count_checked "ldi" ["R1"; "3"; "4"] 9%Z
                           T_reg_imm eq_refl eq_refl))).
    cbn. lia.
Defined.

End Encoder.

(** ** The image formatter *)

Section Formatter.

Local Open Scope Z_scope.

Lemma hex_loop_enough (k : nat) :
  forall (fuel : nat) (n : Z) (acc : string),
    0 <= n < 16 ^ Z.of_nat k -> (1 <= k)%nat -> (k <= fuel)%nat ->
    hex_loop fuel n acc = hex_loop k n acc.
Proof.
  induction k as [| k IH]; intros fuel n acc Hn Hk Hfuel; [lia |].
  destruct fuel as [| fuel]; [lia |].
  cbn [hex_loop].
  destruct (Z.eqb_spec (n / 16) 0) as [Hq | Hq]; [reflexivity |].
  assert (Hlt : 0 <= n / 16 < 16 ^ Z.of_nat k).
  { rewrite Nat2Z.inj_succ, Z.pow_succ_r in Hn by lia.
    split; [apply Z.div_pos; lia |].
    apply Z.div_lt_upper_bound; lia. }
  destruct k as [| k'].
  - change (16 ^ Z.of_nat 0) with 1 in Hlt. lia.
  - apply IH; [exact Hlt | lia | lia].
Qed.

Lemma log2_fuel_enough (n : Z) :
  0 <= n -> 0 <= n < 16 ^ Z.of_nat (S (Z.to_nat (Z.log2 n))).
Proof.
  intros Hn. split; [exact Hn |].
  rewrite Nat2Z.inj_succ, Z2Nat.id by apply Z.log2_nonneg.
  destruct (Z.eq_dec n 0) as [-> | Hnz].
  - reflexivity.
  - pose proof (Z.log2_spec n ltac:(lia)) as [_ Hup].
    eapply Z.lt_le_trans; [exact Hup |].
    apply Z.pow_le_mono_l. lia.
Qed.

Lemma hex_upper_code_word (w : Z) :
  is_code_word w -> hex_upper w = hex_loop 4 w EmptyString.
Proof.
  intros Hw. unfold is_code_word in Hw. unfold hex_upper.
  set (f := S (Z.to_nat (Z.log2 w))).
  destruct (Nat.le_gt_cases 4 f) as [Hle | Hgt].
  - apply hex_loop_enough; [change (16 ^ Z.of_nat 4) with 65536 | |]; lia.
  - symmetry. apply hex_loop_enough; [| lia | lia].
    apply log2_fuel_enough. lia.
Qed.

Lemma format_04X_hex4 (w : Z) : is_code_word w -> format_04X w = hex4 w.
Proof.
  intros Hw. unfold format_04X.
  destruct (Z.ltb_spec w 0) as [Hneg | _];
    [unfold is_code_word in Hw; lia |].
  rewrite (hex_upper_code_word w Hw). unfold is_code_word in Hw.
  unfold hex4. cbn [hex_loop].
  assert (H256 : w / 16 / 16 = w / 256)
    by (rewrite Z.div_div by lia; reflexivity).
  assert (H4096 : w / 16 / 16 / 16 = w / 4096)
    by (rewrite !Z.div_div by lia; reflexivity).
  rewrite H4096, H256.
  assert (Htop : (w / 4096) mod 16 = w / 4096)
    by (apply Z.mod_small; Z.div_mod_to_equations; lia).
  rewrite Htop.
  destruct (Z.eqb_spec (w / 16) 0) as [H1 | H1].
  { replace (w / 4096) with 0 by (Z.div_mod_to_equations; lia).
    replace (w / 256) with 0 by (Z.div_mod_to_equations; lia).
    rewrite H1. reflexivity. }
  destruct (Z.eqb_spec (w / 256) 0) as [H2 | H2].
  { replace (w / 4096) with 0 by (Z.div_mod_to_equations; lia).
    rewrite H2. reflexivity. }
  destruct (Z.eqb_spec (w / 4096) 0) as [H3 | H3].
  { rewrite H3. reflexivity. }
  destruct (Z.eqb_spec (w / 4096 / 16) 0) as [H4 | H4]; reflexivity.
Qed.

Lemma hex_digit_spec (d : Z) :
  0 <= d < 16 ->
  is_upper_hex (hex_digit d) = true /\ is_digit_of 16 (hex_digit d) = true /\
  digit_value (hex_digit d) = d.
Proof.
  intros Hd.
  assert (Hcases : d = 0 \/ d = 1 \/ d = 2 \/ d = 3 \/ d = 4 \/ d = 5 \/
                   d = 6 \/ d = 7 \/ d = 8 \/ d = 9 \/ d = 10 \/ d = 11 \/
                   d = 12 \/ d = 13 \/ d = 14 \/ d = 15) by lia.
  repeat (destruct Hcases as [-> | Hcases]; [repeat split |]).
  subst d. repeat split.
Qed.

Lemma hex4_digits (w : Z) :
  is_code_word w ->
  0 <= w / 4096 < 16 /\ 0 <= (w / 256) mod 16 < 16 /\
  0 <= (w / 16) mod 16 < 16 /\ 0 <= w mod 16 < 16.
Proof.
  unfold is_code_word. intros Hw. repeat split; Z.div_mod_to_equations; lia.
Qed.

Lemma int_hex_plain (c1 c2 : ascii) (s : string) :
  is_numeral 16 (String c1 (String c2 s)) = true ->
  PyInt.int (String c1 (String c2 s)) 16 =
  Some (numeral_value 16 (String c1 (String c2 s))).
Proof.
  intros Hnum. unfold PyInt.int.
  destruct (numeral_head 16 _ ltac:(lia) Hnum)
    as (c & s' & Heq & Hc & Hs & Hsign).
  rewrite Hsign.
  assert (Hpre : skip_prefix 16 (String c1 (String c2 s)) =
                 String c1 (String c2 s)).
  { injection Heq as <- <-. cbn [all_chars] in Hs.
    apply andb_true_iff in Hs. destruct Hs as [Hc2 _].
    pose proof (hex_digit_not_x c2) as Hx. rewrite Hc2 in Hx.
    cbn [implb] in Hx. rewrite andb_true_iff, !negb_true_iff in Hx.
    destruct Hx as [Hx1 Hx2].
    unfold skip_prefix. rewrite Hx1, Hx2.
    change (16 =? 16) with true. change (16 =? 2) with false.
    cbn [andb orb]. now rewrite andb_false_r. }
  rewrite Hpre, int_digits_numeral by (lia || assumption).
  reflexivity.
Qed.

Lemma format_04X_code_word (w : Z) :
  is_code_word w ->
  String.length (format_04X w) = 4%nat /\
  all_chars is_upper_hex (format_04X w) = true /\
  PyInt.int (format_04X w) 16 = Some w.
Proof.
  intros Hw. rewrite (format_04X_hex4 w Hw).
  destruct (hex4_digits w Hw) as (H3 & H2 & H1 & H0).
  destruct (hex_digit_spec _ H3) as (Hu3 & Hd3 & Hv3).
  destruct (hex_digit_spec _ H2) as (Hu2 & Hd2 & Hv2).
  destruct (hex_digit_spec _ H1) as (Hu1 & Hd1 & Hv1).
  destruct (hex_digit_spec _ H0) as (Hu0 & Hd0 & Hv0).
  split; [reflexivity |]. split.
  - unfold hex4. cbn [all_chars]. now rewrite Hu3, Hu2, Hu1, Hu0.
  - unfold hex4. rewrite int_hex_plain.
    + unfold numeral_value. cbn [digits_value].
      rewrite Hv3, Hv2, Hv1, Hv0. f_equal.
      unfold is_code_word in Hw. Z.div_mod_to_equations. lia.
    + unfold is_numeral. cbn [is_empty negb all_chars andb].
      now rewrite Hd3, Hd2, Hd1, Hd0.
Qed.

Local Close Scope Z_scope.

Lemma pad_loop_spec (fuel : nat) :
  forall lines : list string,
    8 - List.length lines <= fuel ->
    pad_loop fuel lines =
    (lines ++ repeat "0000" (8 - List.length lines))%list.
Proof.
  induction fuel as [| fuel IH]; intros lines Hfuel.
  - cbn [pad_loop]. replace (8 - List.length lines) with 0 by lia.
    cbn [repeat]. now rewrite app_nil_r.
  - cbn [pad_loop]. destruct (Nat.ltb_spec (List.length lines) 8) as [Hlt | Hge].
    + rewrite IH by (rewrite length_app; cbn [List.length]; lia).
      rewrite length_app. cbn [List.length].
      replace (8 - List.length lines) with (S (8 - (List.length lines + 1)))
        by lia.
      cbn [repeat]. now rewrite <- app_assoc.
    + replace (8 - List.length lines) with 0 by lia.
      cbn [repeat]. now rewrite app_nil_r.
Qed.

Lemma hex_lines_closed_form (program : list Z) :
  hex_lines program = image_lines program.
Proof.
  unfold hex_lines, image_lines.
  rewrite pad_loop_spec by lia. now rewrite length_map.
Qed.

Lemma upper_hex_not_LF (c : ascii) :
  implb (is_upper_hex c) (negb (Ascii.eqb c LF)) = true.
Proof. destruct c as [[] [] [] [] [] [] [] []]; vm_compute; reflexivity. Qed.

Lemma upper_hex_no_LF (s : string) :
  all_chars is_upper_hex s = true -> contains LF s = false.
Proof.
  induction s as [| c s IH]; [reflexivity |].
  cbn. intros H. apply andb_true_iff in H. destruct H as [Hc Hs].
  pose proof (upper_hex_not_LF c) as Hn. rewrite Hc in Hn. cbn in Hn.
  apply negb_true_iff in Hn. rewrite Hn. now apply IH.
Qed.

Lemma image_lines_hex (program : list Z) :
  Forall is_code_word program -> Forall hex_line (image_lines program).
Proof.
  intros Hall. unfold image_lines. apply Forall_app. split.
  - apply Forall_map. eapply Forall_impl; [| exact Hall].
    intros w Hw. destruct (format_04X_code_word w Hw) as (H1 & H2 & _).
    now split.
  - apply Forall_forall. intros l Hin. apply repeat_spec in Hin. subst.
    now split.
Qed.

Lemma image_lines_length (program : list Z) :
  List.length (image_lines program) = Nat.max 8 (List.length program).
Proof.
  unfold image_lines. rewrite length_app, length_map, repeat_length. lia.
Qed.

Lemma split_image (program : list Z) :
  Forall is_code_word program ->
  split_char LF (to_hex_file program) = image_lines program.
Proof.
  intros Hall. unfold to_hex_file. rewrite hex_lines_closed_form.
  apply split_char_join.
  - intros Hnil. pose proof (image_lines_length program) as Hl.
    rewrite Hnil in Hl. cbn [List.length] in Hl. lia.
  - eapply Forall_impl; [| apply image_lines_hex; exact Hall].
    intros l [_ Hl]. now apply upper_hex_no_LF.
Qed.

(** C8. For every list of code words, the memory image is the newline-joined
    list of: one line per word, in program order, of exactly four upper-case
    hexadecimal digits that read back as the word, followed by "0000" lines
    up to a total of max(8, program length) lines.  A three-instruction
    program gives eight lines, the last five of them "0000". *)
Theorem to_hex_file_spec (program : list Z) :
  Forall is_code_word program ->
  to_hex_file program = join newline (image_lines program) /\
  split_char LF (to_hex_file program) = image_lines program /\
  List.length (image_lines program) = Nat.max 8 (List.length program) /\
  Forall hex_line (image_lines program) /\
  (forall i w,
      nth_error program i = Some w ->
      nth_error (image_lines program) i = Some (format_04X w) /\
      PyInt.int (format_04X w) 16 = Some w) /\
  (forall i,
      List.length program <= i < 8 ->
      nth_error (image_lines program) i = Some "0000") /\
  (List.length program = 3 ->
   List.length (image_lines program) = 8 /\
   skipn 3 (image_lines program) = ["0000"; "0000"; "0000"; "0000"; "0000"]).
Proof.
  intros Hall.
  split. { unfold to_hex_file. now rewrite hex_lines_closed_form. }
  split. { now apply split_image. }
  split. { apply image_lines_length. }
  split. { now apply image_lines_hex. }
  split.
  { intros i w Hi. split.
    - unfold image_lines. rewrite nth_error_app1.
      + now rewrite nth_error_map, Hi.
      + rewrite length_map. apply nth_error_Some. now rewrite Hi.
    - apply format_04X_code_word.
      rewrite Forall_forall in Hall. apply Hall.
      eapply nth_error_In. exact Hi. }
  split.
  { intros i Hi. unfold image_lines.
    rewrite nth_error_app2 by (rewrite length_map; lia).
    rewrite length_map, nth_error_repeat by lia. reflexivity. }
  intros Hlen. split.
  - rewrite image_lines_length, Hlen. reflexivity.
  - unfold image_lines. rewrite Hlen.
    destruct program as [| a [| b [| c [| d rest]]]]; try discriminate Hlen.
    reflexivity.
Qed.

Lemma to_hex_file_spec_witness :
  Forall is_code_word [0x9005; 0x9403; 0xE000]%Z /\
  split_char LF (to_hex_file [0x9005; 0x9403; 0xE000]%Z) =
    ["9005"; "9403"; "E000"; "0000"; "0000"; "0000"; "0000"; "0000"] /\
  skipn 3 (image_lines [0x9005; 0x9403; 0xE000]%Z) =
    ["0000"; "0000"; "0000"; "0000"; "0000"].
Proof.
  assert (Hcw : Forall is_code_word [0x9005; 0x9403; 0xE000]%Z).
  { repeat constructor; unfold is_code_word; lia. }
  split; [exact Hcw |].
  pose proof (to_hex_file_spec _ Hcw) as (_ & Hsplit & _ & _ & _ & _ & Hthree).
  split.
  - rewrite Hsplit. reflexivity.
  - apply Hthree. reflexivity.
Defined.

End Formatter.

(** ** Code words of an assembled program *)

Section ProgramWords.

Lemma parse_register_range (s : string) (n : Z) :
  parse_register s = Ok n -> (0 <= n < 4)%Z.
Proof.
  rewrite parse_register_lookup. unfold REGISTERS. cbn [dict_get].
  repeat (destruct (String.eqb (bare_register s) _);
          [intros [= <-]; lia |]).
  discriminate.
Qed.

Lemma parse_immediate_range (s : string) (v : Z) :
  parse_immediate s = Ok v -> (0 <= v < 256)%Z.
Proof.
  rewrite parse_immediate_unfold.
  destruct (immediate_literal (strip s)) as [value |]; [| discriminate].
  destruct (Z.ltb_spec value 0); [discriminate |].
  destruct (Z.ltb_spec 255 value); [discriminate |].
  intros [= <-]. lia.
Qed.

Lemma bind_ok {A B : Type} (r : result A) (k : A -> result B) (b : B) :
  bind r k = Ok b -> exists a, r = Ok a /\ k a = Ok b.
Proof.
  destruct r as [a | e]; [| discriminate]. intros H. now exists a.
Qed.

Lemma parse_operands_range (m : string) (ty : instr_type)
  (parts : list string) (rd rs imm : Z) :
  parse_operands m ty parts = Ok (rd, rs, imm) ->
  (0 <= rd < 4 /\ 0 <= rs < 4 /\ 0 <= imm < 256)%Z.
Proof.
  destruct ty; cbn [parse_operands].
  - intros [= <- <- <-]. lia.
  - destruct (List.length parts <? 2); [discriminate |].
    intros H. apply bind_ok in H. destruct H as (a & Ha & [= <- <- <-]).
    apply parse_register_range in Ha. lia.
  - destruct (List.length parts <? 3); [discriminate |].
    intros H. apply bind_ok in H. destruct H as (a & Ha & H).
    apply bind_ok in H. destruct H as (b & Hb & [= <- <- <-]).
    apply parse_register_range in Ha, Hb. lia.
  - destruct (List.length parts <? 3); [discriminate |].
    intros H. apply bind_ok in H. destruct H as (a & Ha & H).
    apply bind_ok in H. destruct H as (b & Hb & [= <- <- <-]).
    apply parse_register_range in Ha. apply parse_immediate_range in Hb. lia.
  - destruct (List.length parts <? 3); [discriminate |].
    intros H. apply bind_ok in H. destruct H as (a & Ha & H).
    apply bind_ok in H. destruct H as (b & Hb & [= <- <- <-]).
    apply parse_register_range in Ha, Hb. lia.
  - destruct (List.length parts <? 2); [discriminate |].
    intros H. apply bind_ok in H. destruct H as (a & Ha & [= <- <- <-]).
    apply parse_immediate_range in Ha. lia.
Qed.

Lemma parse_parts_code_word (parts : list string) (w : Z) :
  parse_parts parts = Ok w -> is_code_word w.
Proof.
  unfold parse_parts. destruct parts as [| p0 ops]; [discriminate |].
  destruct (dict_get (upper p0) OPCODES) as [opcode |] eqn:Hop;
    [| discriminate].
  destruct (dict_get (upper p0) INSTR_TYPES) as [ty |]; [| discriminate].
  intros H. apply bind_ok in H. destruct H as ([[rd rs] imm] & Hops & [= <-]).
  apply parse_operands_range in Hops. apply OPCODES_range in Hop.
  rewrite encode_sum by (unfold valid_fields; lia).
  unfold is_code_word. lia.
Qed.

Lemma program_of_code_words (lines : list string) :
  forall start : nat,
    Forall is_code_word (flat_map word_of (numbered_from start lines)).
Proof.
  unfold numbered_from.
  induction lines as [| line rest IH]; intros start; [constructor |].
  cbn [List.length seq combine flat_map]. apply Forall_app. split; [| apply IH].
  unfold word_of, line_result. cbn [fst snd].
  destruct (is_empty (clean_line line)); [constructor |].
  destruct (parse_line (clean_line line) start) as [w | e] eqn:Hp;
    [| constructor].
  constructor; [| constructor].
  unfold parse_line in Hp. now apply parse_parts_code_word in Hp.
Qed.

Lemma assemble_program_code_words (text : string) :
  Forall is_code_word (program (assemble text)).
Proof.
  destruct (assemble_spec text) as (-> & _). apply program_of_code_words.
Qed.

Lemma blank_or_comment_clean (line : string) :
  is_blank_or_comment line = true -> is_empty (clean_line line) = true.
Proof.
  unfold is_blank_or_comment, clean_line.
  destruct (strip line) as [| c t]; [reflexivity |].
  cbn [is_empty orb startswith contains].
  rewrite andb_true_r. rewrite (Ascii.eqb_sym c).
  intros H. rewrite H. cbn [orb before_char].
  apply Ascii.eqb_eq in H. subst c. reflexivity.
Qed.

Lemma assemble_loop_blank (lines : list string) :
  forallb is_blank_or_comment lines = true ->
  forall (i : nat) (program : list Z) (errors : list string),
    assemble_loop i lines program errors = (program, errors).
Proof.
  induction lines as [| line rest IH]; intros Hall i prog errs;
    [reflexivity |].
  cbn [forallb] in Hall. apply andb_true_iff in Hall.
  destruct Hall as [Hline Hrest].
  cbn [assemble_loop]. rewrite (blank_or_comment_clean line Hline).
  now apply IH.
Qed.

End ProgramWords.

(** ** The request path *)

Section Requests.

Variable json : Type.
Variable empty_list : json.
Variable IVERILOG VVP : option string.
Variable compile_step : string -> proc_result.
Variable execute_step : string -> proc_result.
Variable json_loads : string -> json_outcome json.

Lemma success_iff (text : string) :
  success (assemble text) = true <-> errors (assemble text) = [].
Proof.
  destruct (assemble_spec text) as (_ & _ & ->).
  destruct (errors (assemble text)); cbn; split; congruence.
Qed.

(** C9. [assemble] reports success exactly when its list of errors is empty,
    whatever the program holds.  A source of comments and blank lines only
    assembles with success and an empty program, and [simulate] answers it
    with the error "No instructions in program" and status 400 without
    reaching the compile or the run step. *)
Theorem empty_program_rejected :
  (forall text : string,
      success (assemble text) = true <-> errors (assemble text) = []) /\
  (forall text : string,
      only_comments text = true ->
      assemble text = {| success := true; program := []; errors := [] |} /\
      simulate empty_list IVERILOG VVP compile_step execute_step json_loads
               (Some text) =
        (failure empty_list 400 "No instructions in program", [])).
Proof.
  split; [exact success_iff |].
  intros text Hc.
  assert (Ha : assemble text =
               {| success := true; program := []; errors := [] |}).
  { unfold assemble, only_comments in *.
    now rewrite assemble_loop_blank. }
  split; [exact Ha |].
  unfold simulate. rewrite Ha. reflexivity.
Qed.

(** C10. In every successful response of [simulate], [programHex] is the
    memory image split on newlines: one entry of four hexadecimal digits per
    entry of [program], in order, followed by "0000" entries up to a length
    of max(8, number of instructions).  For fewer than eight instructions
    the entries from the program length on are "0000" and have no
    counterpart in [program]. *)
Theorem programHex_is_padded_image (data : option string)
  (resp : response json) (events : list tool_event) :
  simulate empty_list IVERILOG VVP compile_step execute_step json_loads data =
    (resp, events) ->
  r_success resp = true ->
  exists (text : string) (prog : list Z),
    data = Some text /\
    prog = program (assemble text) /\
    r_program resp = Some prog /\
    r_programHex resp = Some (split_char LF (to_hex_file prog)) /\
    split_char LF (to_hex_file prog) = image_lines prog /\
    List.length (image_lines prog) = Nat.max 8 (List.length prog) /\
    (forall i w, nth_error prog i = Some w ->
                 nth_error (image_lines prog) i = Some (format_04X w)) /\
    (forall i, List.length prog <= i < 8 ->
               nth_error (image_lines prog) i = Some "0000" /\
               nth_error prog i = None).
Proof.
  unfold simulate.
  destruct data as [text |]; [| intros [= <- _]; discriminate].
  destruct (negb (success (assemble text))); [intros [= <- _]; discriminate |].
  destruct (List.length (program (assemble text)) =? 0);
    [intros [= <- _]; discriminate |].
  destruct (run_simulation _ _ _ _ _ _ _) as [[sim | e] evs];
    [| intros [= <- _]; cbn; discriminate].
  destruct (sim_success sim) eqn:Hs; cbn [negb].
  2:{ intros [= <- _]. cbn. discriminate. }
  intros [= <- _] _. cbn.
  exists text, (program (assemble text)).
  pose proof (assemble_program_code_words text) as Hcw.
  repeat split.
  - now apply split_image.
  - apply image_lines_length.
  - intros i w Hi. unfold image_lines. rewrite nth_error_app1.
    + now rewrite nth_error_map, Hi.
    + rewrite length_map. apply nth_error_Some. now rewrite Hi.
  - unfold image_lines.
    rewrite nth_error_app2 by (rewrite length_map; lia).
    rewrite length_map, nth_error_repeat by lia. reflexivity.
  - apply nth_error_None. lia.
Qed.

End Requests.

(** A run of the request path with tools that succeed: the simulator prints
    an empty trace between the brackets. *)
Section RequestRuns.

Lemma empty_program_rejected_witness :
  only_comments ("; only a comment" ++ newline ++ "   ") = true /\
  assemble ("; only a comment" ++ newline ++ "   ") =
    {| success := true; program := []; errors := [] |} /\
  simulate tt (Some "iverilog") (Some "vvp") tools_ok prints_trace loads
           (Some ("; only a comment" ++ newline ++ "   ")) =
    (failure tt 400 "No instructions in program", []).
Proof.
  split; [reflexivity |].
  apply (proj2 (empty_program_rejected unit tt (Some "iverilog") (Some "vvp")
                  tools_ok prints_trace loads)).
  reflexivity.
Defined.

Lemma programHex_is_padded_image_witness :
  exists (text : string) (prog : list Z),
    Some scenario_1 = Some text /\
    prog = program (assemble text) /\
    Some (program (assemble scenario_1)) = Some prog /\
    Some (split_char LF (to_hex_file (program (assemble scenario_1)))) =
      Some (split_char LF (to_hex_file prog)) /\
    split_char LF (to_hex_file prog) = image_lines prog /\
    List.length (image_lines prog) = Nat.max 8 (List.length prog) /\
    (forall i w, nth_error prog i = Some w ->
                 nth_error (image_lines prog) i = Some (format_04X w)) /\
    (forall i, List.length prog <= i < 8 ->
               nth_error (image_lines prog) i = Some "0000" /\
               nth_error prog i = None).
Proof.
  apply (programHex_is_padded_image unit tt (Some "iverilog") (Some "vvp")
           tools_ok prints_trace loads (Some scenario_1)
           {| status := 200; r_success := true; r_trace := tt;
              r_program := Some (program (assemble scenario_1));
              r_programHex :=
                Some (split_char LF
                        (to_hex_file (program (assemble scenario_1))));
              r_error := None |}
           [Compile (to_hex_file (program (assemble scenario_1))); Execute]).
  - vm_compute. reflexivity.
  - reflexivity.
Defined.

Example simulate_scenario_1 :
  simulate tt (Some "iverilog") (Some "vvp") tools_ok prints_trace loads
           (Some scenario_1) =
  ({| status := 200; r_success := true; r_trace := tt;
      r_program := Some [0x9005; 0x9403; 0x1100; 0xE000]%Z;
      r_programHex :=
        Some ["9005"; "9403"; "1100"; "E000"; "0000"; "0000"; "0000"; "0000"];
      r_error := None |},
   [Compile ("9005" ++ newline ++ "9403" ++ newline ++ "1100" ++ newline ++
             "E000" ++ newline ++ "0000" ++ newline ++ "0000" ++ newline ++
             "0000" ++ newline ++ "0000"); Execute]).
Proof. vm_compute. reflexivity. Qed.

End RequestRuns.

(** * Further properties of the assembler *)

(** ** Errors and code words of [parse_line] *)

Section LineEncoding.

Lemma parse_register_error (s : string) (e : asm_error) :
  parse_register s = Err e -> e = InvalidRegister s.
Proof.
  rewrite parse_register_lookup.
  destruct (dict_get (bare_register s) REGISTERS); [discriminate |].
  now intros [= <-].
Qed.

Lemma parse_immediate_error (s : string) (e : asm_error) :
  parse_immediate s = Err e ->
  e = InvalidImmediate (strip s) \/
  exists v, e = out_of_range_error v /\ ~ (0 <= v <= 255)%Z.
Proof.
  rewrite parse_immediate_unfold.
  destruct (immediate_literal (strip s)) as [value |].
  - destruct (Z.ltb_spec value 0); cbn [orb].
    + intros [= <-]. right. exists value. split; [reflexivity | lia].
    + destruct (Z.ltb_spec 255 value); [| discriminate].
      intros [= <-]. right. exists value. split; [reflexivity | lia].
  - intros [= <-]. now left.
Qed.

Lemma out_of_range_error_kind (v : Z) :
  is_operand_failure (out_of_range_error v) = true.
Proof. unfold out_of_range_error. destruct (str_raises v); reflexivity. Qed.

Lemma bind_err {A B : Type} (r : result A) (k : A -> result B)
  (e : asm_error) :
  bind r k = Err e -> r = Err e \/ exists a, r = Ok a /\ k a = Err e.
Proof.
  destruct r as [a | e']; cbn.
  - intros H. right. now exists a.
  - intros [= <-]. now left.
Qed.

(** An error of the operand stage is the operand-count error of the type, or
    an operand failure raised once the count is sufficient. *)
Lemma parse_operands_error (m : string) (ty : instr_type) (p0 : string)
  (ops : list string) (e : asm_error) :
  parse_operands m ty (p0 :: ops) = Err e ->
  (e = RequiresOperands m ty /\ List.length ops < operand_count ty) \/
  (is_operand_failure e = true /\ operand_count ty <= List.length ops).
Proof.
  assert (Hreg : forall s, parse_register s = Err e ->
                           is_operand_failure e = true).
  { intros s H. apply parse_register_error in H. now subst. }
  assert (Himm : forall s, parse_immediate s = Err e ->
                           is_operand_failure e = true).
  { intros s H. apply parse_immediate_error in H.
    destruct H as [-> | (v & -> & _)];
      [reflexivity | apply out_of_range_error_kind]. }
  destruct ty; cbn [parse_operands operand_count List.length].
  - discriminate.
  - destruct ops as [| a rest]; cbn [List.length Nat.ltb Nat.leb].
    + intros [= <-]. left. split; [reflexivity | lia].
    + intros H. right. split; [| lia].
      apply bind_err in H. destruct H as [H | (x & _ & H)];
        [eauto | discriminate].
  - destruct ops as [| a [| b rest]]; cbn [List.length Nat.ltb Nat.leb];
      try (intros [= <-]; left; split; [reflexivity | lia]).
    intros H. right. split; [| lia].
    apply bind_err in H. destruct H as [H | (x & _ & H)]; [eauto |].
    apply bind_err in H. destruct H as [H | (y & _ & H)];
      [eauto | discriminate].
  - destruct ops as [| a [| b rest]]; cbn [List.length Nat.ltb Nat.leb];
      try (intros [= <-]; left; split; [reflexivity | lia]).
    intros H. right. split; [| lia].
    apply bind_err in H. destruct H as [H | (x & _ & H)]; [eauto |].
    apply bind_err in H. destruct H as [H | (y & _ & H)];
      [eauto | discriminate].
  - destruct ops as [| a [| b rest]]; cbn [List.length Nat.ltb Nat.leb];
      try (intros [= <-]; left; split; [reflexivity | lia]).
    intros H. right. split; [| lia].
    apply bind_err in H. destruct H as [H | (x & _ & H)]; [eauto |].
    apply bind_err in H. destruct H as [H | (y & _ & H)];
      [eauto | discriminate].
  - destruct ops as [| a rest]; cbn [List.length Nat.ltb Nat.leb].
    + intros [= <-]. left. split; [reflexivity | lia].
    + intros H. right. split; [| lia].
      apply bind_err in H. destruct H as [H | (x & _ & H)];
        [eauto | discriminate].
Qed.

Lemma instr_type_defined (m : string) (opcode : Z) :
  dict_get m OPCODES = Some opcode ->
  exists ty, dict_get m INSTR_TYPES = Some ty.
Proof.
  intros Hop. pose proof (INSTR_TYPES_covers_OPCODES m) as H.
  unfold dict_mem in H. rewrite Hop in H.
  destruct (dict_get m INSTR_TYPES) as [ty |]; [now exists ty | discriminate].
Qed.

Lemma opcode_defined (m : string) (ty : instr_type) :
  dict_get m INSTR_TYPES = Some ty ->
  exists opcode, dict_get m OPCODES = Some opcode.
Proof.
  intros Hty. pose proof (INSTR_TYPES_covers_OPCODES m) as H.
  unfold dict_mem in H. rewrite Hty in H.
  destruct (dict_get m OPCODES) as [o |]; [now exists o | discriminate].
Qed.

(** The error of a line with a first token, by what fails. *)
Lemma parse_parts_error (p0 : string) (ops : list string) (e : asm_error) :
  parse_parts (p0 :: ops) = Err e ->
  (e = UnknownInstruction (upper p0) /\ dict_get (upper p0) OPCODES = None) \/
  (exists ty,
      dict_get (upper p0) INSTR_TYPES = Some ty /\
      ((e = RequiresOperands (upper p0) ty /\
        List.length ops < operand_count ty) \/
       (is_operand_failure e = true /\ operand_count ty <= List.length ops))).
Proof.
  unfold parse_parts.
  destruct (dict_get (upper p0) OPCODES) as [opcode |] eqn:Hop.
  2:{ intros [= <-]. now left. }
  destruct (instr_type_defined _ _ Hop) as (ty & Hty). rewrite Hty.
  intros H. right. exists ty. split; [reflexivity |].
  apply bind_err in H.
  destruct H as [H | ([[rd rs] imm] & _ & H)]; [| discriminate].
  now apply parse_operands_error in H.
Qed.

(** X1. The errors of [parse_line], each with the exact condition under
    which it is raised.  "Empty instruction": the line has no token.
    "Unknown instruction: M": M is the first token in upper case and is no
    key of [OPCODES].  The operand-count error of mnemonic M and type T: M
    is the first token in upper case, T is its type, and the line has fewer
    operand tokens than T reads.  Every other error is raised for an
    operand (invalid register, invalid immediate, immediate out of range, or
    the interpreter's digit-limit error while that last message is
    formatted), and only when the mnemonic is known and the operand tokens
    suffice.  The final [else] of the source ("Unknown instruction type")
    is never reached. *)
Theorem parse_parts_error_cases :
  (forall parts, parse_parts parts = Err EmptyInstruction <-> parts = []) /\
  (forall p0 ops m,
      parse_parts (p0 :: ops) = Err (UnknownInstruction m) <->
      m = upper p0 /\ dict_get m OPCODES = None) /\
  (forall p0 ops m ty,
      parse_parts (p0 :: ops) = Err (RequiresOperands m ty) <->
      m = upper p0 /\ dict_get m INSTR_TYPES = Some ty /\
      List.length ops < operand_count ty) /\
  (forall parts m, parse_parts parts <> Err (UnknownInstructionType m)) /\
  (forall p0 ops e,
      parse_parts (p0 :: ops) = Err e ->
      (is_operand_failure e = true <->
       exists ty, dict_get (upper p0) INSTR_TYPES = Some ty /\
                  operand_count ty <= List.length ops)).
Proof.
  split; [| split; [| split; [| split]]].
  - intros parts. split; [| now intros ->].
    destruct parts as [| p0 ops]; [reflexivity |].
    intros H. apply parse_parts_error in H.
    destruct H as [(H & _) | (ty & _ & [(H & _) | (H & _)])]; discriminate.
  - intros p0 ops m. split.
    + intros H. apply parse_parts_error in H.
      destruct H as [([= ->] & Hn) | (ty & _ & [(H & _) | (H & _)])];
        [now split | discriminate | discriminate].
    + intros (-> & Hn). unfold parse_parts. now rewrite Hn.
  - intros p0 ops m ty. split.
    + intros H. apply parse_parts_error in H.
      destruct H as [(H & _) | (ty' & Hty & [([= -> ->] & Hl) | (H & _)])];
        [discriminate | now repeat split | discriminate].
    + intros (-> & Hty & Hlen).
      destruct (opcode_defined _ _ Hty) as (opcode & Hop).
      unfold parse_parts. rewrite Hop, Hty.
      now rewrite parse_operands_short.
  - intros parts m H. destruct parts as [| p0 ops]; [discriminate |].
    apply parse_parts_error in H.
    destruct H as [(H & _) | (ty & _ & [(H & _) | (H & _)])]; discriminate.
  - intros p0 ops e H. apply parse_parts_error in H.
    destruct H as [(-> & Hn) | (ty & Hty & [(-> & Hl) | (Hk & Hl)])].
    + split; [discriminate |]. intros (ty & Hty & _).
      destruct (opcode_defined _ _ Hty) as (o & Ho). congruence.
    + split; [discriminate |]. intros (ty' & Hty' & Hl').
      rewrite Hty in Hty'. injection Hty' as <-. lia.
    + split; [| intros _; exact Hk]. intros _. now exists ty.
Qed.

Lemma parse_parts_error_cases_witness :
  ("FOO"%string = upper "foo" /\ dict_get "FOO" OPCODES = None) /\
  parse_parts ["add"; "R0"] = Err (RequiresOperands "ADD" T_reg_reg) /\
  (exists ty, dict_get (upper "ldi") INSTR_TYPES = Some ty /\
              operand_count ty <= List.length ["R9"; "1"]).
Proof.
  destruct parse_parts_error_cases as (_ & Hunk & Hreq & _ & Hop).
  split.
  - apply (Hunk "foo" ["R0"] "FOO"). reflexivity.
  - split.
    + apply (Hreq "add" ["R0"] "ADD" T_reg_reg). repeat split. cbn. lia.
    + apply (Hop "ldi" ["R9"; "1"] (InvalidRegister "R9")); reflexivity.
Defined.

End LineEncoding.

(** ** The opcode table and the fields of an assembled word *)

Section AssembledWords.

Local Open Scope Z_scope.

Ltac key_cases m :=
  repeat match goal with
         | |- context [String.eqb m ?k] =>
             destruct (String.eqb_spec m k) as [-> | ?]
         end.

(** X2. [OPCODES] is a bijection between its sixteen mnemonics and the
    4-bit values: every opcode is in 0..15, two mnemonics with the same
    opcode are the same, and every value in 0..15 is the opcode of a
    mnemonic. *)
Theorem OPCODES_bijective :
  (forall m v, dict_get m OPCODES = Some v -> 0 <= v < 16) /\
  (forall m1 m2 v,
      dict_get m1 OPCODES = Some v -> dict_get m2 OPCODES = Some v ->
      m1 = m2) /\
  (forall v, 0 <= v < 16 -> exists m, dict_get m OPCODES = Some v).
Proof.
  split; [exact OPCODES_range |]. split.
  - intros m1 m2 v. unfold OPCODES. cbn [dict_get].
    key_cases m1; try discriminate; intros [= <-];
      key_cases m2; try discriminate; reflexivity.
  - intros v Hv.
    assert (Hc : v = 0 \/ v = 1 \/ v = 2 \/ v = 3 \/ v = 4 \/ v = 5 \/
                 v = 6 \/ v = 7 \/ v = 8 \/ v = 9 \/ v = 10 \/ v = 11 \/
                 v = 12 \/ v = 13 \/ v = 14 \/ v = 15) by lia.
    repeat (destruct Hc as [-> | Hc];
            [eexists; match goal with
                      | |- dict_get _ _ = Some ?n =>
                          first [ exact (eq_refl : dict_get "NOP" OPCODES = Some n)
                                | exact (eq_refl : dict_get "ADD" OPCODES = Some n)
                                | exact (eq_refl : dict_get "SUB" OPCODES = Some n)
                                | exact (eq_refl : dict_get "AND" OPCODES = Some n)
                                | exact (eq_refl : dict_get "OR" OPCODES = Some n)
                                | exact (eq_refl : dict_get "XOR" OPCODES = Some n)
                                | exact (eq_refl : dict_get "NOT" OPCODES = Some n)
                                | exact (eq_refl : dict_get "SHL" OPCODES = Some n)
                                | exact (eq_refl : dict_get "SHR" OPCODES = Some n)
                                | exact (eq_refl : dict_get "LDI" OPCODES = Some n)
                                | exact (eq_refl : dict_get "LD" OPCODES = Some n)
                                | exact (eq_refl : dict_get "ST" OPCODES = Some n)
                                | exact (eq_refl : dict_get "JMP" OPCODES = Some n)
                                | exact (eq_refl : dict_get "JZ" OPCODES = Some n)
                                | exact (eq_refl : dict_get "HLT" OPCODES = Some n) ]
                      end |]).
    subst v. now exists "MOV"%string.
Qed.

Lemma OPCODES_bijective_witness :
  (0 <= 9 < 16) /\ "LDI"%string = "LDI"%string /\
  exists m, dict_get m OPCODES = Some 14.
Proof.
  destruct OPCODES_bijective as (Hr & Hi & Hs).
  split; [exact (Hr "LDI"%string 9 eq_refl) |].
  split; [exact (Hi "LDI"%string "LDI"%string 9 eq_refl eq_refl) |].
  apply Hs. lia.
Defined.

Lemma decode_encode (opcode rd rs imm : Z) :
  valid_fields opcode rd rs imm ->
  decode (encode opcode rd rs imm) = (opcode, rd, rs, imm).
Proof.
  intros Hv. rewrite decode_sum, (encode_sum _ _ _ _ Hv).
  destruct Hv as (Ho & Hd & Hs & Hi).
  repeat f_equal; Z.div_mod_to_equations; lia.
Qed.

Lemma parse_parts_ok (parts : list string) (w : Z) :
  parse_parts parts = Ok w ->
  exists p0 ops opcode ty rd rs imm,
    parts = p0 :: ops /\
    dict_get (upper p0) OPCODES = Some opcode /\
    dict_get (upper p0) INSTR_TYPES = Some ty /\
    parse_operands (upper p0) ty parts = Ok (rd, rs, imm) /\
    w = encode opcode rd rs imm /\
    valid_fields opcode rd rs imm.
Proof.
  unfold parse_parts. destruct parts as [| p0 ops]; [discriminate |].
  destruct (dict_get (upper p0) OPCODES) as [opcode |] eqn:Hop;
    [| discriminate].
  destruct (dict_get (upper p0) INSTR_TYPES) as [ty |] eqn:Hty;
    [| discriminate].
  intros H. apply bind_ok in H. destruct H as ([[rd rs] imm] & Hops & [= <-]).
  exists p0, ops, opcode, ty, rd, rs, imm.
  pose proof (parse_operands_range _ _ _ _ _ _ Hops) as Hr.
  pose proof (OPCODES_range _ _ Hop) as Ho.
  repeat split; try assumption; lia.
Qed.

(** X3. A word that [parse_line] returns is a 16-bit value that decodes to
    what was parsed: its top four bits are the opcode [OPCODES] gives the
    upper-cased first token, and its rd, rs and immediate fields are the
    operands read from the line. *)
Theorem parse_line_decodes (line : string) (line_num : nat) (w : Z) :
  parse_line line line_num = Ok w ->
  is_code_word w /\
  exists p0 ops ty rd rs imm,
    tokens line = p0 :: ops /\
    dict_get (upper p0) OPCODES = Some (field_opcode w) /\
    dict_get (upper p0) INSTR_TYPES = Some ty /\
    parse_operands (upper p0) ty (p0 :: ops) = Ok (rd, rs, imm) /\
    field_rd w = rd /\ field_rs w = rs /\ field_imm w = imm.
Proof.
  unfold parse_line. intros H.
  split; [now apply parse_parts_code_word in H |].
  apply parse_parts_ok in H.
  destruct H as (p0 & ops & opcode & ty & rd & rs & imm &
                 Hp & Hop & Hty & Hops & -> & Hv).
  pose proof (decode_encode _ _ _ _ Hv) as Hd. unfold decode in Hd.
  injection Hd as H1 H2 H3 H4.
  exists p0, ops, ty, rd, rs, imm. rewrite H1, H2, H3, H4, <- Hp.
  repeat split; assumption.
Qed.

Lemma parse_line_decodes_witness :
  is_code_word 0x9403 /\
  exists p0 ops ty rd rs imm,
    tokens "ldi r1, 3" = p0 :: ops /\
    dict_get (upper p0) OPCODES = Some (field_opcode 0x9403) /\
    dict_get (upper p0) INSTR_TYPES = Some ty /\
    parse_operands (upper p0) ty (p0 :: ops) = Ok (rd, rs, imm) /\
    field_rd 0x9403 = rd /\ field_rs 0x9403 = rs /\ field_imm 0x9403 = imm.
Proof.
  apply (parse_line_decodes "ldi r1, 3" 1 0x9403). reflexivity.
Defined.

Lemma parse_operands_unused (m : string) (ty : instr_type)
  (parts : list string) (rd rs imm : Z) :
  parse_operands m ty parts = Ok (rd, rs, imm) ->
  (uses_rd ty = false -> rd = 0) /\
  (uses_rs ty = false -> rs = 0) /\
  (uses_imm ty = false -> imm = 0).
Proof.
  destruct ty; cbn [parse_operands uses_rd uses_rs uses_imm].
  - intros [= <- <- <-]. repeat split.
  - destruct (List.length parts <? 2)%nat; [discriminate |].
    intros H. apply bind_ok in H. destruct H as (a & _ & [= <- <- <-]).
    repeat split; discriminate.
  - destruct (List.length parts <? 3)%nat; [discriminate |].
    intros H. apply bind_ok in H. destruct H as (a & _ & H).
    apply bind_ok in H. destruct H as (b & _ & [= <- <- <-]).
    repeat split; discriminate.
  - destruct (List.length parts <? 3)%nat; [discriminate |].
    intros H. apply bind_ok in H. destruct H as (a & _ & H).
    apply bind_ok in H. destruct H as (b & _ & [= <- <- <-]).
    repeat split; discriminate.
  - destruct (List.length parts <? 3)%nat; [discriminate |].
    intros H. apply bind_ok in H. destruct H as (a & _ & H).
    apply bind_ok in H. destruct H as (b & _ & [= <- <- <-]).
    repeat split; discriminate.
  - destruct (List.length parts <? 2)%nat; [discriminate |].
    intros H. apply bind_ok in H. destruct H as (a & _ & [= <- <- <-]).
    repeat split; discriminate.
Qed.

(** X4. The fields an instruction type does not fill are 0 in the word: a
    type without register operand leaves rd 0, only the two-register types
    set rs, and only the types with an immediate set the low byte.  So a
    mnemonic of type "none" assembles to its opcode shifted by 12 whatever
    follows it on the line. *)
Theorem unused_fields_zero (p0 : string) (ops : list string)
  (ty : instr_type) (w : Z) :
  parse_parts (p0 :: ops) = Ok w ->
  dict_get (upper p0) INSTR_TYPES = Some ty ->
  (uses_rd ty = false -> field_rd w = 0) /\
  (uses_rs ty = false -> field_rs w = 0) /\
  (uses_imm ty = false -> field_imm w = 0) /\
  (ty = T_none -> w = field_opcode w * 4096).
Proof.
  intros H Hty. apply parse_parts_ok in H.
  destruct H as (p0' & ops' & opcode & ty' & rd & rs & imm &
                 [= <- <-] & Hop & Hty' & Hops & -> & Hv).
  rewrite Hty in Hty'. injection Hty' as <-.
  pose proof (decode_encode _ _ _ _ Hv) as Hd. unfold decode in Hd.
  injection Hd as H1 H2 H3 H4. rewrite H1, H2, H3, H4.
  destruct (parse_operands_unused _ _ _ _ _ _ Hops) as (Hrd & Hrs & Himm).
  repeat split; try assumption.
  intros ->. rewrite (encode_sum _ _ _ _ Hv).
  rewrite Hrd, Hrs, Himm by reflexivity. lia.
Qed.

Lemma unused_fields_zero_witness :
  field_rd 0xE000 = 0 /\ field_rs 0xE000 = 0 /\ field_imm 0xE000 = 0 /\
  0xE000 = field_opcode 0xE000 * 4096.
Proof.
  destruct (unused_fields_zero "hlt" ["R1"; "R2"; "7"] T_none 0xE000
              eq_refl eq_refl) as (H1 & H2 & H3 & H4).
  split; [apply H1; reflexivity |].
  split; [apply H2; reflexivity |].
  split; [apply H3; reflexivity | apply H4; reflexivity].
Defined.

End AssembledWords.

(** ** Tokens, separators and comments *)

Section LineText.

Lemma is_empty_append_char (s : string) (a : ascii) :
  is_empty (s ++ String a EmptyString) = false.
Proof. destruct s; reflexivity. Qed.

Lemma split_ws_from_nil (s : string) :
  forall cur : string,
    split_ws_from cur s = [] <->
    is_empty cur = true /\ all_chars is_space s = true.
Proof.
  induction s as [| a s IH]; intros cur; cbn [split_ws_from all_chars].
  - destruct (is_empty cur); intuition congruence.
  - destruct (is_space a); cbn [andb].
    + destruct (is_empty cur) eqn:Hc.
      * rewrite IH. cbn [is_empty]. intuition congruence.
      * split; [discriminate | intros [H _]; discriminate].
    + rewrite IH, is_empty_append_char.
      split; intros [H1 H2]; discriminate.
Qed.

Lemma replace_comma_spaces (s : string) :
  all_chars is_space (replace_char "," " " s) = all_chars is_separator s.
Proof.
  induction s as [| a s IH]; [reflexivity |].
  unfold replace_char in *. cbn [map_chars all_chars]. rewrite IH.
  f_equal. unfold is_separator. destruct (Ascii.eqb a ","); reflexivity.
Qed.

Lemma tokens_nil (line : string) :
  tokens line = [] <-> all_chars is_separator line = true.
Proof.
  unfold tokens, split_ws. rewrite split_ws_from_nil, replace_comma_spaces.
  cbn [is_empty]. intuition congruence.
Qed.

(** X5. [parse_line] raises "Empty instruction" exactly on a line made of
    commas and blanks only, and such a line that is not blank makes
    [assemble] record that error: a line "," is an error, not a skipped
    line. *)
Theorem empty_instruction_iff (line : string) (line_num : nat) :
  (parse_line line line_num = Err EmptyInstruction <->
   all_chars is_separator line = true) /\
  (line_result line_num line = Some (Err EmptyInstruction) <->
   is_empty (clean_line line) = false /\
   all_chars is_separator (clean_line line) = true).
Proof.
  assert (Hp : forall l n, parse_line l n = Err EmptyInstruction <->
                           all_chars is_separator l = true).
  { intros l n. rewrite <- tokens_nil. unfold parse_line, parse_parts.
    destruct (tokens l) as [| p0 ops]; [intuition congruence |].
    split; [| discriminate].
    destruct (dict_get (upper p0) OPCODES); [| discriminate].
    destruct (dict_get (upper p0) INSTR_TYPES) as [ty |]; [| discriminate].
    intros H. apply bind_err in H.
    destruct H as [H | ([[rd rs] imm] & _ & H)]; [| discriminate].
    apply parse_operands_error in H.
    destruct H as [(H & _) | (H & _)]; discriminate. }
  split; [apply Hp |].
  unfold line_result. destruct (is_empty (clean_line line)).
  - split; [discriminate | intros [H _]; discriminate].
  - rewrite <- (Hp (clean_line line) line_num).
    split; [intros [= ->]; now split | intros [_ ->]; reflexivity].
Qed.

Example comma_line_is_an_error :
  assemble (" , ," ++ newline ++ "HLT") =
  {| success := false; program := [0xE000%Z];
     errors := ["Line 1: Empty instruction"] |}.
Proof. vm_compute. reflexivity. Qed.

Lemma remove_char_app (c : ascii) (s t : string) :
  remove_char c (s ++ t) = remove_char c s ++ remove_char c t.
Proof.
  induction s as [| a s IH]; [reflexivity |].
  cbn. destruct (Ascii.eqb a c); [exact IH | cbn; now rewrite IH].
Qed.

Lemma remove_char_absent (c : ascii) (s : string) :
  contains c s = false -> remove_char c s = s.
Proof.
  induction s as [| a s IH]; [reflexivity |].
  cbn. destruct (Ascii.eqb a c); [discriminate |].
  cbn. intros H. now rewrite IH.
Qed.

Lemma contains_remove_other (c d : ascii) (s : string) :
  contains c (remove_char d s) = false -> Ascii.eqb c d = false ->
  contains c s = false.
Proof.
  intros H Hcd. induction s as [| a s IH]; [reflexivity |].
  cbn in H |- *. destruct (Ascii.eqb_spec a d) as [-> | Had].
  - rewrite Ascii.eqb_sym, Hcd. cbn. now apply IH.
  - cbn in H. destruct (Ascii.eqb a c); [discriminate |]. cbn in *.
    now apply IH.
Qed.

Lemma remove_char_remove (c : ascii) (s : string) :
  contains c (remove_char c s) = false.
Proof.
  induction s as [| a s IH]; [reflexivity |].
  cbn. destruct (Ascii.eqb a c) eqn:E; [exact IH |].
  cbn. now rewrite E.
Qed.

Lemma contains_remove_keeps (c d : ascii) (s : string) :
  contains c s = false -> contains c (remove_char d s) = false.
Proof.
  induction s as [| a s IH]; [reflexivity |].
  cbn. destruct (Ascii.eqb a c) eqn:E; [discriminate |]. cbn. intros H.
  destruct (Ascii.eqb a d); [now apply IH |].
  cbn. rewrite E. now apply IH.
Qed.

Lemma strip_brackets_idempotent (s : string) :
  strip_brackets (strip_brackets s) = strip_brackets s.
Proof.
  unfold strip_brackets.
  rewrite (remove_char_absent "[" (remove_char "]" (remove_char "[" s))).
  - apply remove_char_absent, remove_char_remove.
  - apply contains_remove_keeps, remove_char_remove.
Qed.

Lemma append_nil_r (s : string) : (s ++ "")%string = s.
Proof. induction s as [| a s IH]; [reflexivity | cbn; now rewrite IH]. Qed.

Lemma strip_brackets_bracketed (s : string) :
  strip_brackets ("[" ++ s ++ "]") = strip_brackets s.
Proof.
  unfold strip_brackets.
  change ("[" ++ s ++ "]")%string with (String "[" (s ++ "]"))%string.
  change (remove_char "[" (String "[" (s ++ "]")))
    with (remove_char "[" (s ++ "]")).
  rewrite !remove_char_app.
  change (remove_char "]" (remove_char "[" "]")) with EmptyString.
  apply append_nil_r.
Qed.

End LineText.

Section Comments.

Lemma lstrip_app_nonspace (a b : string) (c : ascii) :
  is_space c = false -> lstrip (a ++ String c b) = (lstrip a ++ String c b)%string.
Proof.
  intros Hc. induction a as [| x a IH]; cbn.
  - now rewrite Hc.
  - destruct (is_space x); [exact IH | reflexivity].
Qed.

Lemma is_empty_app_r (x y : string) :
  is_empty y = false -> is_empty (x ++ y) = false.
Proof. destruct x; [trivial | reflexivity]. Qed.

Lemma rstrip_app (x t : string) :
  is_empty (rstrip t) = false -> rstrip (x ++ t) = (x ++ rstrip t)%string.
Proof.
  intros Ht. induction x as [| a x IH]; [reflexivity |].
  cbn [append rstrip]. rewrite IH, (is_empty_app_r _ _ Ht). reflexivity.
Qed.

Lemma rstrip_nonspace_head (c : ascii) (b : string) :
  is_space c = false -> rstrip (String c b) = String c (rstrip b).
Proof. intros Hc. cbn. now rewrite Hc, andb_false_r. Qed.

Lemma lstrip_idempotent (s : string) : lstrip (lstrip s) = lstrip s.
Proof.
  induction s as [| a s IH]; [reflexivity |].
  cbn. destruct (is_space a) eqn:E; [exact IH |]. cbn. now rewrite E.
Qed.

Lemma contains_lstrip (c : ascii) (s : string) :
  contains c s = false -> contains c (lstrip s) = false.
Proof.
  induction s as [| a s IH]; [reflexivity |].
  cbn. destruct (Ascii.eqb a c) eqn:E; [discriminate |]. cbn. intros H.
  destruct (is_space a); [now apply IH |]. cbn. now rewrite E.
Qed.

Lemma contains_rstrip (c : ascii) (s : string) :
  contains c s = false -> contains c (rstrip s) = false.
Proof.
  induction s as [| a s IH]; [reflexivity |].
  cbn. destruct (Ascii.eqb a c) eqn:E; [discriminate |]. cbn. intros H.
  destruct (is_empty (rstrip s) && is_space a); [reflexivity |].
  cbn. rewrite E. now apply IH.
Qed.

Lemma contains_app_char (c : ascii) (x y : string) :
  contains c (x ++ String c y) = true.
Proof.
  induction x as [| a x IH]; cbn.
  - now rewrite Ascii.eqb_refl.
  - rewrite IH. apply orb_true_r.
Qed.

Lemma before_char_app (c : ascii) (x y : string) :
  contains c x = false -> before_char c (x ++ String c y) = x.
Proof.
  induction x as [| a x IH]; cbn.
  - now rewrite Ascii.eqb_refl.
  - destruct (Ascii.eqb a c); [discriminate |]. cbn. intros H.
    now rewrite IH.
Qed.

Lemma clean_line_no_comment (a : string) :
  contains ";" a = false -> clean_line a = strip a.
Proof.
  intros H. unfold clean_line, strip.
  now rewrite (contains_rstrip _ _ (contains_lstrip _ _ H)).
Qed.

(** X6. A comment does not change what a line assembles to: for a text [a]
    without ";", the line [a ; b] is cleaned to the same text as the line
    [a] alone, whatever [b] holds, and contributes the same word, the same
    error or nothing. *)
Theorem comment_ignored (a b : string) (line_num : nat) :
  contains ";" a = false ->
  clean_line (a ++ String ";" b) = strip a /\
  clean_line (a ++ String ";" b) = clean_line a /\
  line_result line_num (a ++ String ";" b) = line_result line_num a.
Proof.
  intros Ha.
  assert (Hc : clean_line (a ++ String ";" b) = strip a).
  { unfold clean_line.
    assert (Hs : strip (a ++ String ";" b) =
                 (lstrip a ++ String ";" (rstrip b))%string).
    { unfold strip. rewrite lstrip_app_nonspace by reflexivity.
      rewrite rstrip_app; rewrite rstrip_nonspace_head by reflexivity;
        reflexivity. }
    rewrite Hs, contains_app_char.
    rewrite before_char_app by now apply contains_lstrip.
    unfold strip. now rewrite lstrip_idempotent. }
  split; [exact Hc |].
  rewrite (clean_line_no_comment a Ha).
  split; [exact Hc |].
  unfold line_result. now rewrite Hc, (clean_line_no_comment a Ha).
Qed.

Lemma comment_ignored_witness :
  clean_line ("  ADD R0, R1  " ++ String ";" " R0 = R0 + R1 ; twice") =
    strip "  ADD R0, R1  " /\
  line_result 3 ("  ADD R0, R1  " ++ String ";" " R0 = R0 + R1 ; twice") =
    line_result 3 "  ADD R0, R1  ".
Proof.
  destruct (comment_ignored "  ADD R0, R1  " " R0 = R0 + R1 ; twice" 3 eq_refl)
    as (H1 & _ & H3).
  exact (conj H1 H3).
Defined.

(** X7. For a mnemonic of the register-address type (LD, ST), the third
    token has its brackets removed before it is parsed: the line gives the
    same outcome with the token or with its bracket-free form, so
    "Rd, [Rs]" and "Rd, Rs" assemble alike; and when the first operand is
    a register and the second is not, the error cites the bracket-free
    form of the token, not the token as written. *)
Theorem address_operand_brackets (p0 d tok : string) (rest : list string) :
  dict_get (upper p0) INSTR_TYPES = Some T_reg_regaddr ->
  parse_parts (p0 :: d :: tok :: rest) =
    parse_parts (p0 :: d :: strip_brackets tok :: rest) /\
  parse_parts (p0 :: d :: ("[" ++ tok ++ "]")%string :: rest) =
    parse_parts (p0 :: d :: tok :: rest) /\
  (forall n e,
      parse_register d = Ok n ->
      parse_register (strip_brackets tok) = Err e ->
      parse_parts (p0 :: d :: tok :: rest) =
        Err (InvalidRegister (strip_brackets tok))).
Proof.
  intros Hty.
  assert (Hmem : dict_mem (upper p0) OPCODES = true).
  { rewrite <- INSTR_TYPES_covers_OPCODES. unfold dict_mem. now rewrite Hty. }
  unfold dict_mem in Hmem.
  assert (Hgen : forall t,
             parse_parts (p0 :: d :: t :: rest) =
             match dict_get (upper p0) OPCODES with
             | Some opcode =>
                 '(rd, rs, imm) <-
                   (rd <- parse_register d ;;
                    rs <- parse_register (strip_brackets t) ;;
                    Ok (rd, rs, 0%Z)) ;;
                 Ok (encode opcode rd rs imm)
             | None => Err (UnknownInstruction (upper p0))
             end).
  { intros t. unfold parse_parts. rewrite Hty.
    destruct (dict_get (upper p0) OPCODES); reflexivity. }
  split; [| split].
  - now rewrite !Hgen, strip_brackets_idempotent.
  - now rewrite !Hgen, strip_brackets_bracketed.
  - intros n e Hd He. rewrite Hgen.
    destruct (dict_get (upper p0) OPCODES) as [opcode |]; [| discriminate].
    rewrite Hd. cbn [bind].
    rewrite (parse_register_error _ _ He) in He. now rewrite He.
Qed.

Lemma address_operand_brackets_witness :
  parse_parts ["LD"; "R0"; "[R1]"] = parse_parts ["LD"; "R0"; "R1"] /\
  parse_parts ["st"; "R2"; "[R9]"] = Err (InvalidRegister "R9").
Proof.
  split.
  - exact (proj1 (proj2 (address_operand_brackets "LD" "R0" "R1" []
                           eq_refl))).
  - exact (proj2 (proj2 (address_operand_brackets "st" "R2" "[R9]" []
                           eq_refl))
             2%Z (InvalidRegister "R9") eq_refl eq_refl).
Defined.

End Comments.

(** ** Whole programs *)

Section WholePrograms.

Lemma contributions_count (lines : list string) :
  forall start : nat,
    List.length (flat_map word_of (numbered_from start lines)) +
    List.length (flat_map error_of (numbered_from start lines)) =
    List.length (instruction_lines lines).
Proof.
  unfold numbered_from, instruction_lines.
  induction lines as [| line rest IH]; intros start; [reflexivity |].
  cbn [List.length seq combine flat_map filter].
  rewrite !length_app. specialize (IH (S start)).
  unfold word_of at 1, error_of at 1, line_result. cbn [fst snd].
  destruct (is_empty (clean_line line)); cbn [negb List.length].
  - exact IH.
  - destruct (parse_line (clean_line line) start); cbn [List.length]; lia.
Qed.

(** X8. Every line that is neither blank nor comment-only yields exactly one
    outcome: the number of code words plus the number of errors of
    [assemble] is the number of such lines, so it is at most the number of
    physical lines of the text. *)
Theorem assemble_one_outcome_per_line (text : string) :
  List.length (program (assemble text)) + List.length (errors (assemble text)) =
    List.length (instruction_lines (split_char LF text)) /\
  List.length (program (assemble text)) + List.length (errors (assemble text)) <=
    List.length (split_char LF text).
Proof.
  destruct (assemble_spec text) as (-> & -> & _).
  unfold program_of, errors_of. rewrite contributions_count.
  split; [reflexivity |]. unfold instruction_lines. apply filter_length_le.
Qed.

Lemma split_char_nonempty (c : ascii) (s : string) : split_char c s <> [].
Proof.
  destruct s as [| a s]; cbn; [discriminate |].
  destruct (Ascii.eqb a c); [discriminate |].
  destruct (split_char c s); discriminate.
Qed.

Lemma split_char_app (c : ascii) (s t : string) :
  split_char c (s ++ String c t) = (split_char c s ++ split_char c t)%list.
Proof.
  induction s as [| a s IH].
  - cbn. now rewrite Ascii.eqb_refl.
  - cbn [append split_char]. rewrite IH.
    destruct (Ascii.eqb a c); [reflexivity |].
    pose proof (split_char_nonempty c s) as Hne.
    destruct (split_char c s) as [| h tl]; [contradiction | reflexivity].
Qed.

Lemma word_of_start (lines : list string) :
  forall s s' : nat,
    flat_map word_of (numbered_from s lines) =
    flat_map word_of (numbered_from s' lines).
Proof.
  unfold numbered_from.
  induction lines as [| line rest IH]; intros s s'; [reflexivity |].
  cbn [List.length seq combine flat_map]. rewrite (IH (S s) (S s')).
  reflexivity.
Qed.

Lemma error_count_start (lines : list string) :
  forall s s' : nat,
    List.length (flat_map error_of (numbered_from s lines)) =
    List.length (flat_map error_of (numbered_from s' lines)).
Proof.
  unfold numbered_from.
  induction lines as [| line rest IH]; intros s s'; [reflexivity |].
  cbn [List.length seq combine flat_map]. rewrite !length_app.
  rewrite (IH (S s) (S s')). f_equal.
  unfold error_of, line_result. cbn [fst snd].
  destruct (is_empty (clean_line line)); [reflexivity |].
  change (parse_line (clean_line line) s')
    with (parse_line (clean_line line) s).
  destruct (parse_line (clean_line line) s); reflexivity.
Qed.

(** X9. Assembling two texts joined by a newline: the program is the
    program of the first followed by the program of the second; the errors
    are those of the first followed by those of the second with its line
    numbers shifted by the number of lines of the first; the text assembles
    with success exactly when both parts do. *)
Theorem assemble_concat (t1 t2 : string) :
  program (assemble (t1 ++ String LF t2)) =
    (program (assemble t1) ++ program (assemble t2))%list /\
  errors (assemble (t1 ++ String LF t2)) =
    (errors (assemble t1) ++
     flat_map error_of
       (numbered_from (1 + List.length (split_char LF t1))
                      (split_char LF t2)))%list /\
  List.length (errors (assemble (t1 ++ String LF t2))) =
    List.length (errors (assemble t1)) + List.length (errors (assemble t2)) /\
  success (assemble (t1 ++ String LF t2)) =
    success (assemble t1) && success (assemble t2).
Proof.
  destruct (assemble_spec (t1 ++ String LF t2)) as (Hp & He & Hs).
  destruct (assemble_spec t1) as (Hp1 & He1 & Hs1).
  destruct (assemble_spec t2) as (Hp2 & He2 & Hs2).
  assert (Hlen : List.length (errors (assemble (t1 ++ String LF t2))) =
                 List.length (errors (assemble t1)) +
                 List.length (errors (assemble t2))).
  { rewrite He, He1, He2. unfold errors_of.
    rewrite split_char_app, numbered_from_app, flat_map_app, length_app.
    f_equal. apply error_count_start. }
  repeat split.
  - rewrite Hp, Hp1, Hp2. unfold program_of.
    rewrite split_char_app, numbered_from_app, flat_map_app.
    f_equal. apply word_of_start.
  - rewrite He, He1. unfold errors_of.
    now rewrite split_char_app, numbered_from_app, flat_map_app.
  - exact Hlen.
  - rewrite Hs, Hs1, Hs2, Hlen.
    destruct (List.length (errors (assemble t1))),
             (List.length (errors (assemble t2))); reflexivity.
Qed.

Lemma failures_bounds (lines : list string) :
  forall (start : nat) (n : nat) (e : asm_error),
    In (n, e) (failures_from start lines) <->
    exists line, nth_error lines (n - start) = Some line /\ start <= n /\
                 line_result n line = Some (Err e).
Proof.
  unfold failures_from, numbered_from.
  induction lines as [| line rest IH]; intros start n e.
  - cbn. split; [tauto |]. intros (l & H & _). destruct (n - start); discriminate.
  - cbn [List.length seq combine flat_map]. rewrite in_app_iff, IH.
    unfold failure_of at 1. cbn [fst snd]. split.
    + intros [H | (l & Hn & Hle & Hr)].
      * destruct (line_result start line) as [[w | e'] |] eqn:Hr;
          try contradiction.
        destruct H as [[= <- <-] | []].
        exists line. rewrite Nat.sub_diag. now repeat split.
      * exists l. replace (n - start) with (S (n - S start)) by lia.
        repeat split; [exact Hn | lia | exact Hr].
    + intros (l & Hn & Hle & Hr).
      destruct (Nat.eq_dec n start) as [-> | Hne].
      * rewrite Nat.sub_diag in Hn. injection Hn as <-. left.
        rewrite Hr. now left.
      * right. exists l.
        replace (n - start) with (S (n - S start)) in Hn by lia.
        repeat split; [exact Hn | lia | exact Hr].
Qed.

Lemma failures_sorted (lines : list string) :
  forall start : nat,
    StronglySorted lt (map fst (failures_from start lines)).
Proof.
  induction lines as [| line rest IH]; intros start; [constructor |].
  change (failures_from start (line :: rest))
    with (failure_of (start, line) ++ failures_from (S start) rest)%list.
  rewrite map_app. unfold failure_of. cbn [fst snd].
  destruct (line_result start line) as [[w | e] |]; cbn [map app];
    try apply IH.
  constructor; [apply IH |].
  apply Forall_forall. intros n Hin. apply in_map_iff in Hin.
  destruct Hin as ([n' e'] & <- & Hin). cbn [fst].
  apply failures_bounds in Hin. destruct Hin as (_ & _ & Hle & _). lia.
Qed.

(** X10. The errors of [assemble] are the entries "Line n: message" of the
    failing lines, [n] in decimal notation, in strictly increasing order of
    line number: the numbers read back from the entries are strictly
    increasing, a line is reported at most once, and an entry for line [n]
    with error [e] is present exactly when the [n]-th physical line exists
    and fails with [e]. *)
Theorem errors_sorted_by_line (text : string) :
  errors (assemble text) =
    map (fun p => tagged_entry (fst p) (message (snd p)))
        (failures_from 1 (split_char LF text)) /\
  map entry_line (errors (assemble text)) =
    map (fun p => Some (fst p, message (snd p)))
        (failures_from 1 (split_char LF text)) /\
  StronglySorted lt (map fst (failures_from 1 (split_char LF text))) /\
  (forall n e,
      In (n, e) (failures_from 1 (split_char LF text)) <->
      exists line, nth_error (split_char LF text) (n - 1) = Some line /\
                   1 <= n /\ line_result n line = Some (Err e)).
Proof.
  split; [| split; [apply errors_read_back |]].
  - destruct (assemble_spec text) as (_ & -> & _). apply failures_render.
  - split; [apply failures_sorted | intros n e; apply failures_bounds].
Qed.

End WholePrograms.

(** * Further properties of the simulation front end *)

(** ** Tool lookup *)

Section ToolLookup.

Variable which : string -> option string.
Variable path_exists : string -> bool.

Lemma find_first_some (candidates : list string) (c : string) :
  find_first which path_exists candidates = Some c ->
  exists before after,
    candidates = (before ++ c :: after)%list /\
    candidate_found which path_exists c = true /\
    Forall (fun x => candidate_found which path_exists x = false) before.
Proof.
  induction candidates as [| x rest IH]; [discriminate |].
  cbn [find_first]. destruct (which x) as [p |] eqn:Hw.
  - intros [= <-]. exists [], rest. repeat split; [| constructor].
    unfold candidate_found. now rewrite Hw.
  - destruct (path_exists x) eqn:He.
    + intros [= <-]. exists [], rest. repeat split; [| constructor].
      unfold candidate_found. now rewrite Hw.
    + intros H. destruct (IH H) as (before & after & -> & Hc & Hall).
      exists (x :: before), after. repeat split; [exact Hc |].
      constructor; [| exact Hall]. unfold candidate_found. now rewrite Hw.
Qed.

Lemma find_first_none (candidates : list string) :
  find_first which path_exists candidates = None <->
  Forall (fun x => candidate_found which path_exists x = false) candidates.
Proof.
  induction candidates as [| x rest IH]; [split; constructor |].
  cbn [find_first].
  assert (Hx : candidate_found which path_exists x =
               match which x with
               | Some _ => true
               | None => path_exists x
               end) by reflexivity.
  destruct (which x) as [p |].
  - split; [discriminate |].
    intros H. inversion H as [| ? ? Hc _]. rewrite Hx in Hc. discriminate.
  - destruct (path_exists x).
    + split; [discriminate |].
      intros H. inversion H as [| ? ? Hc _]. rewrite Hx in Hc. discriminate.
    + rewrite IH. split; [now constructor | intros H; now inversion H].
Qed.

(** X11. [find_iverilog] and [find_vvp] return the first candidate of their
    list that [shutil.which] finds or that exists as a file, earlier
    candidates all failing both tests, and [None] exactly when every
    candidate fails both.  What they return is the candidate as listed, not
    the path [shutil.which] resolved. *)
Theorem find_tools_first_match :
  (forall c,
      find_iverilog which path_exists = Some c ->
      exists before after,
        iverilog_candidates = (before ++ c :: after)%list /\
        candidate_found which path_exists c = true /\
        Forall (fun x => candidate_found which path_exists x = false) before) /\
  (forall c,
      find_vvp which path_exists = Some c ->
      exists before after,
        vvp_candidates = (before ++ c :: after)%list /\
        candidate_found which path_exists c = true /\
        Forall (fun x => candidate_found which path_exists x = false) before) /\
  (find_iverilog which path_exists = None <->
   Forall (fun x => candidate_found which path_exists x = false)
          iverilog_candidates) /\
  (find_vvp which path_exists = None <->
   Forall (fun x => candidate_found which path_exists x = false)
          vvp_candidates).
Proof.
  repeat split;
    try (intros c; apply find_first_some);
    try (apply find_first_none).
Qed.

End ToolLookup.

Lemma find_tools_first_match_witness :
  exists before after,
    iverilog_candidates = (before ++ "/usr/bin/iverilog" :: after)%list /\
    candidate_found (fun _ => None) (String.eqb "/usr/bin/iverilog")
                    "/usr/bin/iverilog" = true /\
    Forall (fun x => candidate_found (fun _ => None)
                       (String.eqb "/usr/bin/iverilog") x = false) before.
Proof.
  apply (proj1 (find_tools_first_match (fun _ => None)
                  (String.eqb "/usr/bin/iverilog"))).
  reflexivity.
Defined.

(** ** Running the simulation *)

Section Simulation.

Variable json : Type.
Variable empty_list : json.
Variable IVERILOG VVP : option string.
Variable compile_step : string -> proc_result.
Variable execute_step : string -> proc_result.
Variable json_loads : string -> json_outcome json.

Lemma sim_failure_is_failure (msg : string) :
  is_failure empty_list (sim_failure empty_list msg).
Proof. repeat split. now exists msg. Qed.

Lemma parse_json_output_cases (output : string) :
  (exists t,
      extract_json_lines output <> [] /\
      json_loads (join newline (extract_json_lines output)) = Loaded t /\
      parse_json_output empty_list json_loads output =
        Returns {| sim_success := true; sim_trace := t; sim_error := None |}) \/
  (exists r,
      parse_json_output empty_list json_loads output = Returns r /\
      is_failure empty_list r /\
      (extract_json_lines output = [] \/
       exists e, json_loads (join newline (extract_json_lines output)) =
                 JSONDecodeError e)) \/
  (exists e,
      extract_json_lines output <> [] /\
      json_loads (join newline (extract_json_lines output)) = OtherError e /\
      parse_json_output empty_list json_loads output = Raises e).
Proof.
  unfold parse_json_output.
  destruct (extract_json_lines output) as [| l ls] eqn:Hx.
  - right. left. eexists. split; [reflexivity |].
    split; [apply sim_failure_is_failure | now left].
  - destruct (json_loads (join newline (l :: ls))) as [t | e | e] eqn:Hj.
    + left. exists t. repeat split. discriminate.
    + right. left. eexists. split; [reflexivity |].
      split; [apply sim_failure_is_failure | right; now exists e].
    + right. right. exists e. repeat split. discriminate.
Qed.

Lemma run_simulation_cases (hex_program : string) :
  (exists xout,
      reaches_parsing IVERILOG VVP compile_step execute_step hex_program xout /\
      fst (run_simulation empty_list IVERILOG VVP compile_step execute_step
             json_loads hex_program) =
      parse_json_output empty_list json_loads xout) \/
  ((exists msg,
       fst (run_simulation empty_list IVERILOG VVP compile_step execute_step
              json_loads hex_program) =
       Returns (sim_failure empty_list msg)) /\
   forall xout, ~ reaches_parsing IVERILOG VVP compile_step execute_step hex_program xout).
Proof.
  unfold run_simulation, reaches_parsing.
  destruct IVERILOG as [p1 |].
  2:{ right. split; [eexists; reflexivity |].
      intros xout (? & ? & ? & ? & ? & ? & H & _). discriminate. }
  destruct VVP as [p2 |].
  2:{ right. split; [eexists; reflexivity |].
      intros xout (? & ? & ? & ? & ? & ? & _ & H & _). discriminate. }
  destruct (compile_step hex_program) as [crc cout cerr | |].
  2,3: (right; split; [eexists; reflexivity |];
        intros xout (? & ? & ? & ? & ? & ? & _ & _ & H & _); discriminate).
  destruct (Z.eqb_spec crc 0) as [-> | Hrc]; cbn [negb].
  2:{ right. split; [eexists; reflexivity |].
      intros xout (? & ? & ? & ? & ? & ? & _ & _ & [= H _ _] & _).
      contradiction. }
  destruct (execute_step hex_program) as [rc xout xerr | |].
  2,3: (right; split; [eexists; reflexivity |];
        intros xout (? & ? & ? & ? & ? & ? & _ & _ & _ & H); discriminate).
  left. exists xout. split; [| reflexivity].
  now exists p1, p2, cout, cerr, rc, xerr.
Qed.

Lemma reaches_parsing_unique (hex_program x1 x2 : string) :
  reaches_parsing IVERILOG VVP compile_step execute_step hex_program x1 -> reaches_parsing IVERILOG VVP compile_step execute_step hex_program x2 -> x1 = x2.
Proof.
  intros (? & ? & ? & ? & ? & ? & _ & _ & _ & H1)
         (? & ? & ? & ? & ? & ? & _ & _ & _ & H2).
  congruence.
Qed.

Lemma run_simulation_returns (hex_program : string) (r : sim_result json) :
  fst (run_simulation empty_list IVERILOG VVP compile_step execute_step
         json_loads hex_program) = Returns r ->
  sim_success r = false -> is_failure empty_list r.
Proof.
  destruct (run_simulation_cases hex_program)
    as [(xout & _ & ->) | ((msg0 & ->) & _)].
  - destruct (parse_json_output_cases xout)
      as [(t0 & _ & _ & ->) | [(r0 & -> & Hf & _) | (e & _ & _ & ->)]].
    + intros [= <-]. discriminate.
    + now intros [= <-].
    + discriminate.
  - intros [= <-] _. apply sim_failure_is_failure.
Qed.

(** X12. [run_simulation] returns a success exactly when both tools were
    found, the compile step completed with exit code 0, the run step
    completed, its output holds a bracketed block and [json.loads] returns
    a value for the block; the result is then that value as trace with no
    error, and the exit code and the error stream of the run step play no
    part.  It lets an exception out exactly when all of that holds up to
    the block and [json.loads] raises something other than
    [JSONDecodeError], which its handler does not catch.  Every result it
    returns otherwise is a failure with an empty trace and an error text:
    no partial trace is returned. *)
Theorem run_simulation_outcome (hex_program : string) :
  (forall t,
      fst (run_simulation empty_list IVERILOG VVP compile_step execute_step
             json_loads hex_program) =
        Returns {| sim_success := true; sim_trace := t; sim_error := None |} <->
      exists xout,
        reaches_parsing IVERILOG VVP compile_step execute_step hex_program xout /\
        extract_json_lines xout <> [] /\
        json_loads (join newline (extract_json_lines xout)) = Loaded t) /\
  (forall msg,
      fst (run_simulation empty_list IVERILOG VVP compile_step execute_step
             json_loads hex_program) = Raises msg <->
      exists xout,
        reaches_parsing IVERILOG VVP compile_step execute_step hex_program xout /\
        extract_json_lines xout <> [] /\
        json_loads (join newline (extract_json_lines xout)) =
          OtherError msg) /\
  (forall r,
      fst (run_simulation empty_list IVERILOG VVP compile_step execute_step
             json_loads hex_program) = Returns r ->
      (exists t, r = {| sim_success := true; sim_trace := t;
                        sim_error := None |}) \/
      is_failure empty_list r).
Proof.
  destruct (run_simulation_cases hex_program)
    as [(xout & Hreach & ->) | ((msg0 & ->) & Hnot)].
  - destruct (parse_json_output_cases xout)
      as [(t0 & Hne & Hj & ->) | [(r0 & -> & Hf & Hwhy) | (e & Hne & Hj & ->)]].
    + split; [| split].
      * intros t. split.
        -- intros [= <-]. now exists xout.
        -- intros (x & Hr & _ & Hl).
           rewrite (reaches_parsing_unique _ _ _ Hr Hreach) in Hl. congruence.
      * intros msg. split; [discriminate |].
        intros (x & Hr & _ & Hl).
        rewrite (reaches_parsing_unique _ _ _ Hr Hreach) in Hl. congruence.
      * intros r [= <-]. left. now exists t0.
    + split; [| split].
      * intros t. split.
        -- intros [= ->]. destruct Hf as (Hs & _). discriminate.
        -- intros (x & Hr & Hne & Hl).
           rewrite (reaches_parsing_unique _ _ _ Hr Hreach) in Hl, Hne.
           destruct Hwhy as [Hnil | (e & He)]; [contradiction | congruence].
      * intros msg. split; [discriminate |].
        intros (x & Hr & Hne & Hl).
        rewrite (reaches_parsing_unique _ _ _ Hr Hreach) in Hl, Hne.
        destruct Hwhy as [Hnil | (e & He)]; [contradiction | congruence].
      * intros r [= <-]. now right.
    + split; [| split].
      * intros t. split; [discriminate |].
        intros (x & Hr & _ & Hl).
        rewrite (reaches_parsing_unique _ _ _ Hr Hreach) in Hl. congruence.
      * intros msg. split.
        -- intros [= <-]. now exists xout.
        -- intros (x & Hr & _ & Hl).
           rewrite (reaches_parsing_unique _ _ _ Hr Hreach) in Hl. congruence.
      * intros r. discriminate.
  - split; [| split].
    + intros t. split; [discriminate |].
      intros (x & Hr & _). now apply Hnot in Hr.
    + intros msg. split; [discriminate |].
      intros (x & Hr & _). now apply Hnot in Hr.
    + intros r [= <-]. right. apply sim_failure_is_failure.
Qed.

(** X13. [run_simulation] starts nothing when a tool is missing, starts the
    compile step with the program otherwise, and starts the run step only
    after a compile step that completed with exit code 0; it starts each
    step at most once and never the run step first. *)
Theorem run_simulation_steps (hex_program : string) :
  (snd (run_simulation empty_list IVERILOG VVP compile_step
       execute_step json_loads hex_program) = [] \/
   snd (run_simulation empty_list IVERILOG VVP compile_step
       execute_step json_loads hex_program) = [Compile hex_program] \/
   snd (run_simulation empty_list IVERILOG VVP compile_step
       execute_step json_loads hex_program) = [Compile hex_program; Execute]) /\
  (snd (run_simulation empty_list IVERILOG VVP compile_step
       execute_step json_loads hex_program) = [] <-> IVERILOG = None \/ VVP = None) /\
  (In Execute (snd (run_simulation empty_list IVERILOG VVP compile_step
       execute_step json_loads hex_program)) <->
   IVERILOG <> None /\ VVP <> None /\
   exists cout cerr, compile_step hex_program = Completed 0 cout cerr).
Proof.
  unfold run_simulation.
  destruct IVERILOG as [p1 |]; [| cbn; firstorder congruence].
  destruct VVP as [p2 |]; [| cbn; firstorder congruence].
  destruct (compile_step hex_program) as [crc cout cerr | |] eqn:Hc;
    [| cbn; firstorder congruence | cbn; firstorder congruence].
  destruct (Z.eqb_spec crc 0) as [-> | Hrc]; cbn [negb].
  2:{ cbn. split; [auto |]. split; [split; [discriminate |
                                             intros [H | H]; discriminate] |].
      split; [intros [H | []]; discriminate |].
      intros (_ & _ & ? & ? & [= H _ _]). contradiction. }
  assert (Hyes : Some p1 <> None /\ Some p2 <> None /\
                 exists cout0 cerr0,
                   Completed 0 cout cerr = Completed 0 cout0 cerr0).
  { repeat split; try discriminate. now exists cout, cerr. }
  destruct (execute_step hex_program); cbn;
    (split; [auto |]);
    (split; [split; [discriminate | intros [H | H]; discriminate] |]);
    (split; [intros _; exact Hyes | intros _; auto]).
Qed.

End Simulation.

Section SimulationRuns.

Lemma run_simulation_outcome_witness :
  fst (run_simulation tt (Some "iverilog") (Some "vvp") tools_ok prints_trace
         loads "0000") =
    Returns {| sim_success := true; sim_trace := tt; sim_error := None |} /\
  fst (run_simulation tt (Some "iverilog") (Some "vvp") tools_ok prints_trace
         (fun _ => OtherError "maximum recursion depth exceeded") "0000") =
    Raises "maximum recursion depth exceeded" /\
  ((exists t, sim_failure tt "vvp not found" =
              {| sim_success := true; sim_trace := t; sim_error := None |}) \/
   is_failure tt (sim_failure tt "vvp not found")).
Proof.
  split; [| split].
  - apply (proj1 (run_simulation_outcome unit tt (Some "iverilog")
                    (Some "vvp") tools_ok prints_trace loads "0000")).
    exists ("WARNING: $readmemh" ++ newline ++ "[" ++ newline ++ "]")%string.
    split; [now exists "iverilog", "vvp", "", "", 0%Z, "" |].
    split; [vm_compute; discriminate | reflexivity].
  - apply (proj1 (proj2 (run_simulation_outcome unit tt (Some "iverilog")
                           (Some "vvp") tools_ok prints_trace
                           (fun _ => OtherError
                                       "maximum recursion depth exceeded")
                           "0000"))).
    exists ("WARNING: $readmemh" ++ newline ++ "[" ++ newline ++ "]")%string.
    split; [now exists "iverilog", "vvp", "", "", 0%Z, "" |].
    split; [vm_compute; discriminate | reflexivity].
  - apply (proj2 (proj2 (run_simulation_outcome unit tt (Some "iverilog") None
                           tools_ok prints_trace loads "0000"))).
    reflexivity.
Defined.

Lemma run_simulation_steps_witness :
  In Execute
     (snd (run_simulation tt (Some "iverilog") (Some "vvp") tools_ok
             prints_trace loads "0000")) /\
  snd (run_simulation tt None (Some "vvp") tools_ok prints_trace loads
         "0000") = [].
Proof.
  split.
  - apply (proj2 (proj2 (run_simulation_steps unit tt (Some "iverilog")
                           (Some "vvp") tools_ok prints_trace loads "0000"))).
    split; [discriminate |]. split; [discriminate |]. now exists "", "".
  - apply (proj1 (proj2 (run_simulation_steps unit tt None (Some "vvp")
                           tools_ok prints_trace loads "0000"))).
    now left.
Defined.

End SimulationRuns.

(** ** The request path, continued *)

Section RequestStatus.

Variable json : Type.
Variable empty_list : json.
Variable IVERILOG VVP : option string.
Variable compile_step : string -> proc_result.
Variable execute_step : string -> proc_result.
Variable json_loads : string -> json_outcome json.

(** X14. [simulate] answers with status 200, 400 or 500, and with 200
    exactly when the response reports success.  A 400 response (missing
    "assembly", assembly errors, empty program) is given without starting
    any tool.  When a tool was started, the request held a text that
    assembled with success to a non-empty program, and the tools were
    started by [run_simulation] on the memory image of that program.  A
    response that reports failure has an empty trace, an error text and
    neither [program] nor [programHex]. *)
Theorem simulate_status (data : option string) :
  let resp :=
    fst (simulate empty_list IVERILOG VVP compile_step execute_step
           json_loads data) in
  let events :=
    snd (simulate empty_list IVERILOG VVP compile_step execute_step
           json_loads data) in
  (status resp = 200 \/ status resp = 400 \/ status resp = 500) /\
  (status resp = 200 <-> r_success resp = true) /\
  (status resp = 400 -> events = []) /\
  (events <> [] ->
   exists text,
     data = Some text /\ success (assemble text) = true /\
     program (assemble text) <> [] /\
     events =
       snd (run_simulation empty_list IVERILOG VVP compile_step execute_step
              json_loads (to_hex_file (program (assemble text))))) /\
  (r_success resp = false ->
   r_trace resp = empty_list /\ r_program resp = None /\
   r_programHex resp = None /\ exists msg, r_error resp = Some msg).
Proof.
  unfold simulate.
  destruct data as [text |].
  2:{ cbn. repeat split; auto; try discriminate; try congruence.
      eexists; reflexivity. }
  destruct (success (assemble text)) eqn:Hs; cbn [negb].
  2:{ cbn. repeat split; auto; try discriminate; try congruence.
      eexists; reflexivity. }
  destruct (program (assemble text)) as [| w ws] eqn:Hp; cbn [List.length Nat.eqb].
  { cbn. repeat split; auto; try discriminate; try congruence.
    eexists; reflexivity. }
  pose proof (run_simulation_returns json empty_list IVERILOG VVP
                compile_step execute_step json_loads
                (to_hex_file (w :: ws))) as Hfail.
  destruct (run_simulation empty_list IVERILOG VVP compile_step execute_step
              json_loads (to_hex_file (w :: ws))) as [[sim | e] evs] eqn:Hrun.
  2:{ cbn [negb fst snd status r_success r_trace r_program r_programHex
             r_error failure].
      repeat split; auto; try discriminate.
      - intros _. exists text. rewrite Hp, Hrun.
        repeat split; auto. discriminate.
      - eexists; reflexivity. }
  cbn [fst] in Hfail.
  destruct (sim_success sim) eqn:Hss; cbn [negb fst snd status r_success
                                            r_trace r_program r_programHex
                                            r_error].
  - repeat split; auto; try discriminate.
    intros _. exists text. rewrite Hp, Hrun.
    repeat split; auto. discriminate.
  - destruct (Hfail sim eq_refl Hss) as (_ & Ht & msg & Hm).
    repeat split; auto; try discriminate.
    + intros _. exists text. rewrite Hp, Hrun.
      repeat split; auto. discriminate.
    + now exists msg.
Qed.

End RequestStatus.

Section RequestStatusRuns.

Lemma simulate_status_witness :
  snd (simulate tt (Some "iverilog") (Some "vvp") tools_ok prints_trace loads
         (Some "FOO R0")) = [] /\
  exists text,
    Some scenario_1 = Some text /\ success (assemble text) = true /\
    program (assemble text) <> [] /\
    snd (simulate tt (Some "iverilog") (Some "vvp") tools_ok prints_trace
           loads (Some scenario_1)) =
    snd (run_simulation tt (Some "iverilog") (Some "vvp") tools_ok
           prints_trace loads (to_hex_file (program (assemble text)))).
Proof.
  split.
  - apply (proj1 (proj2 (proj2 (simulate_status unit tt (Some "iverilog")
                                  (Some "vvp") tools_ok prints_trace loads
                                  (Some "FOO R0"))))).
    reflexivity.
  - apply (proj1 (proj2 (proj2 (proj2
             (simulate_status unit tt (Some "iverilog") (Some "vvp") tools_ok
                prints_trace loads (Some scenario_1)))))).
    vm_compute. discriminate.
Defined.

End RequestStatusRuns.

(** ** The extracted block *)

Section ExtractedBlock.

Lemma through_close_last (ls : list string) :
  forall i, nth_error (through_close ls) i = Some "]" ->
            S i = List.length (through_close ls).
Proof.
  induction ls as [| l rest IH]; intros i; cbn [through_close].
  - destruct i; discriminate.
  - destruct (String.eqb_spec l "]") as [-> | Hne].
    + destruct i as [| [| i]]; cbn; try discriminate. reflexivity.
    + destruct i as [| i]; cbn [nth_error List.length].
      * intros [= ->]. contradiction.
      * intros H. f_equal. now apply IH.
Qed.

Lemma through_close_incl (ls : list string) (l : string) :
  In l (through_close ls) -> In l ls.
Proof.
  induction ls as [| x rest IH]; cbn [through_close]; [tauto |].
  destruct (String.eqb x "]").
  - intros [<- | []]. now left.
  - intros [<- | H]; [now left | right; now apply IH].
Qed.

Lemma block_of_cases (ls : list string) :
  (block_of ls = [] /\ ~ In "[" ls) \/
  (exists rest, block_of ls = "[" :: through_close rest /\ In "[" ls /\
                forall l, In l rest -> In l ls).
Proof.
  induction ls as [| x xs IH]; [left; split; [reflexivity | tauto] |].
  cbn [block_of]. destruct (String.eqb_spec x "[") as [-> | Hne].
  - right. exists xs. repeat split; [now left | intros l H; now right].
  - destruct IH as [(Hnil & Hno) | (rest & Hb & Hin & Hsub)].
    + left. split; [exact Hnil |]. intros [H | H]; [now subst | contradiction].
    + right. exists rest. repeat split; [exact Hb | now right |].
      intros l H. right. now apply Hsub.
Qed.

Lemma kept_lines_in (lines : list string) (l : string) :
  In l (kept_lines lines) <->
  exists raw, In raw lines /\ l = strip raw /\ is_empty l = false /\
              is_diagnostic l = false.
Proof.
  unfold kept_lines. rewrite filter_In, in_map_iff.
  rewrite andb_true_iff, !negb_true_iff. split.
  - intros ((raw & <- & Hin) & He & Hd). now exists raw.
  - intros (raw & Hin & -> & He & Hd). repeat split; try assumption.
    now exists raw.
Qed.

(** X15. What the scan hands to [json.loads] is either nothing, exactly when
    no kept line of the output is the opening bracket, or a list that starts
    with the opening bracket, holds the closing bracket at its last place
    only, and consists of stripped lines of the output that are neither
    blank nor diagnostics.  An output whose block is never closed is
    buffered to its end. *)
Theorem extracted_block_shape (output : string) :
  (extract_json_lines output = [] <->
   ~ In "[" (kept_lines (split_char LF output))) /\
  (extract_json_lines output <> [] ->
   hd_error (extract_json_lines output) = Some "[") /\
  (forall i, nth_error (extract_json_lines output) i = Some "]" ->
             S i = List.length (extract_json_lines output)) /\
  (forall l, In l (extract_json_lines output) ->
             exists raw, In raw (split_char LF output) /\ l = strip raw /\
                         is_empty l = false /\ is_diagnostic l = false).
Proof.
  unfold extract_json_lines. rewrite extract_loop_spec. cbn [app].
  set (ks := kept_lines (split_char LF output)).
  destruct (block_of_cases ks) as [(Hnil & Hno) | (rest & Hb & Hin & Hsub)].
  - rewrite Hnil.
    split; [split; [intros _; exact Hno | reflexivity] |].
    split; [intros H; exfalso; now apply H |].
    split; [intros i H; destruct i; discriminate | intros l []].
  - rewrite Hb.
    split; [split; [discriminate | intros H; contradiction] |].
    split; [reflexivity |].
    split.
    + intros i. destruct i as [| i]; cbn [nth_error List.length];
        [discriminate |].
      intros H. f_equal. now apply through_close_last.
    + intros l [<- | H]; apply kept_lines_in; fold ks; [exact Hin |].
      apply Hsub. now apply through_close_incl.
Qed.

Lemma extracted_block_shape_witness :
  hd_error (extract_json_lines output_with_noise_in_block) = Some "[" /\
  S 2 = List.length (extract_json_lines output_with_noise_in_block).
Proof.
  destruct (extracted_block_shape output_with_noise_in_block)
    as (_ & Hhd & Hlast & _).
  split.
  - apply Hhd. vm_compute. discriminate.
  - apply Hlast. reflexivity.
Defined.

End ExtractedBlock.

Section TraceFailure.

Variable json : Type.
Variable empty_list : json.
Variable json_loads : string -> json_outcome json.

Lemma str_app_assoc (x y z : string) :
  ((x ++ y) ++ z)%string = (x ++ (y ++ z))%string.
Proof. induction x as [| c x IH]; [reflexivity | cbn; now rewrite IH]. Qed.

Lemma take_length (n : nat) (s : string) :
  String.length (take n s) = Nat.min n (String.length s).
Proof.
  revert s. induction n as [| n IH]; intros s; [reflexivity |].
  destruct s as [| c s]; [reflexivity |]. cbn. now rewrite IH.
Qed.

Lemma take_drop (n : nat) (s : string) : (take n s ++ drop n s)%string = s.
Proof.
  revert s. induction n as [| n IH]; intros s; [reflexivity |].
  destruct s as [| c s]; [reflexivity |]. cbn. now rewrite IH.
Qed.

Lemma take_all (n : nat) (s : string) :
  String.length s <= n -> take n s = s.
Proof.
  revert s. induction n as [| n IH]; intros s Hlen.
  - destruct s; [reflexivity | cbn in Hlen; lia].
  - destruct s as [| c s]; [reflexivity |]. cbn in *. rewrite IH; [easy | lia].
Qed.

(** X16. When the output of the run step yields no trace, the error text
    ends with an excerpt of the raw output: its first 500 characters, or
    all of it when it is shorter.  The excerpt follows "No JSON output
    found. Raw output: " when no block was found, and the parser's message
    when the block did not parse. *)
Theorem trace_failure_excerpt (output : string) (r : sim_result json) :
  parse_json_output empty_list json_loads output = Returns r ->
  sim_success r = false ->
  exists head,
    sim_error r = Some (head ++ take 500 output)%string /\
    (extract_json_lines output = [] ->
     head = "No JSON output found. Raw output: ") /\
    (forall e,
        json_loads (join newline (extract_json_lines output)) =
          JSONDecodeError e ->
        extract_json_lines output <> [] ->
        head = ("JSON parse error: " ++ e ++ ". Output: ")%string) /\
    String.length (take 500 output) = Nat.min 500 (String.length output) /\
    (take 500 output ++ drop 500 output)%string = output /\
    (String.length output <= 500 -> take 500 output = output).
Proof.
  unfold parse_json_output.
  destruct (extract_json_lines output) as [| l ls] eqn:Hx.
  - intros [= <-] _. exists "No JSON output found. Raw output: ".
    split; [reflexivity |]. split; [reflexivity |].
    split; [intros e _ H; exfalso; now apply H |].
    split; [apply take_length |]. split; [apply take_drop | apply take_all].
  - destruct (json_loads (join newline (l :: ls))) as [t | e | e] eqn:Hj.
    + intros [= <-]. discriminate.
    + intros [= <-] _.
      exists ("JSON parse error: " ++ e ++ ". Output: ")%string.
      split.
      { cbn [sim_failure sim_error]. now rewrite !str_app_assoc. }
      split; [discriminate |].
      split; [intros e' [= ->] _; reflexivity |].
      split; [apply take_length |]. split; [apply take_drop | apply take_all].
    + discriminate.
Qed.

End TraceFailure.

Lemma trace_failure_excerpt_witness :
  exists head,
    sim_error (sim_failure tt
                 "No JSON output found. Raw output: no trace here") =
      Some (head ++ take 500 "no trace here")%string /\
    (extract_json_lines "no trace here" = [] ->
     head = "No JSON output found. Raw output: ") /\
    (forall e,
        loads (join newline (extract_json_lines "no trace here")) =
          JSONDecodeError e ->
        extract_json_lines "no trace here" <> [] ->
        head = ("JSON parse error: " ++ e ++ ". Output: ")%string) /\
    String.length (take 500 "no trace here") =
      Nat.min 500 (String.length "no trace here") /\
    (take 500 "no trace here" ++ drop 500 "no trace here")%string =
      "no trace here" /\
    (String.length "no trace here" <= 500 ->
     take 500 "no trace here" = "no trace here").
Proof.
  apply (trace_failure_excerpt unit tt loads "no trace here");
    reflexivity.
Defined.

(** ** Health report and memory image *)

Section HealthAndImage.

Variable which : string -> option string.
Variable path_exists : string -> bool.

Lemma find_first_found (candidates : list string) :
  is_some (find_first which path_exists candidates) = true <->
  Exists (fun c => candidate_found which path_exists c = true) candidates.
Proof.
  destruct (find_first which path_exists candidates) as [c |] eqn:Hf.
  - split; [intros _ | reflexivity].
    destruct (find_first_some _ _ _ _ Hf) as (before & after & -> & Hc & _).
    apply Exists_app. right. now constructor.
  - split; [discriminate |]. intros Hex.
    apply find_first_none in Hf. apply Exists_exists in Hex.
    destruct Hex as (c & Hin & Hc). rewrite Forall_forall in Hf.
    rewrite (Hf c Hin) in Hc. discriminate.
Qed.

(** X17. With the paths the lookup found at start-up, [/health] reports a
    tool as present exactly when one of its candidates is found, gives the
    found candidate as its path, and reports both tools as present exactly
    when [run_simulation] gets past its tool check and starts the compile
    step. *)
Theorem health_reflects_lookup (json : Type) (empty_list : json)
  (compile_step execute_step : string -> proc_result)
  (json_loads : string -> json_outcome json) (hex_program : string) :
  let IVERILOG := find_iverilog which path_exists in
  let VVP := find_vvp which path_exists in
  (h_iverilog (health IVERILOG VVP) = true <->
   Exists (fun c => candidate_found which path_exists c = true)
          iverilog_candidates) /\
  (h_vvp (health IVERILOG VVP) = true <->
   Exists (fun c => candidate_found which path_exists c = true)
          vvp_candidates) /\
  h_iverilog_path (health IVERILOG VVP) = IVERILOG /\
  h_vvp_path (health IVERILOG VVP) = VVP /\
  (h_iverilog (health IVERILOG VVP) && h_vvp (health IVERILOG VVP) = true <->
   hd_error (snd (run_simulation empty_list IVERILOG VVP compile_step
                    execute_step json_loads hex_program)) =
   Some (Compile hex_program)).
Proof.
  cbn zeta. cbn [health h_iverilog h_vvp h_iverilog_path h_vvp_path].
  split; [apply find_first_found |]. split; [apply find_first_found |].
  split; [reflexivity |]. split; [reflexivity |].
  unfold run_simulation.
  destruct (find_iverilog which path_exists);
    [| cbn; split; discriminate].
  destruct (find_vvp which path_exists); [| cbn; split; discriminate].
  cbn [is_some andb].
  destruct (compile_step hex_program) as [crc ? ? | |];
    try (cbn; split; reflexivity).
  destruct (negb (crc =? 0)%Z); [cbn; split; reflexivity |].
  destruct (execute_step hex_program); cbn; split; reflexivity.
Qed.

(** X18. The lines [to_hex_file] pads with are NOP words: the image of a
    program is the image of the program extended with the word 0, which is
    what "NOP" assembles to, up to eight words.  For 16-bit code words,
    reading the lines of the image back as hexadecimal numbers gives the
    program followed by those zero words. *)
Theorem image_reads_back (program : list Z) :
  hex_lines program =
    map format_04X (program ++ repeat 0%Z (8 - List.length program)) /\
  parse_line "NOP" 1 = Ok 0%Z /\
  (Forall is_code_word program ->
   map (fun l => PyInt.int l 16) (split_char LF (to_hex_file program)) =
   map Some (program ++ repeat 0%Z (8 - List.length program))).
Proof.
  assert (Hpad : hex_lines program =
                 map format_04X
                     (program ++ repeat 0%Z (8 - List.length program))).
  { rewrite hex_lines_closed_form. unfold image_lines.
    rewrite map_app. f_equal.
    induction (8 - List.length program) as [| k IH]; [reflexivity |].
    cbn [repeat map]. now rewrite <- IH. }
  split; [exact Hpad |]. split; [reflexivity |].
  intros Hcw. rewrite (split_image program Hcw), <- hex_lines_closed_form, Hpad.
  rewrite map_map. apply map_ext_in. intros w Hin.
  apply format_04X_code_word.
  apply in_app_or in Hin. destruct Hin as [Hin | Hin].
  - rewrite Forall_forall in Hcw. now apply Hcw.
  - apply repeat_spec in Hin. subst w. unfold is_code_word. lia.
Qed.

End HealthAndImage.

Lemma image_reads_back_witness :
  map (fun l => PyInt.int l 16)
      (split_char LF (to_hex_file [0x9005; 0xE000]%Z)) =
  map Some ([0x9005; 0xE000]%Z ++ repeat 0%Z (8 - 2))%list.
Proof.
  apply (proj2 (proj2 (image_reads_back [0x9005; 0xE000]%Z))).
  repeat constructor; unfold is_code_word; lia.
Defined.

(** ** Letter case *)

Section LetterCase.

Ltac enumerate c := destruct c as [[] [] [] [] [] [] [] []]; vm_compute; reflexivity.

Lemma upper_char_idempotent (c : ascii) :
  upper_char (upper_char c) = upper_char c.
Proof. enumerate c. Qed.

Lemma lower_upper_char (c : ascii) : lower_char (upper_char c) = lower_char c.
Proof. enumerate c. Qed.

Lemma upper_char_class (c : ascii) :
  is_space (upper_char c) = is_space c /\
  is_c_space (upper_char c) = is_c_space c /\
  digit_value (upper_char c) = digit_value c.
Proof. repeat split; enumerate c. Qed.

Lemma upper_char_marks (c : ascii) :
  Ascii.eqb (upper_char c) ";" = Ascii.eqb c ";" /\
  Ascii.eqb (upper_char c) "," = Ascii.eqb c "," /\
  Ascii.eqb (upper_char c) LF = Ascii.eqb c LF /\
  Ascii.eqb (upper_char c) "[" = Ascii.eqb c "[" /\
  Ascii.eqb (upper_char c) "]" = Ascii.eqb c "]" /\
  Ascii.eqb (upper_char c) "+" = Ascii.eqb c "+" /\
  Ascii.eqb (upper_char c) "-" = Ascii.eqb c "-" /\
  Ascii.eqb (upper_char c) underscore = Ascii.eqb c underscore /\
  Ascii.eqb "_" (upper_char c) = Ascii.eqb "_" c /\
  Ascii.eqb (upper_char c) "0" = Ascii.eqb c "0".
Proof. repeat split; enumerate c. Qed.

Lemma upper_char_prefix_letters (c : ascii) :
  Ascii.eqb (upper_char c) "x" || Ascii.eqb (upper_char c) "X" =
    Ascii.eqb c "x" || Ascii.eqb c "X" /\
  Ascii.eqb (upper_char c) "b" || Ascii.eqb (upper_char c) "B" =
    Ascii.eqb c "b" || Ascii.eqb c "B".
Proof. split; enumerate c. Qed.

Lemma upper_idempotent (s : string) : upper (upper s) = upper s.
Proof.
  induction s as [| c s IH]; [reflexivity |].
  unfold upper in *. cbn. now rewrite IH, upper_char_idempotent.
Qed.

Lemma lower_upper (s : string) : lower (upper s) = lower s.
Proof.
  induction s as [| c s IH]; [reflexivity |].
  unfold upper, lower in *. cbn. now rewrite IH, lower_upper_char.
Qed.

Lemma upper_cons (c : ascii) (s : string) :
  upper (String c s) = String (upper_char c) (upper s).
Proof. reflexivity. Qed.

Lemma upper_app (s t : string) : upper (s ++ t) = (upper s ++ upper t)%string.
Proof.
  induction s as [| c s IH]; [reflexivity |].
  cbn [append]. rewrite !upper_cons. cbn [append]. now rewrite IH.
Qed.

Lemma is_empty_upper (s : string) : is_empty (upper s) = is_empty s.
Proof. destruct s; reflexivity. Qed.

Lemma lstrip_upper (s : string) : lstrip (upper s) = upper (lstrip s).
Proof.
  induction s as [| c s IH]; [reflexivity |].
  rewrite upper_cons. cbn [lstrip].
  rewrite (proj1 (upper_char_class c)).
  destruct (is_space c); [exact IH | reflexivity].
Qed.

Lemma rstrip_upper (s : string) : rstrip (upper s) = upper (rstrip s).
Proof.
  induction s as [| c s IH]; [reflexivity |].
  rewrite upper_cons. cbn [rstrip].
  rewrite IH, is_empty_upper, (proj1 (upper_char_class c)).
  destruct (is_empty (rstrip s) && is_space c); reflexivity.
Qed.

Lemma strip_upper (s : string) : strip (upper s) = upper (strip s).
Proof. unfold strip. now rewrite lstrip_upper, rstrip_upper. Qed.

Lemma contains_semicolon_upper (s : string) :
  contains ";" (upper s) = contains ";" s.
Proof.
  induction s as [| c s IH]; [reflexivity |].
  rewrite upper_cons. cbn [contains].
  now rewrite IH, (proj1 (upper_char_marks c)).
Qed.

Lemma before_semicolon_upper (s : string) :
  before_char ";" (upper s) = upper (before_char ";" s).
Proof.
  induction s as [| c s IH]; [reflexivity |].
  rewrite upper_cons. cbn [before_char].
  rewrite IH, (proj1 (upper_char_marks c)).
  destruct (Ascii.eqb c ";"); reflexivity.
Qed.

Lemma clean_line_upper (s : string) : clean_line (upper s) = upper (clean_line s).
Proof.
  unfold clean_line. rewrite strip_upper, contains_semicolon_upper.
  destruct (contains ";" (strip s)); [| reflexivity].
  now rewrite before_semicolon_upper, strip_upper.
Qed.

Lemma replace_comma_upper (s : string) :
  replace_char "," " " (upper s) = upper (replace_char "," " " s).
Proof.
  induction s as [| c s IH]; [reflexivity |].
  rewrite upper_cons. unfold replace_char in *. cbn [map_chars].
  rewrite IH, upper_cons.
  rewrite (proj1 (proj2 (upper_char_marks c))).
  destruct (Ascii.eqb c ","); reflexivity.
Qed.

Lemma split_ws_from_upper (s : string) :
  forall cur : string,
    split_ws_from (upper cur) (upper s) = map upper (split_ws_from cur s).
Proof.
  induction s as [| c s IH]; intros cur.
  - cbn. rewrite is_empty_upper. destruct (is_empty cur); reflexivity.
  - rewrite upper_cons. cbn [split_ws_from].
    rewrite (proj1 (upper_char_class c)), is_empty_upper.
    destruct (is_space c).
    + destruct (is_empty cur).
      * apply (IH EmptyString).
      * cbn [map]. f_equal. apply (IH EmptyString).
    + rewrite <- IH, upper_app. reflexivity.
Qed.

Lemma tokens_upper (line : string) :
  tokens (upper line) = map upper (tokens line).
Proof.
  unfold tokens, split_ws. rewrite replace_comma_upper.
  apply (split_ws_from_upper _ EmptyString).
Qed.

Lemma split_lines_upper (text : string) :
  split_char LF (upper text) = map upper (split_char LF text).
Proof.
  induction text as [| c s IH]; [reflexivity |].
  rewrite upper_cons. cbn [split_char].
  rewrite IH, (proj1 (proj2 (proj2 (upper_char_marks c)))).
  destruct (Ascii.eqb c LF); [reflexivity |].
  destruct (split_char LF s); reflexivity.
Qed.

Lemma remove_char_upper (x : ascii) (s : string) :
  (forall c, Ascii.eqb (upper_char c) x = Ascii.eqb c x) ->
  remove_char x (upper s) = upper (remove_char x s).
Proof.
  intros Hx. induction s as [| c s IH]; [reflexivity |].
  rewrite upper_cons. cbn [remove_char]. rewrite IH, Hx.
  destruct (Ascii.eqb c x); reflexivity.
Qed.

Lemma strip_brackets_upper (s : string) :
  strip_brackets (upper s) = upper (strip_brackets s).
Proof.
  unfold strip_brackets.
  rewrite !remove_char_upper; [reflexivity | |]; intros c;
    apply (upper_char_marks c).
Qed.

End LetterCase.

Section CaseInsensitive.

Lemma skip_spaces_upper (s : string) :
  skip_spaces (upper s) = upper (skip_spaces s).
Proof.
  induction s as [| c s IH]; [reflexivity |].
  rewrite upper_cons. cbn [skip_spaces].
  rewrite (proj1 (proj2 (upper_char_class c))).
  destruct (is_c_space c); [exact IH | reflexivity].
Qed.

Lemma read_sign_upper (s : string) :
  read_sign (upper s) = (fst (read_sign s), upper (snd (read_sign s))).
Proof.
  destruct s as [| c s]; [reflexivity |].
  rewrite upper_cons. cbn [read_sign].
  destruct (upper_char_marks c) as (_ & _ & _ & _ & _ & Hp & Hm & _).
  rewrite Hp, Hm.
  destruct (Ascii.eqb c "+"); [reflexivity |].
  destruct (Ascii.eqb c "-"); reflexivity.
Qed.

Lemma skip_prefix_upper (base : Z) (s : string) :
  skip_prefix base (upper s) = upper (skip_prefix base s).
Proof.
  destruct s as [| z [| p rest]]; try reflexivity.
  rewrite !upper_cons. unfold skip_prefix.
  destruct (upper_char_marks z) as (_ & _ & _ & _ & _ & _ & _ & _ & _ & Hz).
  destruct (upper_char_prefix_letters p) as (Hx & Hb).
  rewrite Hz, Hx, Hb.
  destruct (Ascii.eqb z "0" &&
            ((base =? 16)%Z && (Ascii.eqb p "x" || Ascii.eqb p "X")
             || (base =? 2)%Z && (Ascii.eqb p "b" || Ascii.eqb p "B")));
    [| reflexivity].
  destruct rest as [| u rest']; [reflexivity |].
  rewrite upper_cons.
  destruct (upper_char_marks u) as (_ & _ & _ & _ & _ & _ & _ & Hu & _).
  rewrite Hu. destruct (Ascii.eqb u underscore); reflexivity.
Qed.

Lemma scan_digits_upper (base : Z) (s : string) :
  forall (prev_us : bool) (acc : Z) (n : nat),
    scan_digits base prev_us acc n (upper s) =
    match scan_digits base prev_us acc n s with
    | Some (v, k, rest) => Some (v, k, upper rest)
    | None => None
    end.
Proof.
  induction s as [| c s IH]; intros prev acc n.
  - cbn. destruct prev; reflexivity.
  - rewrite upper_cons. cbn [scan_digits].
    destruct (upper_char_marks c) as (_ & _ & _ & _ & _ & _ & _ & Hu & _).
    rewrite Hu, (proj2 (proj2 (upper_char_class c))).
    destruct (Ascii.eqb c underscore).
    + destruct prev; [reflexivity | apply IH].
    + destruct (digit_value c <? base)%Z; [apply IH |].
      destruct prev; reflexivity.
Qed.

Lemma int_digits_upper (base : Z) (negative : bool) (s : string) :
  int_digits base negative (upper s) = int_digits base negative s.
Proof.
  unfold int_digits. rewrite scan_digits_upper.
  assert (Hs : startswith "_" (upper s) = startswith "_" s).
  { destruct s as [| c s]; [reflexivity |]. rewrite upper_cons.
    cbn [startswith].
    destruct (upper_char_marks c) as (_ & _ & _ & _ & _ & _ & _ & _ & Hu & _).
    now rewrite Hu. }
  rewrite Hs. destruct (startswith "_" s); [reflexivity |].
  destruct (scan_digits base false 0%Z 0 s) as [[[v k] rest] |];
    [| reflexivity].
  now rewrite skip_spaces_upper, is_empty_upper.
Qed.

Lemma int_upper (s : string) (base : Z) :
  PyInt.int (upper s) base = PyInt.int s base.
Proof.
  unfold PyInt.int. rewrite skip_spaces_upper, read_sign_upper.
  destruct (read_sign (skip_spaces s)) as [negative s2]. cbn [fst snd].
  now rewrite skip_prefix_upper, int_digits_upper.
Qed.

Lemma drop_upper (n : nat) (s : string) : drop n (upper s) = upper (drop n s).
Proof.
  revert s. induction n as [| n IH]; intros s; [reflexivity |].
  destruct s as [| c s]; [reflexivity |]. rewrite upper_cons. cbn [drop].
  apply IH.
Qed.

Lemma immediate_literal_upper (s : string) :
  immediate_literal (upper s) = immediate_literal s.
Proof.
  unfold immediate_literal.
  now rewrite lower_upper, drop_upper, !int_upper.
Qed.

Lemma parse_immediate_upper (s : string) :
  agree (parse_immediate (upper s)) (parse_immediate s).
Proof.
  rewrite !parse_immediate_unfold, strip_upper, immediate_literal_upper.
  destruct (immediate_literal (strip s)) as [v |]; [| exact I].
  destruct ((v <? 0)%Z || (255 <? v)%Z); [exact I | reflexivity].
Qed.

Lemma parse_register_upper (s : string) :
  agree (parse_register (upper s)) (parse_register s).
Proof.
  rewrite !parse_register_lookup. unfold bare_register.
  rewrite upper_idempotent.
  destruct (dict_get _ REGISTERS); [reflexivity | exact I].
Qed.

Lemma agree_bind {A B : Type} (r1 r2 : result A) (k1 k2 : A -> result B) :
  agree r1 r2 -> (forall a, agree (k1 a) (k2 a)) ->
  agree (bind r1 k1) (bind r2 k2).
Proof.
  destruct r1 as [a | e], r2 as [b | e']; cbn; try contradiction.
  - intros <- H. apply H.
  - intros _ _. exact I.
Qed.

Lemma agree_refl {A : Type} (r : result A) : agree r r.
Proof. destruct r; [reflexivity | exact I]. Qed.

Lemma part_upper (i : nat) (parts : list string) :
  part i (map upper parts) = upper (part i parts).
Proof.
  unfold part. change EmptyString with (upper EmptyString) at 1.
  apply map_nth.
Qed.

Lemma parse_operands_upper (m : string) (ty : instr_type)
  (parts : list string) :
  agree (parse_operands m ty (map upper parts)) (parse_operands m ty parts).
Proof.
  destruct ty; cbn [parse_operands]; rewrite ?length_map, ?part_upper;
    try apply agree_refl;
    match goal with
    | |- context [if ?b then _ else _] => destruct b; [exact I |]
    end;
    repeat (apply agree_bind;
            [first [ apply parse_register_upper
                   | apply parse_immediate_upper
                   | match goal with
                     | |- agree (parse_register
                                   (remove_char _ (remove_char _ (upper ?x)))) _ =>
                         change (remove_char "]" (remove_char "[" (upper x)))
                           with (strip_brackets (upper x));
                         rewrite strip_brackets_upper;
                         apply (parse_register_upper (strip_brackets x))
                     end ]
            | intros ?]);
    apply agree_refl.
Qed.

Lemma parse_parts_upper (parts : list string) :
  agree (parse_parts (map upper parts)) (parse_parts parts).
Proof.
  destruct parts as [| p0 ops]; [exact I |].
  change (map upper (p0 :: ops)) with (upper p0 :: map upper ops).
  unfold parse_parts. rewrite upper_idempotent.
  destruct (dict_get (upper p0) OPCODES) as [opcode |]; [| exact I].
  destruct (dict_get (upper p0) INSTR_TYPES) as [ty |]; [| exact I].
  apply agree_bind.
  - apply (parse_operands_upper (upper p0) ty (p0 :: ops)).
  - intros [[rd rs] imm]. apply agree_refl.
Qed.

Lemma contributions_upper (lines : list string) :
  forall start : nat,
    flat_map word_of (numbered_from start (map upper lines)) =
      flat_map word_of (numbered_from start lines) /\
    List.length (flat_map error_of (numbered_from start (map upper lines))) =
      List.length (flat_map error_of (numbered_from start lines)).
Proof.
  unfold numbered_from.
  induction lines as [| line rest IH]; intros start; [now split |].
  cbn [map List.length seq combine flat_map]. rewrite !length_app.
  destruct (IH (S start)) as [-> ->].
  unfold word_of, error_of, line_result. cbn [fst snd].
  rewrite clean_line_upper, is_empty_upper.
  destruct (is_empty (clean_line line)); [now split |].
  unfold parse_line. rewrite tokens_upper.
  pose proof (parse_parts_upper (tokens (clean_line line))) as Ha.
  destruct (parse_parts (map upper (tokens (clean_line line)))) as [w | e],
           (parse_parts (tokens (clean_line line))) as [w' | e'];
    cbn in Ha; try contradiction; subst; now split.
Qed.

Lemma assemble_upper (text : string) :
  program (assemble (upper text)) = program (assemble text) /\
  List.length (errors (assemble (upper text))) =
    List.length (errors (assemble text)) /\
  success (assemble (upper text)) = success (assemble text).
Proof.
  destruct (assemble_spec (upper text)) as (Hp & He & Hs).
  destruct (assemble_spec text) as (Hp' & He' & Hs').
  assert (Hlen : List.length (errors (assemble (upper text))) =
                 List.length (errors (assemble text))).
  { rewrite He, He'. unfold errors_of. rewrite split_lines_upper.
    apply contributions_upper. }
  repeat split.
  - rewrite Hp, Hp'. unfold program_of. rewrite split_lines_upper.
    apply contributions_upper.
  - exact Hlen.
  - now rewrite Hs, Hs', Hlen.
Qed.

(** X19. The assembler does not look at letter case: two texts that differ
    only in the case of their letters (mnemonics, register names, the
    prefix and the digits of hexadecimal and binary immediates, comments)
    assemble to the same program, with the same number of errors and the
    same success flag.  Only the tokens cited in error texts can differ. *)
Theorem assemble_case_insensitive (t1 t2 : string) :
  upper t1 = upper t2 ->
  program (assemble t1) = program (assemble t2) /\
  List.length (errors (assemble t1)) = List.length (errors (assemble t2)) /\
  success (assemble t1) = success (assemble t2).
Proof.
  intros H.
  destruct (assemble_upper t1) as (Hp1 & He1 & Hs1).
  destruct (assemble_upper t2) as (Hp2 & He2 & Hs2).
  rewrite H in Hp1, He1, Hs1.
  rewrite <- Hp1, <- He1, <- Hs1, Hp2, He2, Hs2. repeat split.
Qed.

Lemma assemble_case_insensitive_witness :
  program (assemble ("ldi r0, 0xff ; Load" ++ newline ++ "St R0, [r1]")) =
  program (assemble ("LDI R0, 0XFF ; load" ++ newline ++ "sT r0, [R1]")).
Proof.
  apply (assemble_case_insensitive
           ("ldi r0, 0xff ; Load" ++ newline ++ "St R0, [r1]")
           ("LDI R0, 0XFF ; load" ++ newline ++ "sT r0, [R1]")).
  reflexivity.
Defined.

End CaseInsensitive.

(** ** Tokens *)

Section Tokens.

Lemma all_chars_app (p : ascii -> bool) (s t : string) :
  all_chars p (s ++ t) = all_chars p s && all_chars p t.
Proof.
  induction s as [| c s IH]; [reflexivity |].
  cbn. now rewrite IH, andb_assoc.
Qed.

Lemma split_ws_from_chars (p : ascii -> bool) (s : string) :
  forall cur : string,
    all_chars p cur = true ->
    all_chars (fun c => negb (is_space c)) cur = true ->
    all_chars (fun c => is_space c || p c) s = true ->
    Forall (fun t => is_empty t = false /\ all_chars p t = true /\
                     all_chars (fun c => negb (is_space c)) t = true)
           (split_ws_from cur s).
Proof.
  induction s as [| a s IH]; intros cur Hcur Hns Hs.
  - cbn. destruct (is_empty cur) eqn:He; constructor;
      [now repeat split | constructor].
  - cbn [split_ws_from all_chars] in *.
    apply andb_true_iff in Hs. destruct Hs as [Ha Hs].
    destruct (is_space a) eqn:Hsp.
    + destruct (is_empty cur) eqn:He.
      * now apply (IH EmptyString).
      * constructor; [now repeat split |]. now apply (IH EmptyString).
    + cbn [orb] in Ha. apply IH.
      * rewrite all_chars_app, Hcur. cbn. now rewrite Ha.
      * rewrite all_chars_app, Hns. cbn. now rewrite Hsp.
      * exact Hs.
Qed.

Lemma replace_comma_chars (s : string) :
  all_chars (fun c => is_space c || negb (Ascii.eqb c ","))
            (replace_char "," " " s) = true.
Proof.
  induction s as [| a s IH]; [reflexivity |].
  unfold replace_char in *. cbn [map_chars all_chars]. rewrite IH.
  destruct (Ascii.eqb a ",") eqn:E; [reflexivity |].
  rewrite E. cbn. now rewrite orb_true_r.
Qed.

(** X20. The tokens [parse_line] works on are never empty and hold neither
    a comma nor a blank: commas and blanks only separate, in any number and
    mix. *)
Theorem tokens_have_no_separator (line : string) :
  Forall (fun t => is_empty t = false /\
                   all_chars (fun c => negb (is_separator c)) t = true)
         (tokens line).
Proof.
  unfold tokens, split_ws.
  pose proof (split_ws_from_chars (fun c => negb (Ascii.eqb c ","))
                (replace_char "," " " line) EmptyString eq_refl eq_refl
                (replace_comma_chars line)) as H.
  eapply Forall_impl; [| exact H].
  intros t (He & Hc & Hs). split; [exact He |].
  clear - Hc Hs. induction t as [| c t IH]; [reflexivity |].
  cbn in *. apply andb_true_iff in Hc, Hs.
  destruct Hc as [Hc1 Hc2], Hs as [Hs1 Hs2].
  rewrite IH by assumption. unfold is_separator.
  apply negb_true_iff in Hc1, Hs1. now rewrite Hc1, Hs1.
Qed.

Example separators_mix :
  tokens "ADD R0,R1" = ["ADD"; "R0"; "R1"] /\
  tokens "ADD R0 , R1" = ["ADD"; "R0"; "R1"] /\
  tokens "ADD,R0,,R1" = ["ADD"; "R0"; "R1"].
Proof. vm_compute. repeat split; reflexivity. Qed.

End Tokens.

(** ** Instances *)

Section Instances.

Lemma empty_instruction_iff_witness :
  parse_line " , ," 1 = Err EmptyInstruction /\
  line_result 4 "  ,, ; nothing" = Some (Err EmptyInstruction).
Proof.
  split.
  - apply (proj2 (proj1 (empty_instruction_iff " , ," 1))). reflexivity.
  - apply (proj2 (proj2 (empty_instruction_iff "  ,, ; nothing" 4))).
    split; reflexivity.
Defined.

Lemma errors_sorted_by_line_witness :
  In (2, UnknownInstruction "FOO")
     (failures_from 1 (split_char LF source_failing_2_5)).
Proof.
  apply (proj2 (proj2 (proj2 (proj2
                  (errors_sorted_by_line source_failing_2_5)))
                  2 (UnknownInstruction "FOO"))).
  exists "FOO R0". repeat split. lia.
Defined.

Lemma health_reflects_lookup_witness :
  h_iverilog
    (health (find_iverilog (fun _ => None) (String.eqb "/usr/bin/iverilog"))
            (find_vvp (fun _ => None) (String.eqb "/usr/bin/iverilog"))) =
  true.
Proof.
  apply (proj2 (proj1 (health_reflects_lookup (fun _ => None)
                         (String.eqb "/usr/bin/iverilog") unit tt tools_ok
                         prints_trace loads "0000"))).
  apply Exists_exists. exists "/usr/bin/iverilog". split; [| reflexivity].
  cbn. tauto.
Defined.

End Instances.
